(** * Opal privacy metrics: a shallow embedding and its verified properties

    The development embeds the decision logic of
    [opal-ui/src/services/privacyMetricsEngine.js] (class
    [PrivacyMetricsEngine]) and the session roll-up
    [calculateAggregatedMetrics] of the [PrivacyMetricsPanel] component,
    and proves or refutes the statements of the design specification
    about them.

    Modelling conventions.
    - Integer-valued JavaScript numbers (table constants, results of
      [Math.floor], [Math.round], list lengths) are [Z].
    - A quotient whose divisor is known to be non-zero is an exact
      rational [Q]; the binary rounding of IEEE doubles is idealised
      away.  Where the divisor may be zero the result is a [JS.number],
      which carries [NaN] and the two infinities.
    - Strings are [string]; case conversion and pattern matching treat
      them as ASCII.
    - A JavaScript exception is the [Throw] constructor of [JS.outcome];
      [Math.random] reads an explicit stream of draws. *)

From Stdlib Require Import ZArith QArith Qround Lia Ascii String.
From stdpp Require Import gmap strings list fin_maps.

Local Open Scope Z_scope.

(** ** JavaScript values *)

Module JS.

(** Completion of a call: a value, or a thrown error with its message. *)
Inductive outcome (A : Type) : Type :=
| Return (a : A)
| Throw (msg : string).
Arguments Return {A} a.
Arguments Throw {A} msg.

(** Numbers that may come out of a division: a finite value, an
    infinity, or NaN.  Signed zeros are not distinguished. *)
Inductive number : Type :=
| Fin (q : Q)
| PosInf
| NegInf
| NaN.

Definition of_Z (z : Z) : number := Fin (inject_Z z).

(** [x + y] *)
Definition add (x y : number) : number :=
  match x, y with
  | NaN, _ | _, NaN => NaN
  | Fin a, Fin b => Fin (a + b)
  | PosInf, NegInf | NegInf, PosInf => NaN
  | PosInf, _ | _, PosInf => PosInf
  | NegInf, _ | _, NegInf => NegInf
  end.

(** An infinity scaled by a finite factor. *)
Definition scale_inf (positive : bool) (q : Q) : number :=
  match (q ?= 0)%Q with
  | Eq => NaN
  | Gt => if positive then PosInf else NegInf
  | Lt => if positive then NegInf else PosInf
  end.

(** [x * y] *)
Definition mul (x y : number) : number :=
  match x, y with
  | NaN, _ | _, NaN => NaN
  | Fin a, Fin b => Fin (a * b)
  | PosInf, Fin q | Fin q, PosInf => scale_inf true q
  | NegInf, Fin q | Fin q, NegInf => scale_inf false q
  | PosInf, PosInf | NegInf, NegInf => PosInf
  | PosInf, NegInf | NegInf, PosInf => NegInf
  end.

(** [x / y]; a finite value over zero is an infinity, [0 / 0] is NaN. *)
Definition div (x y : number) : number :=
  match x, y with
  | NaN, _ | _, NaN => NaN
  | Fin a, Fin b =>
      match (b ?= 0)%Q with
      | Eq =>
          match (a ?= 0)%Q with
          | Eq => NaN
          | Gt => PosInf
          | Lt => NegInf
          end
      | _ => Fin (a / b)
      end
  | Fin _, (PosInf | NegInf) => Fin 0
  | PosInf, Fin b => if Qle_bool 0 b then PosInf else NegInf
  | NegInf, Fin b => if Qle_bool 0 b then NegInf else PosInf
  | (PosInf | NegInf), (PosInf | NegInf) => NaN
  end.

(** [Math.round] on a finite value: nearest integer, halves upwards. *)
Definition round_half_up (q : Q) : Z := Qfloor (q + (1 # 2)).

(** [Math.round(x)] *)
Definition round (x : number) : number :=
  match x with
  | Fin q => of_Z (round_half_up q)
  | other => other
  end.

(** [x >= y]; every comparison with NaN is false. *)
Definition geb (x y : number) : bool :=
  match x, y with
  | NaN, _ | _, NaN => false
  | Fin a, Fin b => Qle_bool b a
  | PosInf, _ => true
  | _, NegInf => true
  | _, _ => false
  end.

(** *** Effects: random draws and exceptions

    [Math.random] is a read from a stream of draws; a computation takes
    the stream and gives back its completion and the rest of the
    stream. *)
Definition rng : Type := nat -> Q.

Definition M (A : Type) : Type := rng -> outcome A * rng.

#[global] Instance M_ret : MRet M := fun A a s => (Return a, s).

#[global] Instance M_bind : MBind M := fun A B f m s =>
  match m s with
  | (Return a, s') => f a s'
  | (Throw e, s') => (Throw e, s')
  end.

Definition throw {A : Type} (msg : string) : M A := fun s => (Throw msg, s).

(** [try { body } catch (error) { handler(error.message) }] *)
Definition try_catch {A : Type} (body : M A) (handler : string -> M A) : M A :=
  fun s =>
    match body s with
    | (Return a, s') => (Return a, s')
    | (Throw e, s') => handler e s'
    end.

(** [Math.random()] *)
Definition Math_random : M Q := fun s => (Return (s 0%nat), fun n => s (S n)).

End JS.

(** ** Strings: case conversion and the patterns of the column table *)

Module Text.

Definition is_upper (c : ascii) : bool :=
  let n := nat_of_ascii c in ((65 <=? n) && (n <=? 90))%nat.

Definition is_lower (c : ascii) : bool :=
  let n := nat_of_ascii c in ((97 <=? n) && (n <=? 122))%nat.

Definition lower_ascii (c : ascii) : ascii :=
  if is_upper c then ascii_of_nat (nat_of_ascii c + 32) else c.

Definition upper_ascii (c : ascii) : ascii :=
  if is_lower c then ascii_of_nat (nat_of_ascii c - 32) else c.

Fixpoint map_chars (f : ascii -> ascii) (s : string) : string :=
  match s with
  | EmptyString => EmptyString
  | String c r => String (f c) (map_chars f r)
  end.

(** [s.toLowerCase()], [s.toUpperCase()] *)
Definition toLowerCase : string -> string := map_chars lower_ascii.
Definition toUpperCase : string -> string := map_chars upper_ascii.

(** The regular expressions of [sensitivePatterns] all have the shape
    [lit(.*lit)?|...] with the flag [i]: alternatives separated by a
    bar, each one a run of literal pieces joined by [.*].  They are
    kept as their source text and read by the two splitters below. *)
Fixpoint split_bar (s cur : string) : list string :=
  match s with
  | EmptyString => [cur]
  | String "|" r => cur :: split_bar r EmptyString
  | String c r => split_bar r (cur ++ String c EmptyString)
  end.

Fixpoint split_dotstar (s cur : string) : list string :=
  match s with
  | EmptyString => [cur]
  | String "." (String "*" r) => cur :: split_dotstar r EmptyString
  | String c r => split_dotstar r (cur ++ String c EmptyString)
  end.

Definition alternatives (source : string) : list (list string) :=
  map (fun alt => split_dotstar alt EmptyString) (split_bar source EmptyString).

(** [lit] is a prefix of [s], letters compared without case. *)
Fixpoint prefix_ci (lit s : string) : bool :=
  match lit, s with
  | EmptyString, _ => true
  | String _ _, EmptyString => false
  | String a lit', String b s' =>
      Ascii.eqb (lower_ascii a) (lower_ascii b) && prefix_ci lit' s'
  end.

Fixpoint drop_chars (n : nat) (s : string) : string :=
  match n, s with
  | O, _ => s
  | S _, EmptyString => EmptyString
  | S n', String _ s' => drop_chars n' s'
  end.

(** The dot matches every character but a line terminator. *)
Definition line_terminator (c : ascii) : bool :=
  Ascii.eqb c "010" || Ascii.eqb c "013".

(** The pieces match from the first character of [s] on: the first
    piece is a prefix, and each [.*] skips characters up to a later
    occurrence of the next piece. *)
Fixpoint match_here (pieces : list string) (s : string) {struct pieces} : bool :=
  match pieces with
  | [] => true
  | lit :: rest =>
      prefix_ci lit s &&
      match rest with
      | [] => true
      | _ :: _ =>
          (fix skip (t : string) : bool :=
             match_here rest t ||
             match t with
             | EmptyString => false
             | String c t' => negb (line_terminator c) && skip t'
             end) (drop_chars (String.length lit) s)
      end
  end.

(** Unanchored search for one alternative. *)
Fixpoint search (pieces : list string) (s : string) : bool :=
  match_here pieces s ||
  match s with
  | EmptyString => false
  | String _ s' => search pieces s'
  end.

(** [new RegExp(source, 'i').test(s)] *)
Definition RegExp_test (source s : string) : bool :=
  existsb (fun pieces => search pieces s) (alternatives source).

End Text.

(** ** The engine *)

Module Engine.
Import JS.

(** *** Data *)

(** One entry of [dataTypes].  The [confidence] and [count] fields are
    written by the analysers but read by no scoring function; they are
    left out (the draws that fill them are still taken). *)
Record Finding : Type := mkFinding {
  field : string;
  type : string;
  isPII : bool;
  sensitivityScore : Z
}.

(** The argument of [assessPrivacy]: what the file processor hands
    over.  A field that may be [undefined] is an [option]. *)
Record ImageObject : Type := mkImageObject { objType : option string }.

Record Entity : Type := mkEntity { entityType : string }.

Record Insights : Type := mkInsights {
  detectedColumns : option (list string);
  detectedObjects : option (list ImageObject);
  detectedEntities : option (list Entity)
}.

Record FileAnalysis : Type := mkFileAnalysis {
  fileType : option string;
  insights : option Insights
}.

(** Result of [analyzeSensitivity] ([fieldBreakdown], a per-type
    tally for display, is left out). *)
Record SensitivityAnalysis : Type := mkSensitivityAnalysis {
  dataTypes : list Finding;
  piiFields : list Finding;
  sensitivityLevel : string;
  sensitivityAnalysisScore : Z  (* [analysis.sensitivityScore] *)
}.

Record Requirement : Type := mkRequirement {
  requirement : string;
  requirementStatus : string;
  requirementScore : Z
}.

Record ComplianceResult : Type := mkComplianceResult {
  score : Z;
  status : string;
  requirements : list Requirement
}.

Inductive Technique : Type :=
| DIFFERENTIAL_PRIVACY
| HOMOMORPHIC_ENCRYPTION
| SECURE_MULTIPARTY
| K_ANONYMITY
| L_DIVERSITY
| T_CLOSENESS
| DATA_MASKING
| TOKENIZATION
| FEDERATED_LEARNING.

#[global] Instance Technique_eq_dec : EqDecision Technique.
Proof. solve_decision. Defined.

Record Recommendation : Type := mkRecommendation {
  technique : Technique;
  priority : string;
  reason : string
}.

(** *** Configuration tables of the constructor *)

Record FrameworkConfig : Type := mkFrameworkConfig {
  weight : Q;
  frameworkRequirements : list string
}.

Definition complianceFrameworks : list (string * FrameworkConfig) :=
  [ ("GDPR", mkFrameworkConfig (3 # 10)
       ["consent"; "rightToErasure"; "dataMinimization"; "transparency"]);
    ("HIPAA", mkFrameworkConfig (25 # 100)
       ["encryption"; "accessControls"; "auditTrails"; "dataIntegrity"]);
    ("CCPA", mkFrameworkConfig (25 # 100)
       ["transparentCollection"; "optOut"; "dataRights"; "nonDiscrimination"]);
    ("SOX", mkFrameworkConfig (2 # 10)
       ["financialAccuracy"; "internalControls"; "auditability"; "dataRetention"]) ]%string.

(** [this.privacyTechniques[t].effectivenessScore] *)
Definition effectivenessScore (t : Technique) : Z :=
  match t with
  | DIFFERENTIAL_PRIVACY => 95
  | HOMOMORPHIC_ENCRYPTION => 98
  | SECURE_MULTIPARTY => 92
  | K_ANONYMITY => 75
  | L_DIVERSITY => 80
  | T_CLOSENESS => 85
  | DATA_MASKING => 60
  | TOKENIZATION => 70
  | FEDERATED_LEARNING => 88
  end.

(** *** Helpers *)

(** A string-valued expression that may be [undefined], compared with
    a literal by [===] or a [switch] label. *)
Definition is_label (v : option string) (label : string) : bool :=
  match v with
  | Some s => String.eqb s label
  | None => false
  end.

(** [recommendations.push(x)] *)
Definition push {A : Type} (l : list A) (x : A) : list A := l ++ [x].

Definition getRandomNumber (min max : Z) : M Z :=
  r ← Math_random;
  mret (Qfloor (r * inject_Z (max - min + 1)) + min).

(** *** Sensitivity *)

Record SensitivePattern : Type := mkSensitivePattern {
  pattern : string;
  patternType : string;
  patternIsPII : bool;
  patternScore : Z
}.

Definition sensitivePatterns : list SensitivePattern :=
  [ mkSensitivePattern "email|e-mail|mail" "EMAIL" true 80;
    mkSensitivePattern "phone|tel|mobile" "PHONE" true 75;
    mkSensitivePattern "ssn|social.*security|tax.*id" "SSN" true 95;
    mkSensitivePattern "credit.*card|card.*number|cc" "CREDIT_CARD" true 90;
    mkSensitivePattern "address|street|zip|postal" "ADDRESS" true 70;
    mkSensitivePattern "name|first.*name|last.*name" "NAME" true 65;
    mkSensitivePattern "birth.*date|dob|age" "BIRTHDATE" true 75;
    mkSensitivePattern "salary|income|wage|compensation" "FINANCIAL" true 85;
    mkSensitivePattern "medical|health|diagnosis|treatment" "MEDICAL" true 95;
    mkSensitivePattern "passport|license|id.*number" "ID_NUMBER" true 90 ]%string.

(** The inner [sensitivePatterns.forEach] of one column: the running
    [(maxScore, detectedType, isPII)]. *)
Definition matchColumn (column : string) : Z * string * bool :=
  foldl
    (fun '(maxScore, detectedType, isPII) p =>
       if Text.RegExp_test (pattern p) column then
         if maxScore <? patternScore p
         then (patternScore p, patternType p, patternIsPII p)
         else (maxScore, detectedType, isPII)
       else (maxScore, detectedType, isPII))
    (0, "GENERAL"%string, false) sensitivePatterns.

(** The body of [detectedColumns.forEach]: the finding pushed for one
    column.  The second draw fills [confidence]. *)
Definition classifyColumn (column : string) : M Finding :=
  let '(maxScore, detectedType, isPII) := matchColumn column in
  sensitivityScore ←
    (if maxScore =? 0 then getRandomNumber 10 30 else mret maxScore);
  _ ← (if 0 <? maxScore then getRandomNumber 80 95 else getRandomNumber 40 70);
  mret (mkFinding column detectedType isPII sensitivityScore).

Definition analyzeCSVSensitivity (fileAnalysis : FileAnalysis) : M (list Finding) :=
  let detectedColumns :=
    match insights fileAnalysis with
    | Some i => default [] (detectedColumns i)
    | None => []
    end in
  mapM classifyColumn detectedColumns.

(** The body of [detectedObjects.forEach]. *)
Definition classifyObject (obj : ImageObject) : M Finding :=
  match objType obj with
  | None => throw "Cannot read properties of undefined (reading 'toLowerCase')"
  | Some t =>
      let kind := Text.toLowerCase t in
      let '(sensitivityScore, isPII) :=
        if String.eqb kind "person" then (85, true)
        else if String.eqb kind "text" || String.eqb kind "document" then (70, true)
        else if String.eqb kind "vehicle" then (60, false)
        else if String.eqb kind "building" then (40, false)
        else (25, false) in
      mret (mkFinding ("Image_" ++ t) (Text.toUpperCase t) isPII sensitivityScore)
  end.

Definition analyzeImageSensitivity (fileAnalysis : FileAnalysis) : M (list Finding) :=
  let detectedObjects :=
    match insights fileAnalysis with
    | Some i => default [] (detectedObjects i)
    | None => []
    end in
  mapM classifyObject detectedObjects.

(** The body of [detectedEntities.forEach]. *)
Definition classifyEntity (entity : Entity) : M Finding :=
  let t := entityType entity in
  let '(sensitivityScore, isPII) :=
    if String.eqb t "PERSON" then (80, true)
    else if String.eqb t "ORGANIZATION" then (40, false)
    else if String.eqb t "LOCATION" then (60, true)
    else if String.eqb t "DATE" then (30, false)
    else if String.eqb t "MONEY" then (70, true)
    else (50, true) in
  mret (mkFinding ("Doc_" ++ t) t isPII sensitivityScore).

Definition analyzeDocumentSensitivity (fileAnalysis : FileAnalysis) : M (list Finding) :=
  let detectedEntities :=
    match insights fileAnalysis with
    | Some i => default [] (detectedEntities i)
    | None => []
    end in
  mapM classifyEntity detectedEntities.

(** [dataTypes.reduce((sum, dt) => sum + dt.sensitivityScore, 0)] *)
Definition sumScores (dataTypes : list Finding) : Z :=
  foldl (fun sum dt => sum + sensitivityScore dt) 0 dataTypes.

(** Past the guard [dataTypes] is not empty, so the mean is an ordinary
    quotient. *)
Definition calculateSensitivityScore (dataTypes : list Finding) : Z :=
  if (length dataTypes =? 0)%nat then 20
  else
    let avgScore : Q :=
      (inject_Z (sumScores dataTypes) / inject_Z (Z.of_nat (length dataTypes)))%Q in
    let piiBonus : Z :=
      Z.of_nat (length (filter (fun dt => isPII dt = true) dataTypes)) * 5 in
    Z.min 100 (round_half_up (avgScore + inject_Z piiBonus)).

Definition getSensitivityLevel (score : Z) : string :=
  if 85 <=? score then "TOP_SECRET"
  else if 70 <=? score then "RESTRICTED"
  else if 50 <=? score then "CONFIDENTIAL"
  else if 30 <=? score then "INTERNAL"
  else "PUBLIC".

(** The second half of [analyzeSensitivity]: everything it derives
    from [dataTypes]. *)
Definition sensitivityOf (dataTypes : list Finding) : SensitivityAnalysis :=
  let sensitivityScore := calculateSensitivityScore dataTypes in
  {| dataTypes := dataTypes;
     piiFields := filter (fun dt => isPII dt = true) dataTypes;
     sensitivityLevel := getSensitivityLevel sensitivityScore;
     sensitivityAnalysisScore := sensitivityScore |}.

Definition analyzeSensitivity (fileAnalysis : FileAnalysis) : M SensitivityAnalysis :=
  dataTypes ←
    (if is_label (fileType fileAnalysis) "csv" then analyzeCSVSensitivity fileAnalysis
     else if is_label (fileType fileAnalysis) "image" then analyzeImageSensitivity fileAnalysis
     else if is_label (fileType fileAnalysis) "document" then analyzeDocumentSensitivity fileAnalysis
     else mret []);
  mret (sensitivityOf dataTypes).

(** *** Compliance *)

Definition Qlt_bool (a b : Q) : bool := negb (Qle_bool b a).

Definition assessRequirements (framework : string)
    (sensitivityAnalysis : SensitivityAnalysis) : M (list Requirement) :=
  match List.find (fun entry => String.eqb (fst entry) framework) complianceFrameworks with
  | None => throw "Cannot read properties of undefined (reading 'requirements')"
  | Some (_, config) =>
      mapM
        (fun req =>
           r ← Math_random;
           score ← getRandomNumber 75 95;
           mret (mkRequirement req (if Qlt_bool (2 # 10) r then "MET" else "PARTIAL") score))
        (frameworkRequirements config)
  end.

(** [piiFields.some(f => f.type === a || f.type === b)] and its
    one-label form. *)
Definition someType (labels : list string) (fields : list Finding) : bool :=
  existsb (fun f => existsb (String.eqb (type f)) labels) fields.

(** The body of the [forEach] of [assessCompliance] up to the object
    literal: the running [score] of one framework. *)
Definition frameworkScore (framework : string)
    (sensitivityAnalysis : SensitivityAnalysis) : Z :=
  let score := 85 in
  let score :=
    if String.eqb (sensitivityLevel sensitivityAnalysis) "RESTRICTED" then score - 15
    else if String.eqb (sensitivityLevel sensitivityAnalysis) "CONFIDENTIAL" then score - 10
    else score in
  let score :=
    if (5 <? length (piiFields sensitivityAnalysis))%nat then score - 10
    else if (2 <? length (piiFields sensitivityAnalysis))%nat then score - 5
    else score in
  if String.eqb framework "GDPR" then
    if someType ["EMAIL"; "NAME"]%string (piiFields sensitivityAnalysis)
    then score - 5 else score
  else if String.eqb framework "HIPAA" then
    if someType ["MEDICAL"]%string (piiFields sensitivityAnalysis)
    then score - 10 else score
  else if String.eqb framework "CCPA" then
    if someType ["FINANCIAL"]%string (piiFields sensitivityAnalysis)
    then score - 8 else score
  else score.

Definition statusOf (score : Z) : string :=
  if 85 <=? score then "COMPLIANT"
  else if 70 <=? score then "NEEDS_ATTENTION"
  else "NON_COMPLIANT".

(** [complianceScores] is the object built key by key; it is kept as
    its entries in insertion order. *)
Definition assessCompliance (fileAnalysis : FileAnalysis)
    (sensitivityAnalysis : SensitivityAnalysis) : M (list (string * ComplianceResult)) :=
  mapM
    (fun '(framework, config) =>
       let score := frameworkScore framework sensitivityAnalysis in
       requirements ← assessRequirements framework sensitivityAnalysis;
       mret (framework,
             {| score := Z.max 60 (Z.min 98 score);
                status := statusOf score;
                requirements := requirements |}))
    complianceFrameworks.

(** *** Recommendations *)

Definition recommendPrivacyTechniques (fileAnalysis : FileAnalysis)
    (sensitivityAnalysis : SensitivityAnalysis) : list Recommendation :=
  let recommendations : list Recommendation := [] in
  let level := sensitivityLevel sensitivityAnalysis in
  let recommendations :=
    if String.eqb level "RESTRICTED" || String.eqb level "TOP_SECRET" then
      push
        (push recommendations
           (mkRecommendation HOMOMORPHIC_ENCRYPTION "HIGH"
              "Maximum privacy protection for highly sensitive data"))
        (mkRecommendation SECURE_MULTIPARTY "HIGH"
           "Secure computation without revealing individual data points")
    else if String.eqb level "CONFIDENTIAL" then
      push
        (push recommendations
           (mkRecommendation DIFFERENTIAL_PRIVACY "HIGH"
              "Strong privacy guarantees with statistical utility"))
        (mkRecommendation FEDERATED_LEARNING "MEDIUM"
           "Distributed processing without data centralization")
    else if String.eqb level "INTERNAL" then
      push
        (push recommendations
           (mkRecommendation K_ANONYMITY "MEDIUM"
              "Effective anonymization for internal use"))
        (mkRecommendation TOKENIZATION "MEDIUM"
           "Replace sensitive values with non-sensitive tokens")
    else
      push recommendations
        (mkRecommendation DATA_MASKING "LOW"
           "Basic protection for non-sensitive data") in
  let recommendations :=
    if is_label (fileType fileAnalysis) "csv" then
      if (3 <? length (piiFields sensitivityAnalysis))%nat then
        push recommendations
          (mkRecommendation L_DIVERSITY "MEDIUM"
             "Enhance k-anonymity for tabular PII data")
      else recommendations
    else if is_label (fileType fileAnalysis) "image" then
      push recommendations
        (mkRecommendation FEDERATED_LEARNING "HIGH"
           "Process images without sharing raw visual data")
    else if is_label (fileType fileAnalysis) "document" then
      push recommendations
        (mkRecommendation TOKENIZATION "HIGH"
           "Replace document entities with privacy-safe tokens")
    else recommendations in
  take 4 recommendations.

(** *** Overall score and risk *)

(** [metrics] is one object filled field by field; every step reads
    only fields written before it.  [Scored] is what steps 1 to 3 have
    written, which is all that [calculateOverallScore] reads. *)
Record Scored : Type := mkScored {
  complianceScores : list (string * ComplianceResult);
  sensitivityAnalysis : SensitivityAnalysis;
  recommendedTechniques : list Recommendation
}.

(** The two accumulators [score] and [weightSum] are numbered after
    each assignment. *)
Definition calculateOverallScore (metrics : Scored) : number :=
  let score0 := of_Z 0 in
  let weightSum0 := of_Z 0 in
  let complianceAvg :=
    div
      (of_Z (foldl (fun sum comp => sum + score comp) 0
               (map snd (complianceScores metrics))))
      (of_Z (Z.of_nat (length (map fst (complianceScores metrics))))) in
  let score1 := add score0 (mul complianceAvg (Fin (4 # 10))) in
  let weightSum1 := add weightSum0 (Fin (4 # 10)) in
  let sensitivityScore :=
    Z.max 0 (100 - sensitivityAnalysisScore (sensitivityAnalysis metrics)) in
  let score2 := add score1 (mul (of_Z sensitivityScore) (Fin (3 # 10))) in
  let weightSum2 := add weightSum1 (Fin (3 # 10)) in
  let techniqueAvg :=
    div
      (of_Z (foldl (fun sum tech => sum + effectivenessScore (technique tech)) 0
               (recommendedTechniques metrics)))
      (of_Z (Z.of_nat (length (recommendedTechniques metrics)))) in
  let score3 := add score2 (mul techniqueAvg (Fin (3 # 10))) in
  let weightSum3 := add weightSum2 (Fin (3 # 10)) in
  round (div score3 weightSum3).

Definition determineRiskLevel (overallScore : number) : string :=
  if geb overallScore (of_Z 85) then "LOW"
  else if geb overallScore (of_Z 70) then "MEDIUM"
  else if geb overallScore (of_Z 55) then "HIGH"
  else "CRITICAL".

(** *** Dashboard figures and explanations *)

Definition getOverallComplianceStatus
    (complianceScores : list (string * ComplianceResult)) : string :=
  let scores := map (fun c => score (snd c)) complianceScores in
  let avgScore :=
    div (of_Z (foldl (fun sum s => sum + s) 0 scores))
        (of_Z (Z.of_nat (length scores))) in
  if geb avgScore (of_Z 85) then "COMPLIANT"
  else if geb avgScore (of_Z 70) then "NEEDS_ATTENTION"
  else "NON_COMPLIANT".

Definition calculateEncryptionStrength (metrics : Scored) : M Z :=
  let hasHighSecurityTechniques :=
    existsb
      (fun tech =>
         bool_decide (technique tech ∈ [HOMOMORPHIC_ENCRYPTION; SECURE_MULTIPARTY]))
      (recommendedTechniques metrics) in
  if hasHighSecurityTechniques then getRandomNumber 384 512 else getRandomNumber 256 384.

Definition calculateAnonymizationLevel (metrics : Scored) : Z :=
  let baseLevel := 80 in
  let techniqueBonus := Z.of_nat (length (recommendedTechniques metrics)) * 3 in
  let sensitivityPenalty : Q :=
    (inject_Z (sensitivityAnalysisScore (sensitivityAnalysis metrics)) * (1 # 10))%Q in
  Z.max 70
    (Z.min 98 (round_half_up (inject_Z (baseLevel + techniqueBonus) - sensitivityPenalty))).

Definition calculateAuditScore (metrics : Scored) : M Z := getRandomNumber 85 97.

(** [dataProcessingTime], copied from the argument, is left out. *)
Record RealTimeMetrics : Type := mkRealTimeMetrics {
  privacyScore : number;
  realTimeRiskLevel : string;
  piiFieldsDetected : Z;
  piiFieldsProtected : Z;
  complianceStatus : string;
  privacyTechniquesApplied : Z;
  encryptionStrength : Z;
  anonymizationLevel : Z;
  auditScore : Z
}.

Definition generateRealTimeMetrics (fileAnalysis : FileAnalysis) (metrics : Scored)
    (overallScore : number) (riskLevel : string) : M RealTimeMetrics :=
  let detected := Z.of_nat (length (piiFields (sensitivityAnalysis metrics))) in
  encryptionStrength ← calculateEncryptionStrength metrics;
  auditScore ← calculateAuditScore metrics;
  mret {| privacyScore := overallScore;
          realTimeRiskLevel := riskLevel;
          piiFieldsDetected := detected;
          piiFieldsProtected := Qfloor (inject_Z detected * (95 # 100));
          complianceStatus := getOverallComplianceStatus (complianceScores metrics);
          privacyTechniquesApplied := Z.of_nat (length (recommendedTechniques metrics));
          encryptionStrength := encryptionStrength;
          anonymizationLevel := calculateAnonymizationLevel metrics;
          auditScore := auditScore |}.

Definition explainOverallScore (score : number) : string :=
  if geb score (of_Z 85) then "Excellent privacy protection with comprehensive safeguards"
  else if geb score (of_Z 70) then "Good privacy protection with room for improvement"
  else if geb score (of_Z 55) then "Moderate privacy protection, consider additional measures"
  else "Privacy protection needs significant enhancement".

(** A risk level outside the table gives [undefined]. *)
Definition explainRiskLevel (riskLevel : string) : option string :=
  if String.eqb riskLevel "LOW" then
    Some "Minimal privacy risk with strong protective measures in place"%string
  else if String.eqb riskLevel "MEDIUM" then
    Some "Manageable risk level, monitor and consider additional protections"%string
  else if String.eqb riskLevel "HIGH" then
    Some "Elevated risk requires immediate attention and enhanced privacy measures"%string
  else if String.eqb riskLevel "CRITICAL" then
    Some "Severe privacy risk demanding urgent comprehensive protection"%string
  else None.

Record TopRecommendation : Type := mkTopRecommendation {
  topTechnique : Technique;
  explanation : string;
  effectiveness : Z
}.

Definition explainTopRecommendations (recommendations : list Recommendation)
    : list TopRecommendation :=
  map
    (fun rec =>
       mkTopRecommendation (technique rec) (reason rec)
         (effectivenessScore (technique rec)))
    (take 2 recommendations).

Record ComplianceSummary : Type := mkComplianceSummary {
  compliantCount : Z;
  totalFrameworks : Z;
  needsAttention : list (string * Z * string)
}.

Definition explainComplianceStatus
    (complianceScores : list (string * ComplianceResult)) : ComplianceSummary :=
  let nonCompliant :=
    map (fun e => (fst e, score (snd e), status (snd e)))
      (List.filter (fun e => negb (String.eqb (status (snd e)) "COMPLIANT"))
         complianceScores) in
  {| compliantCount :=
       Z.of_nat (length complianceScores) - Z.of_nat (length nonCompliant);
     totalFrameworks := Z.of_nat (length complianceScores);
     needsAttention := nonCompliant |}.

Record Explanations : Type := mkExplanations {
  overallScoreExplanation : string;
  riskLevelExplanation : option string;
  topRecommendations : list TopRecommendation;
  complianceStatusExplanation : ComplianceSummary
}.

Definition generateExplanations (metrics : Scored)
    (overallScore : number) (riskLevel : string) : Explanations :=
  {| overallScoreExplanation := explainOverallScore overallScore;
     riskLevelExplanation := explainRiskLevel riskLevel;
     topRecommendations := explainTopRecommendations (recommendedTechniques metrics);
     complianceStatusExplanation := explainComplianceStatus (complianceScores metrics) |}.

(** *** The assessment *)

(** The object [getDefaultMetrics] returns. *)
Record DefaultMetrics : Type := mkDefaultMetrics {
  defaultOverallScore : Z;
  defaultRiskLevel : string;
  error : string;
  defaultComplianceScores : list (string * ComplianceResult);
  defaultPiiFields : list Finding;
  defaultSensitivityLevel : string;
  defaultRecommendedTechniques : list Recommendation;
  defaultPrivacyScore : Z;
  defaultRealTimeRiskLevel : string;
  defaultPiiFieldsDetected : Z;
  defaultPiiFieldsProtected : Z
}.

Definition getDefaultMetrics (message : string) : DefaultMetrics :=
  {| defaultOverallScore := 75;
     defaultRiskLevel := "MEDIUM";
     error := message;
     defaultComplianceScores := [];
     defaultPiiFields := [];
     defaultSensitivityLevel := "INTERNAL";
     defaultRecommendedTechniques := [];
     defaultPrivacyScore := 75;
     defaultRealTimeRiskLevel := "MEDIUM";
     defaultPiiFieldsDetected := 0;
     defaultPiiFieldsProtected := 0 |}.

(** Steps 1 to 3 of [assessPrivacy]. *)
Definition measure (fileAnalysis : FileAnalysis) : M Scored :=
  sensitivityAnalysis ← analyzeSensitivity fileAnalysis;
  complianceScores ← assessCompliance fileAnalysis sensitivityAnalysis;
  let recommendedTechniques :=
    recommendPrivacyTechniques fileAnalysis sensitivityAnalysis in
  mret (mkScored complianceScores sensitivityAnalysis recommendedTechniques).

Section Assessment.

(** Step 6 calls [this.generatePrivacyBreakdown(fileAnalysis, metrics)].
    The class has no method of that name, so the call as it stands
    raises a [TypeError] ([absentMethod] below); the assessment is
    defined for any behaviour of the callee. *)
Variable Breakdown : Type.
Variable generatePrivacyBreakdown :
  FileAnalysis -> Scored -> number -> string -> M Breakdown.

Record Metrics : Type := mkMetrics {
  overallScore : number;
  riskLevel : string;
  measures : Scored;
  privacyBreakdown : Breakdown;
  realTimeMetrics : RealTimeMetrics;
  explanations : Explanations
}.

(** What the promise of [assessPrivacy] resolves to. *)
Inductive Assessment : Type :=
| Assessed (metrics : Metrics)
| Degraded (defaults : DefaultMetrics).

(** The [try] block.  The argument itself may be [undefined]. *)
Definition assessPrivacyBody (fileAnalysis : option FileAnalysis) : M Assessment :=
  match fileAnalysis with
  | None => throw "Cannot read properties of undefined (reading 'fileType')"
  | Some fileAnalysis =>
      metrics ← measure fileAnalysis;
      let overallScore := calculateOverallScore metrics in
      let riskLevel := determineRiskLevel overallScore in
      privacyBreakdown ←
        generatePrivacyBreakdown fileAnalysis metrics overallScore riskLevel;
      realTimeMetrics ←
        generateRealTimeMetrics fileAnalysis metrics overallScore riskLevel;
      let explanations := generateExplanations metrics overallScore riskLevel in
      mret (Assessed
              (mkMetrics overallScore riskLevel metrics privacyBreakdown
                 realTimeMetrics explanations))
  end.

Definition assessPrivacy (fileAnalysis : option FileAnalysis) : M Assessment :=
  try_catch (assessPrivacyBody fileAnalysis)
    (fun message => mret (Degraded (getDefaultMetrics message))).

End Assessment.

Arguments Assessed {Breakdown} metrics.
Arguments Degraded {Breakdown} defaults.

(** The call of a method the object does not have. *)
Definition absentMethod : FileAnalysis -> Scored -> number -> string -> M unit :=
  fun _ _ _ _ => throw "this.generatePrivacyBreakdown is not a function".

End Engine.

(** ** The session roll-up of the metrics panel *)

Module Panel.
Import JS.
Import Engine (Finding, type, Technique, Recommendation, technique,
               ComplianceResult, score).

(** *** Input: one entry of [results] *)

(** [analysis.metrics], as far as it is read. *)
Record FileMetrics : Type := mkFileMetrics {
  encryptionStrength : option Z;
  anonymizationLevel : option Z
}.

(** [analysis.sensitivityAnalysis], as far as it is read. *)
Record Sensitivity : Type := mkSensitivity {
  piiFields : option (list Finding)
}.

(** [result.analysis]; a field that may be missing is an [option].
    The scores are the integers the engine rounds them to; a
    [privacyScore] that is NaN is falsy like a missing one and is
    [None] too. *)
Record Analysis : Type := mkAnalysis {
  privacyScore : option Z;
  riskLevel : option string;
  complianceScores : option (list (string * ComplianceResult));
  recommendedTechniques : option (list Recommendation);
  sensitivityAnalysis : option Sensitivity;
  metrics : option FileMetrics
}.

Record Result : Type := mkResult { analysis : option Analysis }.

(** *** Output *)

Record Summary : Type := mkSummary {
  totalFiles : Z;
  avgPrivacyScore : number;
  overallRisk : string;
  totalPIIFields : Z;
  uniquePIITypes : Z;
  privacyTechniques : list Technique;
  riskDistribution : gmap string number;
  avgComplianceScores : gmap string number;  (* [complianceScores] *)
  avgEncryptionStrength : number;            (* [encryptionStrength] *)
  avgAnonymizationLevel : number             (* [anonymizationLevel] *)
}.

(** *** Helpers *)

(** [v || fallback] for an integer-valued field: a missing field and
    [0] are both falsy. *)
Definition orElse (v : option Z) (fallback : Z) : Z :=
  match v with
  | Some n => if n =? 0 then fallback else n
  | None => fallback
  end.

(** [set.add(x)] on a [Set] kept in insertion order. *)
Definition setAdd (set : list Technique) (x : Technique) : list Technique :=
  if bool_decide (x ∈ set) then set else set ++ [x].

(** [counts[key]++]: a key that is not there reads [undefined], and
    [undefined + 1] is NaN. *)
Definition increment (counts : gmap string number) (key : string)
    : gmap string number :=
  <[key := match counts !! key with
           | Some n => add n (of_Z 1)
           | None => NaN
           end]> counts.

(** The body of the inner [forEach] over the entries of
    [analysis.complianceScores]; a cell is [(total, count)]. *)
Definition addScore (frameworks : gmap string (Z * Z))
    (entry : string * ComplianceResult) : gmap string (Z * Z) :=
  let framework := fst entry in
  let data := snd entry in
  let frameworks :=
    match frameworks !! framework with
    | None => <[framework := (0, 0)]> frameworks
    | Some _ => frameworks
    end in
  alter (fun cell => (fst cell + score data, snd cell + 1)) framework frameworks.

(** [forEach] with a body that may throw. *)
Fixpoint forEach {A S : Type} (body : S -> A -> outcome S) (state : S)
    (items : list A) : outcome S :=
  match items with
  | [] => Return state
  | item :: rest =>
      match body state item with
      | Return state' => forEach body state' rest
      | Throw msg => Throw msg
      end
  end.

(** *** [calculateAggregatedMetrics] *)

(** The four collections the loop fills. *)
Record Tally : Type := mkTally {
  allTechniques : list Technique;
  allPIIFields : list Finding;
  riskCounts : gmap string number;
  complianceFrameworks : gmap string (Z * Z)
}.

Definition emptyTally : Tally :=
  {| allTechniques := [];
     allPIIFields := [];
     riskCounts :=
       <["CRITICAL" := of_Z 0]>
         (<["HIGH" := of_Z 0]> (<["MEDIUM" := of_Z 0]> (<["LOW" := of_Z 0]> ∅)));
     complianceFrameworks := ∅ |}.

(** The body of [results.forEach] once [analysis] is there. *)
Definition collect (tally : Tally) (analysis : Analysis) : Tally :=
  {| allTechniques :=
       match recommendedTechniques analysis with
       | Some techs => foldl (fun set tech => setAdd set (technique tech))
                         (allTechniques tally) techs
       | None => allTechniques tally
       end;
     allPIIFields :=
       match sensitivityAnalysis analysis with
       | Some {| piiFields := Some fields |} => allPIIFields tally ++ fields
       | _ => allPIIFields tally
       end;
     riskCounts :=
       match riskLevel analysis with
       | Some level =>
           if String.eqb level EmptyString then riskCounts tally
           else increment (riskCounts tally) level
       | None => riskCounts tally
       end;
     complianceFrameworks :=
       match complianceScores analysis with
       | Some entries => foldl addScore (complianceFrameworks tally) entries
       | None => complianceFrameworks tally
       end |}.

(** The body of [results.forEach]: reading a field of an [analysis]
    that is [undefined] throws. *)
Definition visit (tally : Tally) (result : Result) : outcome Tally :=
  match analysis result with
  | None => Throw "Cannot read properties of undefined (reading 'recommendedTechniques')"
  | Some analysis => Return (collect tally analysis)
  end.

(** [Math.round(results.reduce((sum, r) => sum + (get(r) || fallback), 0) / totalFiles)] *)
Definition roundedMean (get : Result -> option Z) (fallback : Z)
    (results : list Result) : number :=
  round
    (div (of_Z (foldl (fun sum r => sum + orElse (get r) fallback) 0 results))
         (of_Z (Z.of_nat (length results)))).

Definition calculateAggregatedMetrics (results : list Result) : outcome Summary :=
  let totalFiles := Z.of_nat (length results) in
  let avgPrivacyScore :=
    roundedMean (fun r => a ← analysis r; privacyScore a) 0 results in
  match forEach visit emptyTally results with
  | Throw msg => Throw msg
  | Return tally =>
      let avgComplianceScores :=
        (fun data : Z * Z => round (div (of_Z (fst data)) (of_Z (snd data))))
          <$> complianceFrameworks tally in
      let overallRisk :=
        if geb avgPrivacyScore (of_Z 85) then "LOW"
        else if geb avgPrivacyScore (of_Z 70) then "MEDIUM"
        else "HIGH" in
      Return
        {| totalFiles := totalFiles;
           avgPrivacyScore := avgPrivacyScore;
           overallRisk := overallRisk;
           totalPIIFields := Z.of_nat (length (allPIIFields tally));
           uniquePIITypes :=
             Z.of_nat (size (list_to_set (map type (allPIIFields tally)) : gset string));
           privacyTechniques := allTechniques tally;
           riskDistribution := riskCounts tally;
           avgComplianceScores := avgComplianceScores;
           avgEncryptionStrength :=
             roundedMean
               (fun r => a ← analysis r; m ← metrics a; encryptionStrength m)
               256 results;
           avgAnonymizationLevel :=
             roundedMean
               (fun r => a ← analysis r; m ← metrics a; anonymizationLevel m)
               85 results |}
  end.

(** The effect of the panel on a change of [results]: the state
    variable [metrics] is replaced only when there is something to sum
    up. *)
Definition onResults (results : option (list Result)) (current : option Summary)
    : outcome (option Summary) :=
  match results with
  | Some (first :: rest) =>
      match calculateAggregatedMetrics (first :: rest) with
      | Return aggregatedMetrics => Return (Some aggregatedMetrics)
      | Throw msg => Throw msg
      end
  | _ => Return current
  end.

End Panel.

(** ** The specification's formulas

    Definitions written after the wording of the design specification,
    to be compared with the code above. *)

Module Spec.
Import Engine.

Definition total (xs : list Z) : Z := foldr Z.add 0 xs.

(** Arithmetic mean of a non-empty list. *)
Definition mean (xs : list Z) : Q :=
  (inject_Z (total xs) / inject_Z (Z.of_nat (length xs)))%Q.

Definition clamp (lo hi x : Z) : Z := Z.max lo (Z.min hi x).

Definition clampQ (lo hi x : Q) : Q :=
  if Qle_bool x lo then lo else if Qle_bool hi x then hi else x.

(** Number of findings flagged as PII. *)
Definition countPII (findings : list Finding) : Z :=
  foldr (fun f n => if isPII f then n + 1 else n) 0 findings.

(** The level thresholds, highest first; below all of them the level
    is PUBLIC. *)
Definition levelThresholds : list (Z * string) :=
  [ (85, "TOP_SECRET"); (70, "RESTRICTED"); (50, "CONFIDENTIAL"); (30, "INTERNAL") ]%string.

Definition levelOf (score : Z) : string :=
  match List.find (fun row => fst row <=? score) levelThresholds with
  | Some row => snd row
  | None => "PUBLIC"
  end.

(** The aggregate of section 4.1 as written, without rounding. *)
Definition sensitivityFormula (findings : list Finding) : Q :=
  clampQ 0 100
    (mean (map sensitivityScore findings) + inject_Z (5 * countPII findings))%Q.

(** The number of signals the classifier reads for the artifact's
    kind. *)
Definition signalCount (fileAnalysis : FileAnalysis) : nat :=
  match insights fileAnalysis with
  | None => 0%nat
  | Some i =>
      if is_label (fileType fileAnalysis) "csv" then
        length (default [] (detectedColumns i))
      else if is_label (fileType fileAnalysis) "image" then
        length (default [] (detectedObjects i))
      else if is_label (fileType fileAnalysis) "document" then
        length (default [] (detectedEntities i))
      else 0%nat
  end.

(** Section 4.1, edge case, as written: no signals give score 20 and
    level INTERNAL. *)
Definition emptySignalsGiveInternal (fileAnalysis : FileAnalysis) (draws : JS.rng)
    : Prop :=
  exists analysis rest,
    analyzeSensitivity fileAnalysis draws = (JS.Return analysis, rest)
    /\ sensitivityAnalysisScore analysis = 20
    /\ sensitivityLevel analysis = "INTERNAL"%string.

(** Section 4.2 as written. *)
Definition levelPenalty (level : string) : Z :=
  if String.eqb level "RESTRICTED" || String.eqb level "TOP_SECRET" then 15
  else if String.eqb level "CONFIDENTIAL" then 10
  else 0.

Definition piiPenalty (count : Z) : Z :=
  if 5 <? count then 10 else if 2 <? count then 5 else 0.

(** Some finding of the list has one of the given types. *)
Definition anyOfType (labels : list string) (findings : list Finding) : bool :=
  bool_decide (Exists (fun f => type f ∈ labels) findings).

Definition frameworkPenalty (framework : string) (findings : list Finding) : Z :=
  if String.eqb framework "GDPR" then
    if anyOfType ["EMAIL"; "NAME"]%string findings then 5 else 0
  else if String.eqb framework "HIPAA" then
    if anyOfType ["MEDICAL"]%string findings then 10 else 0
  else if String.eqb framework "CCPA" then
    if anyOfType ["FINANCIAL"]%string findings then 8 else 0
  else 0.

(** Base 85, the three deductions, then the clamp.  [penalised] is the
    list of findings the framework rule looks at. *)
Definition complianceScore (framework level : string) (piiCount : Z)
    (penalised : list Finding) : Z :=
  clamp 60 98
    (85 - levelPenalty level - piiPenalty piiCount
     - frameworkPenalty framework penalised).

(** Section 4.2 for one profile, as written: the framework rule looks
    at every finding. *)
Definition complianceScoreAsWritten (framework : string)
    (profile : SensitivityAnalysis) : Z :=
  complianceScore framework (sensitivityLevel profile)
    (countPII (dataTypes profile)) (dataTypes profile).

(** What the code does: the framework rule looks at the PII findings. *)
Definition complianceScoreOverPII (framework : string)
    (profile : SensitivityAnalysis) : Z :=
  complianceScore framework (sensitivityLevel profile)
    (Z.of_nat (length (piiFields profile))) (piiFields profile).

(** The fixed status thresholds of section 3. *)
Definition statusMatchesScore (result : ComplianceResult) : Prop :=
  (status result = "COMPLIANT"%string <-> 85 <= score result)
  /\ (status result = "NEEDS_ATTENTION"%string <-> 70 <= score result < 85)
  /\ (status result = "NON_COMPLIANT"%string <-> score result < 70).

(** Section 4.3 as written: the two passes. *)
Definition tierTable : list (string * list Recommendation) :=
  let encrypted :=
    [ mkRecommendation HOMOMORPHIC_ENCRYPTION "HIGH"
        "Maximum privacy protection for highly sensitive data";
      mkRecommendation SECURE_MULTIPARTY "HIGH"
        "Secure computation without revealing individual data points" ] in
  [ ("TOP_SECRET", encrypted);
    ("RESTRICTED", encrypted);
    ("CONFIDENTIAL",
      [ mkRecommendation DIFFERENTIAL_PRIVACY "HIGH"
          "Strong privacy guarantees with statistical utility";
        mkRecommendation FEDERATED_LEARNING "MEDIUM"
          "Distributed processing without data centralization" ]);
    ("INTERNAL",
      [ mkRecommendation K_ANONYMITY "MEDIUM"
          "Effective anonymization for internal use";
        mkRecommendation TOKENIZATION "MEDIUM"
          "Replace sensitive values with non-sensitive tokens" ]) ]%string.

Definition dataMasking : Recommendation :=
  mkRecommendation DATA_MASKING "LOW" "Basic protection for non-sensitive data".

(** PUBLIC, like any level outside the table, gets data masking. *)
Definition tierPass (level : string) : list Recommendation :=
  match List.find (fun row => String.eqb (fst row) level) tierTable with
  | Some row => snd row
  | None => [dataMasking]
  end.

Definition kindPass (kind : option string) (piiCount : nat) : list Recommendation :=
  match kind with
  | Some k =>
      if String.eqb k "csv" then
        if (3 <? piiCount)%nat then
          [ mkRecommendation L_DIVERSITY "MEDIUM"
              "Enhance k-anonymity for tabular PII data" ]
        else []
      else if String.eqb k "image" then
        [ mkRecommendation FEDERATED_LEARNING "HIGH"
            "Process images without sharing raw visual data" ]
      else if String.eqb k "document" then
        [ mkRecommendation TOKENIZATION "HIGH"
            "Replace document entities with privacy-safe tokens" ]
      else []
  | None => []
  end.

(** Section 4.4 as written; the technique mean of an empty list is 0. *)
Definition meanTechniqueEffectiveness (recs : list Recommendation) : Q :=
  match recs with
  | [] => 0
  | _ :: _ => mean (map (fun r => effectivenessScore (technique r)) recs)
  end.

Definition overallScore (metrics : Scored) : Z :=
  JS.round_half_up
    ((4 # 10) * mean (map (fun c => score (snd c)) (complianceScores metrics))
     + (3 # 10) * inject_Z (100 - sensitivityAnalysisScore (sensitivityAnalysis metrics))
     + (3 # 10) * meanTechniqueEffectiveness (recommendedTechniques metrics))%Q.




(** One entry of [complianceScores] against the framework it was
    computed for. *)
Definition entryOf (profile : SensitivityAnalysis)
    (config : string * FrameworkConfig) (entry : string * ComplianceResult) : Prop :=
  fst entry = fst config
  /\ score (snd entry) = Z.max 60 (Z.min 98 (frameworkScore (fst config) profile))
  /\ status (snd entry) = statusOf (frameworkScore (fst config) profile).

(** *** Session roll-up (section 4.6) *)

(** Two tallies with the same content: the technique set and the PII
    list up to order, the counters cell by cell. *)
Definition sameTally (t1 t2 : Panel.Tally) : Prop :=
  Panel.allTechniques t1 ≡ₚ Panel.allTechniques t2
  /\ Panel.allPIIFields t1 ≡ₚ Panel.allPIIFields t2
  /\ Panel.riskCounts t1 = Panel.riskCounts t2
  /\ Panel.complianceFrameworks t1 = Panel.complianceFrameworks t2.

(** Two summaries are the same dashboard when every figure agrees and
    the technique arrays hold the same techniques. *)
Definition sameSummary (s1 s2 : Panel.Summary) : Prop :=
  Panel.totalFiles s1 = Panel.totalFiles s2
  /\ Panel.avgPrivacyScore s1 = Panel.avgPrivacyScore s2
  /\ Panel.overallRisk s1 = Panel.overallRisk s2
  /\ Panel.totalPIIFields s1 = Panel.totalPIIFields s2
  /\ Panel.uniquePIITypes s1 = Panel.uniquePIITypes s2
  /\ Panel.privacyTechniques s1 ≡ₚ Panel.privacyTechniques s2
  /\ Panel.riskDistribution s1 = Panel.riskDistribution s2
  /\ Panel.avgComplianceScores s1 = Panel.avgComplianceScores s2
  /\ Panel.avgEncryptionStrength s1 = Panel.avgEncryptionStrength s2
  /\ Panel.avgAnonymizationLevel s1 = Panel.avgAnonymizationLevel s2.

(** Two completions agree: the same error, or values that agree. *)
Definition sameOutcome {A : Type} (same : A -> A -> Prop)
    (o1 o2 : JS.outcome A) : Prop :=
  match o1, o2 with
  | JS.Return a1, JS.Return a2 => same a1 a2
  | JS.Throw m1, JS.Throw m2 => m1 = m2
  | _, _ => False
  end.

(** Section 7 as written: summing up nothing fails. *)
Definition failsOnEmptyBatch : Prop :=
  exists message, Panel.calculateAggregatedMetrics [] = JS.Throw message.

(** What [addScore] does to the cell of its framework. *)
Definition bump (v : Z) (cell : option (Z * Z)) : option (Z * Z) :=
  match cell with
  | Some c => Some (fst c + v, snd c + 1)
  | None => Some (0 + v, 0 + 1)
  end.

End Spec.
(** ** Sample inputs *)

Import Engine.

(** The findings of an image showing a person and a vehicle. *)
Definition personAndVehicle : list Finding :=
  [ mkFinding "Image_Person" "PERSON" true 85;
    mkFinding "Image_Vehicle" "VEHICLE" false 60 ].


(** A stream of draws that are all zero. *)
Definition zeroDraws : JS.rng := fun _ => 0%Q.

(** A table whose extractor reported no column. *)
Definition emptyTable : FileAnalysis :=
  mkFileAnalysis (Some "csv"%string) (Some (mkInsights (Some []) None None)).

(** An image in which the detector saw an object it calls "Email": the
    image analyser gives it the type EMAIL, the default score 25 and no
    PII flag. *)
Definition emailIcon : FileAnalysis :=
  mkFileAnalysis (Some "image"%string)
    (Some (mkInsights None (Some [mkImageObject (Some "Email"%string)]) None)).

Definition emailIconProfile : SensitivityAnalysis :=
  sensitivityOf [mkFinding "Image_Email" "EMAIL" false 25].

(** An image of a person and a vehicle. *)
Definition streetPhoto : FileAnalysis :=
  mkFileAnalysis (Some "image"%string)
    (Some (mkInsights None
             (Some [mkImageObject (Some "Person"%string);
                    mkImageObject (Some "Vehicle"%string)]) None)).

(** A CONFIDENTIAL profile without findings, as the recommender reads
    it. *)
Definition confidentialProfile : SensitivityAnalysis :=
  mkSensitivityAnalysis [] [] "CONFIDENTIAL" 60.

Definition compliant (framework : string) : string * ComplianceResult :=
  (framework, mkComplianceResult 85 "COMPLIANT" []).

Definition fourCompliant : list (string * ComplianceResult) :=
  [ compliant "GDPR"; compliant "HIPAA"; compliant "CCPA"; compliant "SOX" ].

(** Metrics of an artifact without findings: once with the
    recommendation the recommender gives it, once with none. *)
Definition maskedMetrics : Scored :=
  mkScored fourCompliant (sensitivityOf []) [Spec.dataMasking].



Definition typelessObject : FileAnalysis :=
  mkFileAnalysis (Some "image"%string)
    (Some (mkInsights None (Some [mkImageObject None]) None)).

(** Two assessed files of one session: a CONFIDENTIAL image and a
    PUBLIC table. *)
Definition imageResult : Panel.Result :=
  Panel.mkResult
    (Some
       (Panel.mkAnalysis (Some 74) (Some "MEDIUM"%string) (Some fourCompliant)
          (Some (recommendPrivacyTechniques streetPhoto confidentialProfile))
          (Some (Panel.mkSensitivity
                   (Some [mkFinding "Image_Person" "PERSON" true 85])))
          (Some (Panel.mkFileMetrics (Some 300) (Some 90))))).

Definition tableResult : Panel.Result :=
  Panel.mkResult
    (Some
       (Panel.mkAnalysis (Some 76) (Some "MEDIUM"%string) (Some fourCompliant)
          (Some (recommendPrivacyTechniques emptyTable (sensitivityOf [])))
          (Some (Panel.mkSensitivity (Some [])))
          (Some (Panel.mkFileMetrics (Some 256) None)))).

(** Draws as [Math.random] gives them: in [0, 1). *)
Definition unitDraws (s : JS.rng) : Prop := forall k, (0 <= s k)%Q /\ (s k < 1)%Q.

(** The table of the specification's scenario: columns ssn, email and
    notes; [note] is the drawn score of the unmatched column. *)
Definition ssnEmailNotes : FileAnalysis :=
  mkFileAnalysis (Some "csv"%string)
    (Some (mkInsights (Some ["ssn"; "email"; "notes"]%string) None None)).

Definition ssnEmailNotesFindings (note : Z) : list Finding :=
  [ mkFinding "ssn" "SSN" true 95; mkFinding "email" "EMAIL" true 80;
    mkFinding "notes" "GENERAL" false note ].

(** Two unmatched columns whose drawn scores are 29 and 30. *)
Definition twoPlainColumns : list Finding :=
  [ mkFinding "notes" "GENERAL" false 29; mkFinding "remarks" "GENERAL" false 30 ].

(** ** What the analysers read *)

(** [fileAnalysis.insights?.detectedColumns || []] and its two
    siblings. *)
Definition columnsOf (fileAnalysis : FileAnalysis) : list string :=
  match insights fileAnalysis with
  | Some i => default [] (detectedColumns i)
  | None => []
  end.

Definition objectsOf (fileAnalysis : FileAnalysis) : list ImageObject :=
  match insights fileAnalysis with
  | Some i => default [] (detectedObjects i)
  | None => []
  end.

Definition entitiesOf (fileAnalysis : FileAnalysis) : list Entity :=
  match insights fileAnalysis with
  | Some i => default [] (detectedEntities i)
  | None => []
  end.

(** The finding the image analyser pushes for an object of type [t]. *)
Definition objectFinding (t : string) : Finding :=
  let kind := Text.toLowerCase t in
  let '(sensitivityScore, isPII) :=
    if String.eqb kind "person" then (85, true)
    else if String.eqb kind "text" || String.eqb kind "document" then (70, true)
    else if String.eqb kind "vehicle" then (60, false)
    else if String.eqb kind "building" then (40, false)
    else (25, false) in
  mkFinding ("Image_" ++ t) (Text.toUpperCase t) isPII sensitivityScore.

(** ** The file processor: [fileProcessor.js] *)

Module Processor.
Import JS.
Import Engine (ImageObject, mkImageObject, Entity, mkEntity, Insights, mkInsights,
               FileAnalysis, mkFileAnalysis).

(** What the processor reads of a browser [File]. *)
Record File : Type := mkFile {
  name : string;
  size : Z;
  type : string
}.

(** The four values [getFileType] returns. *)
Inductive FileType : Type := csv | image | document | unknown.

(** The string a [FileType] is in the source. *)
Definition label (fileType : FileType) : string :=
  match fileType with
  | csv => "csv"
  | image => "image"
  | document => "document"
  | unknown => "unknown"
  end.

(** The argument of [generateBusinessInsights] at its three call
    sites. *)
Inductive DataType : Type := tabular | visual | textual.

(** [this.supportedTypes] *)
Definition supportedTypes (fileType : FileType) : list string :=
  match fileType with
  | csv => ["text/csv"; "application/csv"]
  | image => ["image/jpeg"; "image/png"; "image/gif"; "image/webp"]
  | document =>
      ["application/pdf"; "application/msword";
       "application/vnd.openxmlformats-officedocument.wordprocessingml.document";
       "text/plain"]
  | unknown => []
  end%string.

(** [array.includes(x)] on an array of strings *)
Definition includes (array : list string) (x : string) : bool :=
  existsb (String.eqb x) array.

(** [s.endsWith(suffix)] *)
Definition endsWith (s suffix : string) : bool :=
  (String.length suffix <=? String.length s)%nat
  && String.eqb
       (substring (String.length s - String.length suffix) (String.length suffix) s)
       suffix.

(** [array.slice(0, end)] for an integer [end]: a negative [end] counts
    from the end of the array. *)
Definition slice0 {A : Type} (array : list A) (stop : Z) : list A :=
  if stop <? 0 then take (Z.to_nat (Z.max 0 (Z.of_nat (length array) + stop))) array
  else take (Z.to_nat stop) array.

Definition getFileType (file : File) : FileType :=
  if includes (supportedTypes csv) (type file) || endsWith (name file) ".csv" then csv
  else if includes (supportedTypes image) (type file) then image
  else if includes (supportedTypes document) (type file) then document
  else unknown.

Definition getRandomNumber (min max : Z) : M Z :=
  r ← Math_random;
  mret (Qfloor (r * inject_Z (max - min + 1)) + min).

Definition getSensitiveFields (fileType : FileType) : M (list string) :=
  let fields :=
    match fileType with
    | csv => ["email"; "phone"; "ssn"; "credit_card"; "address"]
    | image => ["faces"; "license_plates"; "documents"; "locations"]
    | document => ["names"; "addresses"; "phone_numbers"; "financial_data"]
    | unknown => []
    end%string in
  stop ← getRandomNumber 1 (Z.of_nat (length fields));
  mret (slice0 fields stop).

Definition getPrivacyTechniques : M (list string) :=
  let techniques :=
    [ "Differential Privacy"; "Homomorphic Encryption"; "Federated Learning";
      "Secure Multi-party Computation"; "Zero-knowledge Proofs"; "Data Masking";
      "Tokenization" ]%string in
  stop ← getRandomNumber 2 4;
  mret (slice0 techniques stop).

Definition getRecommendations (fileType : FileType) : M (list string) :=
  let forTables :=
    [ "Apply k-anonymity to demographic columns";
      "Use differential privacy for numerical aggregations";
      "Implement field-level encryption for PII";
      "Consider data minimization techniques" ]%string in
  let recs :=
    match fileType with
    | image =>
        [ "Apply face blurring for privacy protection";
          "Remove EXIF metadata containing location data";
          "Use edge detection instead of full images";
          "Implement federated learning for model training" ]%string
    | document =>
        [ "Redact personally identifiable information";
          "Apply named entity recognition for sensitive data";
          "Use homomorphic encryption for text analysis";
          "Implement secure document sharing protocols" ]%string
    | csv | unknown => forTables
    end in
  stop ← getRandomNumber 2 (Z.of_nat (length recs));
  mret (slice0 recs stop).

Definition commonColumns : list string :=
  [ "user_id"; "timestamp"; "transaction_amount"; "category";
    "location"; "customer_age"; "product_name"; "revenue";
    "email_hash"; "session_duration"; "conversion_rate" ]%string.

Definition generateCSVColumns : M (list string) :=
  stop ← getRandomNumber 5 10;
  mret (slice0 commonColumns stop).

Definition objects : list string :=
  [ "Person"; "Vehicle"; "Building"; "Text"; "Logo";
    "Product"; "Landscape"; "Document"; "Equipment" ]%string.

(** The [confidence] of an object, a draw formatted by [toFixed], is
    not part of [ImageObject]; its draw is taken. *)
Definition generateImageObjects : M (list ImageObject) :=
  stop ← getRandomNumber 2 6;
  mapM (fun obj => _ ← Math_random; mret (mkImageObject (Some obj)))
    (slice0 objects stop).

(** The entities are built with their counts, in the order of the
    array literal, and an [Entity] keeps the type. *)
Definition generateDocumentEntities : M (list Entity) :=
  person ← getRandomNumber 1 20;
  organization ← getRandomNumber 0 10;
  location ← getRandomNumber 0 15;
  date ← getRandomNumber 1 30;
  money ← getRandomNumber 0 25;
  let entities :=
    [ ("PERSON", person); ("ORGANIZATION", organization); ("LOCATION", location);
      ("DATE", date); ("MONEY", money) ]%string in
  mret (map (fun e => mkEntity (fst e)) (List.filter (fun e => 0 <? snd e) entities)).

Definition generateBusinessInsights (dataType : DataType) : M (list string) :=
  let relevantInsights :=
    match dataType with
    | tabular =>
        [ "Revenue trending upward by 15% quarter-over-quarter";
          "Customer acquisition cost decreased by 8%";
          "High-value segments identified in demographics data";
          "Seasonal patterns detected in transaction volumes" ]%string
    | visual =>
        [ "Brand logo appears in 78% of analyzed images";
          "Product placement opportunities identified";
          "Customer engagement patterns in visual content";
          "Quality metrics exceed industry standards" ]%string
    | textual =>
        [ "Sentiment analysis shows 89% positive feedback";
          "Key topics: customer service, product quality, pricing";
          "Compliance requirements fully documented";
          "Actionable insights extracted from unstructured data" ]%string
    end in
  stop ← getRandomNumber 2 (Z.of_nat (length relevantInsights));
  mret (slice0 relevantInsights stop).

(** [generateInsights], as far as the engine reads its result: the
    other fields are computed, in the order of the object literals, for
    the draws they take. *)
Definition generateInsights (file : File) (fileType : FileType) : M Insights :=
  dataPoints ← getRandomNumber 100 10000;
  sensitiveFields ← getSensitiveFields fileType;
  privacyTechniques ← getPrivacyTechniques;
  recommendations ← getRecommendations fileType;
  match fileType with
  | csv =>
      rowCount ← getRandomNumber 50 5000;
      columnCount ← getRandomNumber 5 50;
      detectedColumns ← generateCSVColumns;
      businessInsights ← generateBusinessInsights tabular;
      mret (mkInsights (Some detectedColumns) None None)
  | image =>
      width ← getRandomNumber 800 4000;
      height ← getRandomNumber 600 3000;
      detectedObjects ← generateImageObjects;
      businessInsights ← generateBusinessInsights visual;
      mret (mkInsights None (Some detectedObjects) None)
  | document =>
      pageCount ← getRandomNumber 1 100;
      wordCount ← getRandomNumber 100 10000;
      detectedEntities ← generateDocumentEntities;
      businessInsights ← generateBusinessInsights textual;
      mret (mkInsights None None (Some detectedEntities))
  | unknown => mret (mkInsights None None None)
  end.

(** [generateMetrics], as far as the panel reads its result; the other
    four fields are drawn and formatted into strings. *)
Definition generateMetrics (file : File) (fileType : FileType) : M Panel.FileMetrics :=
  encryptionStrength ← getRandomNumber 256 512;
  anonymizationLevel ← getRandomNumber 80 95;
  dataRetention ← getRandomNumber 7 90;
  complianceScore ← getRandomNumber 85 98;
  processingSpeed ← getRandomNumber 1 5;
  memoryUsage ← getRandomNumber 10 100;
  mret (Panel.mkFileMetrics (Some encryptionStrength) (Some anonymizationLevel)).

(** [analyzeFile] up to the call of the engine: [baseAnalysis], as the
    engine reads it, and its [metrics].  The fields are filled in the
    order of the object literal: [processingTime], [insights],
    [metrics]. *)
Definition baseAnalysis (file : File) : M (FileAnalysis * Panel.FileMetrics) :=
  let fileType := getFileType file in
  processingTime ← getRandomNumber 800 3000;
  insights ← generateInsights file fileType;
  metrics ← generateMetrics file fileType;
  mret (mkFileAnalysis (Some (label fileType)) (Some insights), metrics).

End Processor.

(** ** The mock API: [apiService.js] *)

Module Api.
Import JS.
Import Processor (File, name, size, type, includes, endsWith).

Record Validation : Type := mkValidation {
  valid : bool;
  errors : list string
}.

Definition isSupportedFileType (file : File) : bool :=
  let supportedTypes :=
    [ "text/csv"; "application/csv";
      "image/jpeg"; "image/png"; "image/gif"; "image/webp";
      "application/pdf"; "application/msword"; "text/plain";
      "application/vnd.openxmlformats-officedocument.wordprocessingml.document" ]%string in
  includes supportedTypes (type file)
  || endsWith (name file) ".csv"
  || endsWith (name file) ".txt".

(** The body of [files.forEach] in [validateFiles]. *)
Definition checkFile (errors : list string) (file : File) : list string :=
  let maxFileSize := 100 * 1024 * 1024 in
  let errors :=
    if maxFileSize <? size file
    then errors ++ [("File " ++ name file ++ " exceeds 100MB limit")%string]
    else errors in
  if negb (isSupportedFileType file)
  then errors ++ [("File type not supported: " ++ name file)%string]
  else errors.

Definition validateFiles (files : list File) : Validation :=
  let errors : list string := [] in
  let maxFiles := 10%nat in
  let errors :=
    if (length files =? 0)%nat then errors ++ ["No files selected"%string] else errors in
  let errors :=
    if (maxFiles <? length files)%nat
    then errors ++ ["Maximum 10 files allowed"%string] else errors in
  let errors := foldl checkFile errors files in
  {| valid := (length errors =? 0)%nat; errors := errors |}.

(** The results are those of the panel: entries with an [analysis]. *)
Definition calculateAveragePrivacyScore (results : list Panel.Result) : number :=
  if (length results =? 0)%nat then of_Z 0
  else
    let totalScore :=
      foldl (fun sum result =>
               sum + Panel.orElse (a ← Panel.analysis result; Panel.privacyScore a) 0)
        0 results in
    round (div (of_Z totalScore) (of_Z (Z.of_nat (length results)))).

Definition calculateRiskLevel (results : list Panel.Result) : string :=
  let avgScore := calculateAveragePrivacyScore results in
  if geb avgScore (of_Z 85) then "Low"
  else if geb avgScore (of_Z 70) then "Medium"
  else "High".

End Api.
(** ** Verified properties *)

(** *** The embedding on concrete inputs *)

Example pattern_alternatives :
  Text.alternatives "ssn|social.*security|tax.*id"
  = [["ssn"]; ["social"; "security"]; ["tax"; "id"]]%string.
Proof. reflexivity. Qed.

Example pattern_ignores_case_and_position :
  Text.RegExp_test "ssn|social.*security|tax.*id" "Customer Social_Security_No" = true
  /\ Text.RegExp_test "ssn|social.*security|tax.*id" "security social" = false
  /\ Text.RegExp_test "birth.*date|dob|age" "customer_AGE" = true.
Proof. repeat split. Qed.

Example columns_of_the_sample_extractor :
  map matchColumn
    ["user_id"; "timestamp"; "customer_age"; "product_name"; "email_hash"; "account"]%string
  = [ (0, "GENERAL", false); (0, "GENERAL", false); (75, "BIRTHDATE", true);
      (65, "NAME", true); (80, "EMAIL", true); (90, "CREDIT_CARD", true) ]%string.
Proof. reflexivity. Qed.

Example level_boundaries :
  map getSensitivityLevel [29; 30; 49; 50; 69; 70; 84; 85]
  = [ "PUBLIC"; "INTERNAL"; "INTERNAL"; "CONFIDENTIAL"; "CONFIDENTIAL";
      "RESTRICTED"; "RESTRICTED"; "TOP_SECRET" ]%string.
Proof. reflexivity. Qed.

Example risk_boundaries :
  map determineRiskLevel
    [JS.of_Z 85; JS.of_Z 84; JS.of_Z 70; JS.of_Z 69; JS.of_Z 55; JS.of_Z 54; JS.NaN]
  = [ "LOW"; "MEDIUM"; "MEDIUM"; "HIGH"; "HIGH"; "CRITICAL"; "CRITICAL" ]%string.
Proof. reflexivity. Qed.

Example street_photo_profile :
  analyzeSensitivity streetPhoto zeroDraws
  = (JS.Return (sensitivityOf personAndVehicle), zeroDraws).
Proof. reflexivity. Qed.

(** *** Arithmetic helpers *)

Lemma foldl_add_shift {A : Type} (f : A -> Z) (l : list A) (a : Z) :
  foldl (fun sum x => sum + f x) a l = a + foldl (fun sum x => sum + f x) 0 l.
Proof.
  revert a. induction l as [|x l IH]; intros a; simpl.
  - lia.
  - rewrite IH, (IH (0 + f x)). lia.
Qed.

Lemma foldl_add_total {A : Type} (f : A -> Z) (l : list A) :
  foldl (fun sum x => sum + f x) 0 l = Spec.total (map f l).
Proof.
  induction l as [|x l IH]; simpl; [reflexivity|].
  rewrite foldl_add_shift, IH. unfold Spec.total. simpl. lia.
Qed.

Lemma countPII_filter (l : list Finding) :
  Z.of_nat (length (filter (fun dt => isPII dt = true) l)) = Spec.countPII l.
Proof.
  induction l as [|x l IH]; simpl; [reflexivity|].
  rewrite filter_cons. destruct (isPII x) eqn:E; case_decide; try congruence.
  simpl length. rewrite <- IH. lia.
Qed.

Lemma countPII_nonneg (l : list Finding) : 0 <= Spec.countPII l.
Proof. rewrite <- countPII_filter. lia. Qed.

Lemma total_nonneg (xs : list Z) : Forall (fun x => 0 <= x) xs -> 0 <= Spec.total xs.
Proof.
  induction 1 as [|x xs Hx _ IH]; unfold Spec.total in *; simpl; lia.
Qed.

Lemma mean_nonneg (xs : list Z) :
  xs <> [] -> Forall (fun x => 0 <= x) xs -> (0 <= Spec.mean xs)%Q.
Proof.
  intros Hne Hall. unfold Spec.mean.
  apply Qle_shift_div_l.
  - destruct xs; [congruence|]. simpl length.
    unfold Qlt, inject_Z; simpl. lia.
  - rewrite Qmult_0_l. unfold Qle, inject_Z; simpl.
    pose proof (total_nonneg xs Hall). lia.
Qed.

Lemma round_half_up_nonneg (q : Q) : (0 <= q)%Q -> 0 <= JS.round_half_up q.
Proof.
  intros Hq. unfold JS.round_half_up.
  change 0 with (Qfloor 0). apply Qfloor_resp_le.
  apply Qle_trans with q; [exact Hq|].
  rewrite <- (Qplus_0_r q) at 1. apply Qplus_le_r. discriminate.
Qed.

Lemma getSensitivityLevel_table (score : Z) :
  getSensitivityLevel score = Spec.levelOf score.
Proof.
  unfold getSensitivityLevel, Spec.levelOf, Spec.levelThresholds; simpl.
  repeat (destruct (_ <=? score); [reflexivity|]). reflexivity.
Qed.

(** *** C1 *)

(** The score of a non-empty list, unfolded into the specification's
    vocabulary. *)
Lemma calculateSensitivityScore_nonempty (dataTypes : list Finding) :
  dataTypes <> [] ->
  calculateSensitivityScore dataTypes =
    Z.min 100
      (JS.round_half_up
         (Spec.mean (map sensitivityScore dataTypes)
          + inject_Z (5 * Spec.countPII dataTypes))).
Proof.
  intros Hne. unfold calculateSensitivityScore.
  destruct dataTypes as [|d ds]; [congruence|].
  cbn [length Nat.eqb]. cbv zeta.
  unfold sumScores, Spec.mean.
  rewrite foldl_add_total, countPII_filter, length_map.
  f_equal. f_equal. f_equal. f_equal. lia.
Qed.

(** C1, as the code has it: for every non-empty sequence of findings
    with non-negative scores, the overall sensitivity score is
    [clamp(round(mean(scores) + 5 * countPII), 0, 100)], where [round]
    is rounding to the nearest integer with halves going up, and the
    level is the threshold-table value of that score. *)
Theorem sensitivity_score_is_rounded_clamped_mean (dataTypes : list Finding) :
  dataTypes <> [] ->
  Forall (fun dt => 0 <= sensitivityScore dt) dataTypes ->
  calculateSensitivityScore dataTypes =
    Spec.clamp 0 100
      (JS.round_half_up
         (Spec.mean (map sensitivityScore dataTypes)
          + inject_Z (5 * Spec.countPII dataTypes)))
  /\ sensitivityLevel (sensitivityOf dataTypes) =
       Spec.levelOf (calculateSensitivityScore dataTypes).
Proof.
  intros Hne Hpos. split.
  - rewrite calculateSensitivityScore_nonempty by assumption.
    unfold Spec.clamp.
    assert (0 <= JS.round_half_up
                   (Spec.mean (map sensitivityScore dataTypes)
                    + inject_Z (5 * Spec.countPII dataTypes))) as Hr.
    { apply round_half_up_nonneg.
      rewrite <- (Qplus_0_r 0). apply Qplus_le_compat.
      - apply mean_nonneg.
        + destruct dataTypes; [congruence|discriminate].
        + rewrite Forall_map. exact Hpos.
      - pose proof (countPII_nonneg dataTypes).
        unfold Qle, inject_Z; simpl. lia. }
    lia.
  - unfold sensitivityOf; simpl. apply getSensitivityLevel_table.
Qed.

Lemma sensitivity_score_is_rounded_clamped_mean_witness :
  calculateSensitivityScore personAndVehicle = 78
  /\ sensitivityLevel (sensitivityOf personAndVehicle) = "RESTRICTED"%string.
Proof.
  destruct (sensitivity_score_is_rounded_clamped_mean personAndVehicle) as [Hs Hl].
  - discriminate.
  - repeat constructor; simpl; lia.
  - split; [rewrite Hs; reflexivity | rewrite Hl; reflexivity].
Defined.

(** C1 as worded (no rounding) fails: a person and a vehicle average
    72.5, plus 5 for the one PII finding is 77.5, and the code answers 78. *)
Lemma sensitivity_score_unrounded_counterexample :
  ~ (inject_Z (calculateSensitivityScore personAndVehicle)
     == Spec.sensitivityFormula personAndVehicle)%Q.
Proof. vm_compute. discriminate. Qed.

(** The rounding is not cosmetic: two plain columns scored 29 and 30
    average 29.5, below the INTERNAL threshold, and are rated INTERNAL
    because the score is rounded to 30 first. *)
Lemma rounding_can_raise_the_level :
  (Spec.sensitivityFormula twoPlainColumns < 30)%Q
  /\ calculateSensitivityScore twoPlainColumns = 30
  /\ sensitivityLevel (sensitivityOf twoPlainColumns) = "INTERNAL"%string.
Proof. repeat split. Qed.

(** *** Effectful loops *)

Import JS.

Lemma mapM_cons {A B : Type} (f : A -> M B) (x : A) (l : list A) (s : rng) :
  mapM f (x :: l) s =
    match f x s with
    | (Return y, s') =>
        match mapM f l s' with
        | (Return k, s'') => (Return (y :: k), s'')
        | (Throw e, s'') => (Throw e, s'')
        end
    | (Throw e, s') => (Throw e, s')
    end.
Proof.
  simpl. unfold mbind, M_bind. destruct (f x s) as [[y|e] s']; [|reflexivity].
  destruct (mapM f l s') as [[k|e] s'']; reflexivity.
Qed.

(** A loop whose body always returns, returns; its results are related
    to the items one by one. *)
Lemma mapM_returns {A B : Type} (f : A -> M B) (P : A -> B -> Prop) (l : list A) :
  (forall x s, x ∈ l -> exists y s', f x s = (Return y, s') /\ P x y) ->
  forall s, exists ys s', mapM f l s = (Return ys, s') /\ Forall2 P l ys.
Proof.
  induction l as [|x l IH]; intros Hf s.
  - exists [], s. split; [reflexivity|constructor].
  - destruct (Hf x s) as (y & s1 & Hy & HP); [left|].
    destruct (IH (fun x' s' Hin => Hf x' s' (list_elem_of_further _ _ _ Hin)) s1)
      as (ys & s2 & Hys & HF).
    exists (y :: ys), s2. rewrite mapM_cons, Hy, Hys.
    split; [reflexivity|by constructor].
Qed.

(** *** C4 *)

Lemma length_zero_nil {A : Type} (l : list A) : length l = 0%nat -> l = [].
Proof. destruct l; [reflexivity|discriminate]. Qed.

(** C4, as the code has it: an artifact without extracted signals gets
    the sensitivity score 20 and, 20 being below the INTERNAL threshold
    of 30, the level PUBLIC; the classifier returns (it does not throw)
    and takes no random draw. *)
Theorem no_signals_score_20_level_public (fileAnalysis : FileAnalysis) (draws : rng) :
  Spec.signalCount fileAnalysis = 0%nat ->
  exists analysis,
    analyzeSensitivity fileAnalysis draws = (Return analysis, draws)
    /\ sensitivityAnalysisScore analysis = 20
    /\ sensitivityLevel analysis = "PUBLIC"%string.
Proof.
  intros Hcount. exists (sensitivityOf []). split; [|split; reflexivity].
  unfold analyzeSensitivity, Spec.signalCount in *.
  unfold analyzeCSVSensitivity, analyzeImageSensitivity, analyzeDocumentSensitivity.
  destruct (insights fileAnalysis) as [i|].
  - destruct (is_label (fileType fileAnalysis) "csv");
      [apply length_zero_nil in Hcount; rewrite Hcount; reflexivity|].
    destruct (is_label (fileType fileAnalysis) "image");
      [apply length_zero_nil in Hcount; rewrite Hcount; reflexivity|].
    destruct (is_label (fileType fileAnalysis) "document");
      [apply length_zero_nil in Hcount; rewrite Hcount; reflexivity|].
    reflexivity.
  - repeat (destruct (is_label (fileType fileAnalysis) _); [reflexivity|]).
    reflexivity.
Qed.

Lemma no_signals_score_20_level_public_witness :
  exists analysis,
    analyzeSensitivity emptyTable zeroDraws = (Return analysis, zeroDraws)
    /\ sensitivityAnalysisScore analysis = 20
    /\ sensitivityLevel analysis = "PUBLIC"%string.
Proof. apply (no_signals_score_20_level_public emptyTable zeroDraws). reflexivity. Defined.

(** C4 as worded fails on a table without columns: the level that comes
    with the score 20 is PUBLIC, not INTERNAL. *)
Lemma no_signals_level_internal_counterexample :
  ~ Spec.emptySignalsGiveInternal emptyTable zeroDraws.
Proof.
  intros (analysis & rest & Hrun & _ & Hlevel).
  assert (analysis = sensitivityOf []) as ->.
  { apply (f_equal fst) in Hrun. vm_compute in Hrun. injection Hrun as <-. reflexivity. }
  vm_compute in Hlevel. discriminate.
Qed.

(** *** Compliance: the shape of the result *)

Lemma assessRequirements_returns (framework : string) (config : FrameworkConfig)
    (profile : SensitivityAnalysis) (s : rng) :
  (framework, config) ∈ complianceFrameworks ->
  exists reqs s', assessRequirements framework profile s = (Return reqs, s').
Proof.
  intros Hin.
  assert (exists c, List.find (fun entry => String.eqb (fst entry) framework)
                      complianceFrameworks = Some (framework, c)) as [c Hc].
  { unfold complianceFrameworks in *.
    repeat (apply elem_of_cons in Hin as [Hin|Hin];
            [injection Hin as -> ->; eexists; reflexivity|]).
    by apply elem_of_nil in Hin. }
  unfold assessRequirements. rewrite Hc.
  destruct (mapM_returns
              (fun req =>
                 r ← Math_random;
                 score ← getRandomNumber 75 95;
                 mret (mkRequirement req
                         (if Qlt_bool (2 # 10) r then "MET" else "PARTIAL") score))
              (fun _ _ => True) (frameworkRequirements c)) with (s := s)
    as (reqs & s' & H & _).
  - intros req s0 _. eexists _, _. split; [reflexivity|exact I].
  - eauto.
Qed.

(** [assessCompliance] returns one entry per framework of the table, in
    the table's order. *)
Lemma assessCompliance_returns (fileAnalysis : FileAnalysis)
    (profile : SensitivityAnalysis) (s : rng) :
  exists cs s',
    assessCompliance fileAnalysis profile s = (Return cs, s')
    /\ Forall2 (Spec.entryOf profile) complianceFrameworks cs.
Proof.
  unfold assessCompliance. apply mapM_returns.
  intros [framework config] s0 Hin.
  destruct (assessRequirements_returns framework config profile s0 Hin)
    as (reqs & s1 & Hr).
  eexists _, s1. unfold mbind, M_bind. rewrite Hr. split; [reflexivity|].
  repeat split.
Qed.

Lemma Forall2_entries (profile : SensitivityAnalysis) (P : string * ComplianceResult -> Prop)
    (cs : list (string * ComplianceResult)) :
  (forall config entry, Spec.entryOf profile config entry -> P entry) ->
  Forall2 (Spec.entryOf profile) complianceFrameworks cs ->
  Forall P cs.
Proof.
  intros HP HF. induction HF as [|config entry configs cs He _ IH]; constructor; eauto.
Qed.

Lemma assessCompliance_frameworks (profile : SensitivityAnalysis)
    (cs : list (string * ComplianceResult)) :
  Forall2 (Spec.entryOf profile) complianceFrameworks cs ->
  map fst cs = ["GDPR"; "HIPAA"; "CCPA"; "SOX"]%string.
Proof.
  unfold complianceFrameworks. intros HF.
  repeat match goal with
         | H : Forall2 _ (_ :: _) _ |- _ =>
             apply Forall2_cons_inv_l in H as (? & ? & (? & _) & H & ->)
         | H : Forall2 _ [] _ |- _ => apply Forall2_nil_inv_l in H as ->
         end.
  simpl in *. congruence.
Qed.

(** *** C5 *)

Lemma status_of_clamped (raw : Z) (result : ComplianceResult) :
  score result = Z.max 60 (Z.min 98 raw) ->
  status result = statusOf raw ->
  60 <= score result <= 98 /\ Spec.statusMatchesScore result.
Proof.
  intros Hs Ht. split; [lia|].
  unfold Spec.statusMatchesScore, statusOf in *. rewrite Ht, Hs.
  destruct (85 <=? raw) eqn:E85; [|destruct (70 <=? raw) eqn:E70];
    repeat split; intros; try discriminate; try reflexivity; lia.
Qed.

(** C5: for every sensitivity profile (and every stream of draws) the
    assessor returns the four framework results, each with a score in
    [60, 98] and the status the thresholds give that score: COMPLIANT
    iff score >= 85, NEEDS_ATTENTION iff 70 <= score < 85, NON_COMPLIANT
    iff score < 70. *)
Theorem compliance_score_bounded_status_by_threshold
    (fileAnalysis : FileAnalysis) (profile : SensitivityAnalysis) (draws : rng) :
  exists results rest,
    assessCompliance fileAnalysis profile draws = (Return results, rest)
    /\ map fst results = ["GDPR"; "HIPAA"; "CCPA"; "SOX"]%string
    /\ Forall
         (fun entry =>
            60 <= score (snd entry) <= 98 /\ Spec.statusMatchesScore (snd entry))
         results.
Proof.
  destruct (assessCompliance_returns fileAnalysis profile draws) as (cs & s' & Hrun & HF).
  exists cs, s'. split; [exact Hrun|]. split.
  - eapply assessCompliance_frameworks, HF.
  - eapply Forall2_entries; [|exact HF].
    intros config entry (_ & Hs & Ht). eapply status_of_clamped; eassumption.
Qed.

(** *** C2 *)

Lemma someType_anyOfType (labels : list string) (fields : list Finding) :
  someType labels fields = Spec.anyOfType labels fields.
Proof.
  unfold someType, Spec.anyOfType.
  destruct (existsb _ fields) eqn:E; symmetry.
  - apply bool_decide_eq_true. apply existsb_exists in E as (f & Hf & Hl).
    apply Exists_exists. exists f. split; [by apply list_elem_of_In|].
    apply existsb_exists in Hl as (l & Hl & Heq).
    apply String.eqb_eq in Heq as ->. by apply list_elem_of_In.
  - apply bool_decide_eq_false. intros (f & Hf & Hl)%Exists_exists.
    apply not_true_iff_false in E. apply E.
    apply existsb_exists. exists f. split; [by apply list_elem_of_In|].
    apply existsb_exists. exists (type f). split; [by apply list_elem_of_In|].
    apply String.eqb_refl.
Qed.

(** The running score of one framework is the specification's sum of
    deductions, for every level the two agree on. *)
Lemma frameworkScore_deductions (framework : string) (profile : SensitivityAnalysis) :
  sensitivityLevel profile <> "TOP_SECRET"%string ->
  frameworkScore framework profile =
    85 - Spec.levelPenalty (sensitivityLevel profile)
    - Spec.piiPenalty (Z.of_nat (length (piiFields profile)))
    - Spec.frameworkPenalty framework (piiFields profile).
Proof.
  intros Hlevel. apply String.eqb_neq in Hlevel.
  unfold frameworkScore, Spec.levelPenalty, Spec.piiPenalty, Spec.frameworkPenalty.
  rewrite Hlevel, orb_false_r, !someType_anyOfType.
  assert ((5 <? length (piiFields profile))%nat
          = (5 <? Z.of_nat (length (piiFields profile)))) as ->.
  { destruct (Nat.ltb_spec 5 (length (piiFields profile)));
      destruct (Z.ltb_spec 5 (Z.of_nat (length (piiFields profile)))); lia. }
  assert ((2 <? length (piiFields profile))%nat
          = (2 <? Z.of_nat (length (piiFields profile)))) as ->.
  { destruct (Nat.ltb_spec 2 (length (piiFields profile)));
      destruct (Z.ltb_spec 2 (Z.of_nat (length (piiFields profile)))); lia. }
  generalize (Z.of_nat (length (piiFields profile))); intros n.
  destruct (String.eqb (sensitivityLevel profile) "RESTRICTED");
    [|destruct (String.eqb (sensitivityLevel profile) "CONFIDENTIAL")];
    destruct (5 <? n); destruct (2 <? n);
    destruct (String.eqb framework "GDPR");
    destruct (String.eqb framework "HIPAA");
    destruct (String.eqb framework "CCPA");
    repeat match goal with |- context [Spec.anyOfType ?l ?f] =>
             destruct (Spec.anyOfType l f) end;
    lia.
Qed.

(** C2, as the code has it: for every sensitivity profile whose level
    is not TOP_SECRET, each framework's score is 85, minus 15 for
    RESTRICTED or 10 for CONFIDENTIAL, minus 10 for more than 5 PII
    findings or 5 for more than 2, minus the framework's own penalty
    taken over the PII findings only (GDPR 5 if one of them has type
    EMAIL or NAME, HIPAA 10 if one is MEDICAL, CCPA 8 if one is
    FINANCIAL, SOX nothing), clamped to [60, 98]. *)
Theorem compliance_score_from_pii_findings
    (fileAnalysis : FileAnalysis) (profile : SensitivityAnalysis) (draws : rng) :
  sensitivityLevel profile <> "TOP_SECRET"%string ->
  exists results rest,
    assessCompliance fileAnalysis profile draws = (Return results, rest)
    /\ map fst results = ["GDPR"; "HIPAA"; "CCPA"; "SOX"]%string
    /\ Forall
         (fun entry =>
            score (snd entry) = Spec.complianceScoreOverPII (fst entry) profile)
         results.
Proof.
  intros Hlevel.
  destruct (assessCompliance_returns fileAnalysis profile draws) as (cs & s' & Hrun & HF).
  exists cs, s'. split; [exact Hrun|]. split.
  - eapply assessCompliance_frameworks, HF.
  - eapply Forall2_entries; [|exact HF].
    intros config entry (-> & -> & _).
    unfold Spec.complianceScoreOverPII, Spec.complianceScore, Spec.clamp.
    by rewrite frameworkScore_deductions.
Qed.

Lemma compliance_score_from_pii_findings_witness :
  exists results rest,
    assessCompliance streetPhoto (sensitivityOf personAndVehicle) zeroDraws
      = (Return results, rest)
    /\ map fst results = ["GDPR"; "HIPAA"; "CCPA"; "SOX"]%string
    /\ Forall
         (fun entry =>
            score (snd entry)
            = Spec.complianceScoreOverPII (fst entry) (sensitivityOf personAndVehicle))
         results.
Proof.
  apply (compliance_score_from_pii_findings streetPhoto
           (sensitivityOf personAndVehicle) zeroDraws).
  vm_compute. discriminate.
Defined.

(** The profile of [emailIcon] is what the classifier computes for it. *)
Lemma emailIcon_profile :
  analyzeSensitivity emailIcon zeroDraws = (Return emailIconProfile, zeroDraws).
Proof. reflexivity. Qed.

(** C2 as worded fails on [emailIcon]: its one finding has type EMAIL
    but is not PII, so the GDPR rule, which looks at PII findings only,
    deducts nothing (85), where the wording deducts 5 (80). *)
Lemma compliance_any_finding_counterexample :
  ~ (forall results rest,
       assessCompliance emailIcon emailIconProfile zeroDraws = (Return results, rest) ->
       Forall
         (fun entry =>
            score (snd entry) = Spec.complianceScoreAsWritten (fst entry) emailIconProfile)
         results).
Proof.
  intros Hall.
  destruct (assessCompliance emailIcon emailIconProfile zeroDraws)
    as [[results|message] rest] eqn:Hrun.
  - specialize (Hall results rest eq_refl).
    apply (f_equal fst) in Hrun. vm_compute in Hrun. injection Hrun as <-.
    apply Forall_cons in Hall as [Hgdpr _].
    vm_compute in Hgdpr. discriminate.
  - apply (f_equal fst) in Hrun. vm_compute in Hrun. discriminate.
Qed.

(** The level deduction stops at RESTRICTED: a TOP_SECRET profile with
    at most two PII findings keeps the full base score in the framework
    without a rule of its own. *)
Lemma top_secret_keeps_base_score (profile : SensitivityAnalysis) :
  sensitivityLevel profile = "TOP_SECRET"%string ->
  (length (piiFields profile) <= 2)%nat ->
  frameworkScore "SOX" profile = 85.
Proof.
  intros Hlevel Hcount. unfold frameworkScore. rewrite Hlevel. simpl.
  destruct (Nat.ltb_spec 5 (length (piiFields profile))); [lia|].
  destruct (Nat.ltb_spec 2 (length (piiFields profile))); [lia|].
  reflexivity.
Qed.

(** *** C6 *)

Lemma tierPass_cases (level : string) :
  Spec.tierPass level =
    if String.eqb level "RESTRICTED" || String.eqb level "TOP_SECRET" then
      [ mkRecommendation HOMOMORPHIC_ENCRYPTION "HIGH"
          "Maximum privacy protection for highly sensitive data";
        mkRecommendation SECURE_MULTIPARTY "HIGH"
          "Secure computation without revealing individual data points" ]
    else if String.eqb level "CONFIDENTIAL" then
      [ mkRecommendation DIFFERENTIAL_PRIVACY "HIGH"
          "Strong privacy guarantees with statistical utility";
        mkRecommendation FEDERATED_LEARNING "MEDIUM"
          "Distributed processing without data centralization" ]
    else if String.eqb level "INTERNAL" then
      [ mkRecommendation K_ANONYMITY "MEDIUM"
          "Effective anonymization for internal use";
        mkRecommendation TOKENIZATION "MEDIUM"
          "Replace sensitive values with non-sensitive tokens" ]
    else [Spec.dataMasking].
Proof.
  unfold Spec.tierPass, Spec.tierTable. cbn [List.find fst snd].
  rewrite (String.eqb_sym "TOP_SECRET" level), (String.eqb_sym "RESTRICTED" level),
    (String.eqb_sym "CONFIDENTIAL" level), (String.eqb_sym "INTERNAL" level).
  destruct (String.eqb level "TOP_SECRET"); [by rewrite orb_true_r|].
  rewrite orb_false_r.
  destruct (String.eqb level "RESTRICTED"); [reflexivity|].
  destruct (String.eqb level "CONFIDENTIAL"); [reflexivity|].
  destruct (String.eqb level "INTERNAL"); reflexivity.
Qed.

(** The recommender's list is the prefix of length four of the two
    passes put one after the other. *)
Lemma recommendPrivacyTechniques_passes (fileAnalysis : FileAnalysis)
    (profile : SensitivityAnalysis) :
  recommendPrivacyTechniques fileAnalysis profile =
    take 4
      (Spec.tierPass (sensitivityLevel profile)
       ++ Spec.kindPass (fileType fileAnalysis) (length (piiFields profile))).
Proof.
  unfold recommendPrivacyTechniques. cbv zeta. rewrite tierPass_cases.
  f_equal. unfold Spec.kindPass, is_label, push.
  destruct (String.eqb (sensitivityLevel profile) "RESTRICTED"
            || String.eqb (sensitivityLevel profile) "TOP_SECRET");
    [|destruct (String.eqb (sensitivityLevel profile) "CONFIDENTIAL");
      [|destruct (String.eqb (sensitivityLevel profile) "INTERNAL")]];
    (destruct (fileType fileAnalysis) as [kind|]; [|by rewrite app_nil_r]);
    (destruct (String.eqb kind "csv");
       [destruct (3 <? length (piiFields profile))%nat;
          [reflexivity|by rewrite app_nil_r]|]);
    (destruct (String.eqb kind "image"); [reflexivity|]);
    (destruct (String.eqb kind "document"); [reflexivity|by rewrite app_nil_r]).
Qed.

(** C6: for every sensitivity profile and artifact kind the recommender
    returns the first four entries (all of them if there are fewer) of
    the sensitivity-tier pass followed by the kind-specific pass, in that
    order; nothing is sorted by priority and nothing is removed as a
    duplicate, as the CONFIDENTIAL image shows, where federated learning
    comes twice and a MEDIUM entry precedes a HIGH one. *)
Theorem recommendations_are_first_four_in_insertion_order :
  (forall (fileAnalysis : FileAnalysis) (profile : SensitivityAnalysis),
     recommendPrivacyTechniques fileAnalysis profile =
       take 4
         (Spec.tierPass (sensitivityLevel profile)
          ++ Spec.kindPass (fileType fileAnalysis) (length (piiFields profile))))
  /\ map (fun r => (technique r, priority r))
       (recommendPrivacyTechniques streetPhoto confidentialProfile)
     = [ (DIFFERENTIAL_PRIVACY, "HIGH"); (FEDERATED_LEARNING, "MEDIUM");
         (FEDERATED_LEARNING, "HIGH") ]%string.
Proof.
  split; [|reflexivity].
  intros fileAnalysis profile. apply recommendPrivacyTechniques_passes.
Qed.

(** *** C3 *)

Lemma div_Fin_pos (a b : Q) : (0 < b)%Q -> div (Fin a) (Fin b) = Fin (a / b).
Proof.
  intros Hb. unfold div.
  destruct (Qcompare_spec b 0) as [Heq|Hlt|Hgt]; try reflexivity.
  rewrite Heq in Hb. exfalso. revert Hb. apply Qlt_irrefl.
Qed.

(** A sum over a non-empty list divided by its length is finite. *)
Lemma div_length_pos {A : Type} (a : Z) (l : list A) :
  l <> [] ->
  div (of_Z a) (of_Z (Z.of_nat (length l)))
  = Fin (inject_Z a / inject_Z (Z.of_nat (length l))).
Proof.
  intros Hne. apply div_Fin_pos.
  destruct l; [congruence|]. unfold Qlt, inject_Z; simpl. lia.
Qed.

Lemma round_half_up_comp (p q : Q) : (p == q)%Q -> round_half_up p = round_half_up q.
Proof. intros H. unfold round_half_up. by rewrite H. Qed.

(** The accumulated [score / weightSum]: the weights add up to one. *)
Lemma weighted_sum_normalised (a c b : Q) :
  ((inject_Z 0 + a * (4 # 10) + c * (3 # 10) + b * (3 # 10))
   / (inject_Z 0 + (4 # 10) + (3 # 10) + (3 # 10))
   == (4 # 10) * a + (3 # 10) * c + (3 # 10) * b)%Q.
Proof. field. Qed.


(** With something to average on both sides the overall score is an
    integer. *)
Lemma calculateOverallScore_defined (metrics : Scored) :
  complianceScores metrics <> [] ->
  recommendedTechniques metrics <> [] ->
  calculateOverallScore metrics =
    of_Z (round_half_up
            ((4 # 10) * Spec.mean (map (fun c => score (snd c)) (complianceScores metrics))
             + (3 # 10) * inject_Z
                 (Z.max 0 (100 - sensitivityAnalysisScore (sensitivityAnalysis metrics)))
             + (3 # 10) * Spec.mean (map (fun r => effectivenessScore (technique r))
                                       (recommendedTechniques metrics)))%Q).
Proof.
  intros Hc Hr. unfold calculateOverallScore. cbv zeta.
  rewrite !div_length_pos;
    [| exact Hr | destruct (complianceScores metrics); [congruence|discriminate]].
  cbn [add mul of_Z].
  rewrite div_Fin_pos by reflexivity.
  cbn [round]. f_equal. apply round_half_up_comp.
  rewrite weighted_sum_normalised.
  unfold Spec.mean. rewrite !length_map.
  rewrite (foldl_add_total (fun tech => effectivenessScore (technique tech))).
  replace (foldl (fun sum comp => sum + score comp) 0
             (map snd (complianceScores metrics)))
    with (Spec.total (map (fun c => score (snd c)) (complianceScores metrics))).
  - reflexivity.
  - rewrite (foldl_add_total score), map_map. reflexivity.
Qed.





(** *** C10 *)

Lemma tierPass_nonempty (level : string) : Spec.tierPass level <> [].
Proof.
  rewrite tierPass_cases.
  destruct (_ || _); [discriminate|].
  destruct (String.eqb level "CONFIDENTIAL"); [discriminate|].
  destruct (String.eqb level "INTERNAL"); discriminate.
Qed.

Lemma recommendPrivacyTechniques_nonempty (fileAnalysis : FileAnalysis)
    (profile : SensitivityAnalysis) :
  recommendPrivacyTechniques fileAnalysis profile <> [].
Proof.
  rewrite recommendPrivacyTechniques_passes.
  pose proof (tierPass_nonempty (sensitivityLevel profile)) as Hne.
  destruct (Spec.tierPass (sensitivityLevel profile)); [congruence|discriminate].
Qed.

(** What steps 1 to 3 leave behind when none of them throws. *)
Lemma measure_returns (fileAnalysis : FileAnalysis) (draws rest : rng)
    (metrics : Scored) :
  measure fileAnalysis draws = (Return metrics, rest) ->
  recommendedTechniques metrics
    = recommendPrivacyTechniques fileAnalysis (sensitivityAnalysis metrics)
  /\ map fst (complianceScores metrics) = ["GDPR"; "HIPAA"; "CCPA"; "SOX"]%string.
Proof.
  unfold measure, mbind, M_bind.
  destruct (analyzeSensitivity fileAnalysis draws) as [[profile|message] s1];
    [|discriminate].
  destruct (assessCompliance_returns fileAnalysis profile s1) as (cs & s2 & Hrun & HF).
  rewrite Hrun. unfold mret, M_ret. intros [= <- <-]. simpl. split; [reflexivity|].
  eapply assessCompliance_frameworks, HF.
Qed.

(** C10: the recommender never returns an empty list; for a level
    outside RESTRICTED, TOP_SECRET, CONFIDENTIAL and INTERNAL (PUBLIC or
    anything unrecognised) its first entry is data masking; and whenever
    steps 1 to 3 of the assessment complete, the recommendation list
    that [calculateOverallScore] divides by is non-empty and the overall
    score is an integer, not NaN. *)
Theorem recommender_never_empty_so_mean_defined :
  (forall (fileAnalysis : FileAnalysis) (profile : SensitivityAnalysis),
     recommendPrivacyTechniques fileAnalysis profile <> [])
  /\ (forall (fileAnalysis : FileAnalysis) (profile : SensitivityAnalysis),
        sensitivityLevel profile ∉
          ["RESTRICTED"; "TOP_SECRET"; "CONFIDENTIAL"; "INTERNAL"]%string ->
        head (recommendPrivacyTechniques fileAnalysis profile) = Some Spec.dataMasking)
  /\ (forall (fileAnalysis : FileAnalysis) (draws rest : rng) (metrics : Scored),
        measure fileAnalysis draws = (Return metrics, rest) ->
        (0 < length (recommendedTechniques metrics))%nat
        /\ exists n, calculateOverallScore metrics = of_Z n).
Proof.
  split; [exact recommendPrivacyTechniques_nonempty|]. split.
  - intros fileAnalysis profile Hlevel.
    rewrite recommendPrivacyTechniques_passes, tierPass_cases.
    rewrite !not_elem_of_cons in Hlevel.
    destruct Hlevel as (H1 & H2 & H3 & H4 & _).
    apply String.eqb_neq in H1, H2, H3, H4. rewrite H1, H2, H3, H4. reflexivity.
  - intros fileAnalysis draws rest metrics Hrun.
    apply measure_returns in Hrun as [Hrecs Hfour].
    assert (recommendedTechniques metrics <> []) as Hne.
    { rewrite Hrecs. apply recommendPrivacyTechniques_nonempty. }
    split.
    + destruct (recommendedTechniques metrics); [congruence|simpl; lia].
    + eexists. apply calculateOverallScore_defined; [|exact Hne].
      intros Hnil. rewrite Hnil in Hfour. discriminate.
Qed.

Lemma recommender_never_empty_so_mean_defined_witness :
  head (recommendPrivacyTechniques emptyTable (sensitivityOf [])) = Some Spec.dataMasking
  /\ exists metrics rest,
       measure emptyTable zeroDraws = (Return metrics, rest)
       /\ (0 < length (recommendedTechniques metrics))%nat
       /\ exists n, calculateOverallScore metrics = of_Z n.
Proof.
  destruct recommender_never_empty_so_mean_defined as (_ & Hmask & Hmean).
  split.
  - apply Hmask. vm_compute.
    repeat (apply not_elem_of_cons; split; [discriminate|]). apply not_elem_of_nil.
  - eexists _, _. split; [vm_compute; reflexivity|].
    eapply (Hmean emptyTable zeroDraws). vm_compute. reflexivity.
Defined.

(** *** C9 *)


(** In the file as it stands step 6 calls a method the class does not
    have, so every assessment ends in the [catch] branch. *)
Lemma assessPrivacy_always_degraded (fileAnalysis : option FileAnalysis) (draws : rng) :
  exists message rest,
    assessPrivacy unit absentMethod fileAnalysis draws
      = (Return (Degraded (getDefaultMetrics message)), rest).
Proof.
  unfold assessPrivacy, try_catch, assessPrivacyBody.
  destruct fileAnalysis as [fa|]; [|eexists _, _; reflexivity].
  unfold mbind, M_bind.
  destruct (measure fa draws) as [[metrics|message] rest]; eexists _, _; reflexivity.
Qed.

(** An image object without a type makes the image analyser throw; the
    assessment still returns. *)
Lemma typeless_object_is_caught :
  fst (analyzeSensitivity typelessObject zeroDraws)
    = Throw "Cannot read properties of undefined (reading 'toLowerCase')"
  /\ fst (assessPrivacy unit absentMethod (Some typelessObject) zeroDraws)
     = Return (Degraded (getDefaultMetrics
                 "Cannot read properties of undefined (reading 'toLowerCase')")).
Proof. split; reflexivity. Qed.


(** *** C7 *)

Section CommutingFold.
Context {S X : Type} (R : relation S) `{!Equivalence R} (f : S -> X -> S).
Hypothesis f_proper : forall x s s', R s s' -> R (f s x) (f s' x).
Hypothesis f_comm : forall s x y, R (f (f s x) y) (f (f s y) x).

Lemma foldl_related (xs : list X) (s s' : S) :
  R s s' -> R (foldl f s xs) (foldl f s' xs).
Proof. revert s s'. induction xs as [|x xs IH]; simpl; auto. Qed.

Lemma foldl_permutation (xs xs' : list X) (s : S) :
  xs ≡ₚ xs' -> R (foldl f s xs) (foldl f s xs').
Proof.
  intros Hperm. revert s.
  induction Hperm as [|x l l' _ IH|x y l|l l' l'' _ IH1 _ IH2]; intros s; simpl.
  - reflexivity.
  - apply IH.
  - apply foldl_related, f_comm.
  - etransitivity; [apply IH1|apply IH2].
Qed.

Lemma foldl_push (xs : list X) (s : S) (y : X) :
  R (foldl f (f s y) xs) (f (foldl f s xs) y).
Proof.
  revert s. induction xs as [|x xs IH]; intros s; simpl.
  - reflexivity.
  - etransitivity; [apply foldl_related, f_comm|apply IH].
Qed.

Lemma foldl_foldl_comm (xs ys : list X) (s : S) :
  R (foldl f (foldl f s xs) ys) (foldl f (foldl f s ys) xs).
Proof.
  revert s. induction ys as [|y ys IH]; intros s; simpl.
  - reflexivity.
  - etransitivity; [|apply IH].
    apply foldl_related. symmetry. apply foldl_push.
Qed.
End CommutingFold.

Import Panel.

Lemma setAdd_related (x : Technique) (l l' : list Technique) :
  l ≡ₚ l' -> setAdd l x ≡ₚ setAdd l' x.
Proof.
  intros Hperm. unfold setAdd.
  destruct (bool_decide_reflect (x ∈ l)) as [Hin|Hout];
    destruct (bool_decide_reflect (x ∈ l')) as [Hin'|Hout'].
  - exact Hperm.
  - rewrite Hperm in Hin. contradiction.
  - rewrite Hperm in Hout. contradiction.
  - by rewrite Hperm.
Qed.

Lemma setAdd_comm (l : list Technique) (x y : Technique) :
  setAdd (setAdd l x) y ≡ₚ setAdd (setAdd l y) x.
Proof.
  unfold setAdd.
  destruct (bool_decide_reflect (x ∈ l)) as [Hx|Hx];
    destruct (bool_decide_reflect (y ∈ l)) as [Hy|Hy];
    repeat match goal with
           | |- context [bool_decide (?a ∈ ?k)] =>
               destruct (bool_decide_reflect (a ∈ k))
           end;
    try reflexivity;
    repeat match goal with
           | H : _ ∈ _ ++ [_] |- _ =>
               apply elem_of_app in H as [H|H%list_elem_of_singleton]
           | H : ¬ (_ ∈ _ ++ [_]) |- _ =>
               rewrite elem_of_app, list_elem_of_singleton in H
           end;
    subst; try tauto; try reflexivity.
  rewrite <- !app_assoc. apply Permutation_app_head. apply perm_swap.
Qed.

Lemma increment_comm (m : gmap string number) (k1 k2 : string) :
  increment (increment m k1) k2 = increment (increment m k2) k1.
Proof.
  unfold increment. destruct (decide (k1 = k2)) as [->|Hne]; [reflexivity|].
  rewrite !lookup_insert_ne by congruence.
  apply insert_insert_ne. congruence.
Qed.

Lemma addScore_partial_alter (m : gmap string (Z * Z)) (e : string * ComplianceResult) :
  addScore m e = partial_alter (Spec.bump (score (snd e))) (fst e) m.
Proof.
  destruct e as [k0 d]. unfold addScore. cbn [fst snd].
  apply map_eq. intros k.
  rewrite lookup_partial_alter, lookup_alter.
  destruct (decide (k0 = k)) as [->|Hne].
  - destruct (m !! k) as [c|] eqn:Hc.
    + rewrite Hc. reflexivity.
    + rewrite lookup_insert_eq. reflexivity.
  - destruct (m !! k0); [reflexivity|]. by rewrite lookup_insert_ne.
Qed.

Lemma addScore_comm (m : gmap string (Z * Z)) (e1 e2 : string * ComplianceResult) :
  addScore (addScore m e1) e2 = addScore (addScore m e2) e1.
Proof.
  rewrite !addScore_partial_alter.
  destruct e1 as [k1 d1], e2 as [k2 d2]. cbn [fst snd].
  apply map_eq. intros k.
  rewrite !lookup_partial_alter.
  repeat case_decide; subst; try reflexivity; try congruence.
  destruct (m !! k) as [[t c]|]; unfold Spec.bump; cbn [fst snd]; do 2 f_equal; lia.
Qed.

(** The loop body respects, and commutes up to, sameness of tallies. *)
Lemma collect_related (a : Analysis) (t t' : Tally) :
  Spec.sameTally t t' -> Spec.sameTally (collect t a) (collect t' a).
Proof.
  intros (Htech & Hpii & Hrisk & Hcomp).
  unfold Spec.sameTally, collect; cbn [allTechniques allPIIFields riskCounts complianceFrameworks].
  rewrite Hrisk, Hcomp. repeat split.
  - destruct (recommendedTechniques a); [|exact Htech].
    apply (foldl_related (≡ₚ) (fun set tech => setAdd set (technique tech)));
      [intros; by apply setAdd_related|exact Htech].
  - destruct (sensitivityAnalysis a) as [[[fields|]]|]; try exact Hpii.
    by rewrite Hpii.
Qed.

Lemma collect_comm (a b : Analysis) (t : Tally) :
  Spec.sameTally (collect (collect t a) b) (collect (collect t b) a).
Proof.
  unfold Spec.sameTally, collect; cbn [allTechniques allPIIFields riskCounts complianceFrameworks].
  repeat split.
  - destruct (recommendedTechniques a), (recommendedTechniques b); try reflexivity.
    apply (foldl_foldl_comm (≡ₚ) (fun set tech => setAdd set (technique tech))).
    + intros; by apply setAdd_related.
    + intros; apply setAdd_comm.
  - destruct (sensitivityAnalysis a) as [[[fa|]]|], (sensitivityAnalysis b) as [[[fb|]]|];
      try reflexivity.
    rewrite <- !app_assoc. apply Permutation_app_head, Permutation_app_comm.
  - destruct (riskLevel a) as [la|], (riskLevel b) as [lb|]; try reflexivity.
    destruct (String.eqb la EmptyString), (String.eqb lb EmptyString); try reflexivity.
    apply increment_comm.
  - destruct (complianceScores a), (complianceScores b); try reflexivity.
    apply (foldl_foldl_comm eq addScore).
    + intros; congruence.
    + intros; apply addScore_comm.
Qed.

#[local] Instance sameTally_equivalence : Equivalence Spec.sameTally.
Proof.
  split.
  - intros t. unfold Spec.sameTally. repeat split; reflexivity.
  - intros t t' (H1 & H2 & H3 & H4). repeat split; by symmetry.
  - intros t t' t2 (H1 & H2 & H3 & H4) (H1' & H2' & H3' & H4').
    repeat split; etransitivity; eassumption.
Qed.

Lemma forEach_visit_related (rs : list Result) (t t' : Tally) :
  Spec.sameTally t t' ->
  Spec.sameOutcome Spec.sameTally (forEach visit t rs) (forEach visit t' rs).
Proof.
  revert t t'. induction rs as [|r rs IH]; intros t t' Ht; simpl; [exact Ht|].
  unfold visit. destruct (analysis r) as [a|]; [|reflexivity].
  apply IH, collect_related, Ht.
Qed.

Lemma sameOutcome_trans {A : Type} (same : A -> A -> Prop) (o1 o2 o3 : outcome A) :
  (forall a b c, same a b -> same b c -> same a c) ->
  Spec.sameOutcome same o1 o2 -> Spec.sameOutcome same o2 o3 ->
  Spec.sameOutcome same o1 o3.
Proof.
  intros Htrans. destruct o1, o2, o3; simpl; try tauto; try congruence. apply Htrans.
Qed.

Lemma forEach_visit_permutation (rs rs' : list Result) (t : Tally) :
  rs ≡ₚ rs' ->
  Spec.sameOutcome Spec.sameTally (forEach visit t rs) (forEach visit t rs').
Proof.
  intros Hperm. revert t.
  induction Hperm as [|r l l' _ IH|r1 r2 l|l l' l2 _ IH1 _ IH2]; intros t.
  - simpl. reflexivity.
  - simpl. unfold visit. destruct (analysis r) as [a|]; [apply IH|reflexivity].
  - simpl. unfold visit.
    destruct (analysis r1) as [a1|], (analysis r2) as [a2|]; try reflexivity.
    apply forEach_visit_related, collect_comm.
  - eapply sameOutcome_trans; [|apply IH1|apply IH2].
    intros a b c. apply sameTally_equivalence.
Qed.

Lemma roundedMean_permutation (get : Result -> option Z) (fallback : Z)
    (rs rs' : list Result) :
  rs ≡ₚ rs' -> roundedMean get fallback rs = roundedMean get fallback rs'.
Proof.
  intros Hperm. unfold roundedMean.
  rewrite (Permutation_length Hperm).
  do 3 f_equal.
  apply (foldl_permutation eq (fun sum r => sum + orElse (get r) fallback));
    [intros; congruence|intros; lia|exact Hperm].
Qed.

(** C7: the summary does not depend on the order of the assessments:
    for every sequence and every permutation of it the two calls end the
    same way, and when they return, the average score, the overall risk,
    the PII totals, the number of PII types, the risk-tier counts, the
    per-framework averages and the two metric averages are equal and the
    technique arrays hold the same techniques. *)
Theorem summary_invariant_under_permutation (results results' : list Result) :
  results ≡ₚ results' ->
  Spec.sameOutcome Spec.sameSummary
    (calculateAggregatedMetrics results) (calculateAggregatedMetrics results').
Proof.
  intros Hperm. unfold calculateAggregatedMetrics.
  pose proof (forEach_visit_permutation results results' emptyTally Hperm) as Hloop.
  destruct (forEach visit emptyTally results) as [t|m],
           (forEach visit emptyTally results') as [t'|m']; simpl in Hloop;
    try contradiction; [|exact Hloop].
  destruct Hloop as (Htech & Hpii & Hrisk & Hcomp).
  unfold Spec.sameOutcome, Spec.sameSummary. cbn.
  rewrite !(roundedMean_permutation _ _ results results' Hperm).
  rewrite (Permutation_length Hperm), (Permutation_length Hpii), Hrisk, Hcomp.
  repeat split; try reflexivity; [|exact Htech].
  do 2 f_equal. apply list_to_set_perm_L. by apply Permutation_map.
Qed.

Lemma summary_invariant_under_permutation_witness :
  Spec.sameOutcome Spec.sameSummary
    (calculateAggregatedMetrics [imageResult; tableResult])
    (calculateAggregatedMetrics [tableResult; imageResult]).
Proof. apply summary_invariant_under_permutation. apply perm_swap. Defined.

(** The technique array itself follows the order of first appearance, so
    it is the one field that is equal only as a set. *)
Lemma technique_array_follows_input_order :
  exists forth back,
    calculateAggregatedMetrics [imageResult; tableResult] = Return forth
    /\ calculateAggregatedMetrics [tableResult; imageResult] = Return back
    /\ privacyTechniques forth
         = [DIFFERENTIAL_PRIVACY; FEDERATED_LEARNING; DATA_MASKING]
    /\ privacyTechniques back
         = [DATA_MASKING; DIFFERENTIAL_PRIVACY; FEDERATED_LEARNING].
Proof. eexists _, _. repeat split; reflexivity. Qed.

(** *** C8 *)

(** C8, as the code has it: summing up an empty sequence does not fail;
    it returns a summary with zero files, the risk HIGH and the three
    averages NaN.  The panel does not make that call: on a missing or
    empty result list its effect leaves the stored summary as it is, and
    only a non-empty list is summed up. *)
Theorem empty_batch_returns_nan_summary_behind_guard :
  (exists summary,
     calculateAggregatedMetrics [] = Return summary
     /\ totalFiles summary = 0
     /\ avgPrivacyScore summary = NaN
     /\ avgEncryptionStrength summary = NaN
     /\ avgAnonymizationLevel summary = NaN
     /\ overallRisk summary = "HIGH"%string)
  /\ (forall current : option Summary,
        onResults (Some []) current = Return current
        /\ onResults None current = Return current)
  /\ (forall (first : Result) (rest : list Result) (current : option Summary),
        onResults (Some (first :: rest)) current
        = match calculateAggregatedMetrics (first :: rest) with
          | Return summary => Return (Some summary)
          | Throw message => Throw message
          end).
Proof.
  split; [|split].
  - eexists. split; [reflexivity|]. repeat split.
  - intros current. split; reflexivity.
  - intros first rest current. reflexivity.
Qed.

(** C8 as worded fails: the call on the empty sequence returns. *)
Lemma empty_batch_error_counterexample : ~ Spec.failsOnEmptyBatch.
Proof. intros [message Hthrow]. vm_compute in Hthrow. discriminate. Qed.

(** *** The scenario of section 8: columns ssn, email, notes *)

Lemma getRandomNumber_range (lo hi : Z) (s : rng) :
  lo <= hi -> (0 <= s 0%nat)%Q -> (s 0%nat < 1)%Q ->
  exists n, getRandomNumber lo hi s = (Return n, fun k => s (S k)) /\ lo <= n <= hi.
Proof.
  intros Hle H0 H1. eexists. split; [reflexivity|].
  set (w := hi - lo + 1).
  assert (0 < inject_Z w)%Q as Hw by (unfold Qlt, inject_Z; simpl; lia).
  assert (0 <= Qfloor (s 0%nat * inject_Z w)) as Hlow.
  { change 0 with (Qfloor 0). apply Qfloor_resp_le.
    apply Qmult_le_0_compat; [exact H0|]. by apply Qlt_le_weak. }
  assert (Qfloor (s 0%nat * inject_Z w) < w) as Hhigh.
  { rewrite Zlt_Qlt.
    eapply Qle_lt_trans; [apply Qfloor_le|].
    rewrite <- (Qmult_1_l (inject_Z w)) at 2.
    by apply Qmult_lt_compat_r. }
  lia.
Qed.

Lemma classifyColumn_matched (column detectedType : string) (maxScore : Z)
    (pii : bool) (s : rng) :
  matchColumn column = (maxScore, detectedType, pii) ->
  0 < maxScore ->
  classifyColumn column s
    = (Return (mkFinding column detectedType pii maxScore), fun k => s (S k)).
Proof.
  intros Hmatch Hpos. unfold classifyColumn. rewrite Hmatch.
  destruct (Z.eqb_spec maxScore 0); [lia|].
  destruct (Z.ltb_spec 0 maxScore); [|lia].
  reflexivity.
Qed.

Lemma classifyColumn_unmatched (column detectedType : string) (pii : bool) (s : rng) :
  matchColumn column = (0, detectedType, pii) ->
  (0 <= s 0%nat)%Q -> (s 0%nat < 1)%Q ->
  exists n,
    classifyColumn column s
      = (Return (mkFinding column detectedType pii n), fun k => s (S (S k)))
    /\ 10 <= n <= 30.
Proof.
  intros Hmatch H0 H1. unfold classifyColumn. rewrite Hmatch. cbn [Z.eqb Z.ltb Z.compare].
  destruct (getRandomNumber_range 10 30 s) as (n & Hn & Hrange); [lia|assumption..|].
  exists n. split; [|exact Hrange].
  unfold mbind, M_bind. rewrite Hn. reflexivity.
Qed.

Lemma ssn_email_notes_restricted (note : Z) :
  10 <= note <= 30 ->
  sensitivityLevel (sensitivityOf (ssnEmailNotesFindings note)) = "RESTRICTED"%string
  /\ Z.max 60 (Z.min 98 (frameworkScore "GDPR" (sensitivityOf (ssnEmailNotesFindings note)))) = 65.
Proof.
  intros Hnote.
  assert (Forall
            (fun n =>
               sensitivityLevel (sensitivityOf (ssnEmailNotesFindings n)) = "RESTRICTED"%string
               /\ Z.max 60 (Z.min 98 (frameworkScore "GDPR"
                                        (sensitivityOf (ssnEmailNotesFindings n)))) = 65)
            (seqZ 10 21)) as Hall.
  { repeat (constructor; [split; vm_compute; reflexivity|]). constructor. }
  rewrite Forall_forall in Hall. apply Hall, elem_of_seqZ. lia.
Qed.

(** Whatever [Math.random] draws, the table is RESTRICTED and its GDPR
    score is 65: 85, less 15 for the level, less 5 for the EMAIL column. *)
Lemma ssn_email_notes_scenario (s : rng) :
  unitDraws s ->
  exists note rest,
    analyzeSensitivity ssnEmailNotes s
      = (Return (sensitivityOf (ssnEmailNotesFindings note)), rest)
    /\ 10 <= note <= 30
    /\ sensitivityLevel (sensitivityOf (ssnEmailNotesFindings note)) = "RESTRICTED"%string
    /\ Z.max 60 (Z.min 98 (frameworkScore "GDPR" (sensitivityOf (ssnEmailNotesFindings note)))) = 65.
Proof.
  intros Hs.
  destruct (classifyColumn_unmatched "notes" "GENERAL" false (fun k => s (S (S k))))
    as (note & Hnotes & Hrange); [reflexivity|apply Hs..|].
  exists note. eexists. split; [|split; [exact Hrange|by apply ssn_email_notes_restricted]].
  unfold analyzeSensitivity, ssnEmailNotes, analyzeCSVSensitivity.
  change (is_label (fileType _) "csv") with true. cbv iota.
  cbn [insights detectedColumns default from_option id].
  unfold mbind at 1, M_bind at 1.
  change (id ?x) with x.
  rewrite mapM_cons, (classifyColumn_matched "ssn" "SSN" 95 true) by (reflexivity || lia).
  rewrite mapM_cons, (classifyColumn_matched "email" "EMAIL" 80 true) by (reflexivity || lia).
  rewrite mapM_cons.
  rewrite Hnotes. reflexivity.
Qed.


(** ** Further properties of the engine, the panel, the processor and the API *)

Import Engine.
Import JS.
Import Panel.
Local Open Scope Z_scope.

(** *** Draws and the analysers *)

(** ** Further properties of the engine *)

(** *** Random numbers *)

Lemma unitDraws_tail (s : rng) : unitDraws s -> unitDraws (fun k => s (S k)).
Proof. intros Hs k. apply Hs. Qed.

(** [getRandomNumber] keeps its promise: with a draw in [0, 1) the
    result lies between [min] and [max], both included, and one draw is
    used up. *)
Theorem random_number_within_bounds (min max : Z) (s : rng) :
  min <= max -> unitDraws s ->
  exists n,
    getRandomNumber min max s = (Return n, fun k => s (S k))
    /\ min <= n <= max.
Proof.
  intros Hle Hs. apply getRandomNumber_range; [exact Hle|apply Hs..].
Qed.

Lemma zeroDraws_unit : unitDraws zeroDraws.
Proof. intros k. split; [discriminate|reflexivity]. Qed.

Lemma random_number_within_bounds_witness :
  exists n,
    getRandomNumber 10 30 zeroDraws = (Return n, fun k => zeroDraws (S k))
    /\ 10 <= n <= 30.
Proof. apply random_number_within_bounds; [lia|exact zeroDraws_unit]. Defined.

(** *** Loops with an invariant on the stream *)

(** A loop whose body returns on every stream that satisfies [I] and
    keeps [I], returns on such a stream and keeps [I]. *)
Lemma mapM_invariant {A B : Type} (I : rng -> Prop) (f : A -> M B)
    (P : A -> B -> Prop) (l : list A) :
  (forall x s, x ∈ l -> I s -> exists y s', f x s = (Return y, s') /\ I s' /\ P x y) ->
  forall s, I s ->
    exists ys s', mapM f l s = (Return ys, s') /\ I s' /\ Forall2 P l ys.
Proof.
  induction l as [|x l IH]; intros Hf s Hs.
  - exists [], s. repeat split; [exact Hs|constructor].
  - destruct (Hf x s) as (y & s1 & Hy & Hs1 & HP); [left|exact Hs|].
    destruct (IH (fun x' s' Hin => Hf x' s' (list_elem_of_further _ _ _ Hin)) s1 Hs1)
      as (ys & s2 & Hys & Hs2 & HF).
    exists (y :: ys), s2. rewrite mapM_cons, Hy, Hys.
    repeat split; [exact Hs2|by constructor].
Qed.

(** *** The column table *)

(** One step of the pattern loop. *)
Lemma matchColumn_step (column : string) (ps : list SensitivePattern)
    (m0 : Z) (t0 : string) (b0 : bool) :
  let result :=
    foldl
      (fun '(maxScore, detectedType, isPII) p =>
         if Text.RegExp_test (pattern p) column then
           if maxScore <? patternScore p
           then (patternScore p, patternType p, patternIsPII p)
           else (maxScore, detectedType, isPII)
         else (maxScore, detectedType, isPII))
      (m0, t0, b0) ps in
  m0 <= fst (fst result)
  /\ (forall p, p ∈ ps -> Text.RegExp_test (pattern p) column = true ->
        patternScore p <= fst (fst result))
  /\ (result = (m0, t0, b0)
      \/ exists p, p ∈ ps /\ Text.RegExp_test (pattern p) column = true
           /\ result = (patternScore p, patternType p, patternIsPII p)).
Proof.
  revert m0 t0 b0. induction ps as [|p ps IH]; intros m0 t0 b0; cbn zeta.
  - simpl. split; [lia|]. split; [|by left].
    intros p Hin. by apply elem_of_nil in Hin.
  - cbn [foldl].
    destruct (Text.RegExp_test (pattern p) column) eqn:Htest;
      [destruct (Z.ltb_spec m0 (patternScore p)) as [Hlt|Hge]|].
    + specialize (IH (patternScore p) (patternType p) (patternIsPII p)).
      cbn zeta in IH. destruct IH as (Hmono & Hmax & Horigin).
      split; [lia|]. split.
      * intros q [->|Hin]%elem_of_cons Hq; [exact Hmono|by apply Hmax].
      * right. destruct Horigin as [->|(q & Hin & Hq & ->)].
        -- exists p. split; [left|]. by split.
        -- exists q. split; [by right|]. by split.
    + specialize (IH m0 t0 b0). cbn zeta in IH. destruct IH as (Hmono & Hmax & Horigin).
      split; [exact Hmono|]. split.
      * intros q [->|Hin]%elem_of_cons Hq; [lia|by apply Hmax].
      * destruct Horigin as [->|(q & Hin & Hq & ->)]; [by left|].
        right. exists q. split; [by right|]. by split.
    + specialize (IH m0 t0 b0). cbn zeta in IH. destruct IH as (Hmono & Hmax & Horigin).
      split; [exact Hmono|]. split.
      * intros q [->|Hin]%elem_of_cons Hq; [congruence|by apply Hmax].
      * destruct Horigin as [->|(q & Hin & Hq & ->)]; [by left|].
        right. exists q. split; [by right|]. by split.
Qed.

(** Every pattern of the table carries a positive score, the PII flag
    and a type other than GENERAL. *)
Lemma sensitivePatterns_rows :
  Forall
    (fun p => 65 <= patternScore p <= 95 /\ patternIsPII p = true
              /\ patternType p <> "GENERAL"%string)
    sensitivePatterns.
Proof. repeat constructor; try (cbn; lia); discriminate. Qed.

Lemma matchColumn_best (column : string) :
  (forall p, p ∈ sensitivePatterns ->
     Text.RegExp_test (pattern p) column = true ->
     patternScore p <= fst (fst (matchColumn column)))
  /\ ((matchColumn column = (0, "GENERAL"%string, false)
       /\ forall p, p ∈ sensitivePatterns ->
            Text.RegExp_test (pattern p) column = false)
      \/ exists p, p ∈ sensitivePatterns
           /\ Text.RegExp_test (pattern p) column = true
           /\ matchColumn column = (patternScore p, patternType p, patternIsPII p)).
Proof.
  pose proof (matchColumn_step column sensitivePatterns 0 "GENERAL" false) as H.
  cbn zeta in H. fold (matchColumn column) in H.
  destruct H as (_ & Hmax & Horigin). split; [exact Hmax|].
  destruct Horigin as [Hnone|Hsome]; [left|by right].
  split; [exact Hnone|].
  intros p Hin. destruct (Text.RegExp_test (pattern p) column) eqn:Htest; [|reflexivity].
  specialize (Hmax p Hin Htest). rewrite Hnone in Hmax. cbn in Hmax.
  pose proof sensitivePatterns_rows as Hrows. rewrite Forall_forall in Hrows.
  specialize (Hrows p Hin). lia.
Qed.


(** *** The three analysers *)

Lemma classifyColumn_finding (column : string) (s : rng) :
  unitDraws s ->
  exists f s',
    classifyColumn column s = (Return f, s') /\ unitDraws s'
    /\ field f = column
    /\ ((type f = "GENERAL"%string /\ isPII f = false /\ 10 <= sensitivityScore f <= 30)
        \/ (type f <> "GENERAL"%string /\ isPII f = true
            /\ 65 <= sensitivityScore f <= 95
            /\ sensitivityScore f = fst (fst (matchColumn column)))).
Proof.
  intros Hs.
  destruct (matchColumn_best column) as (_ & [[Hnone _]|Hsome]).
  - destruct (classifyColumn_unmatched column "GENERAL" false s Hnone)
      as (n & Hrun & Hn); [apply Hs..|].
    eexists _, _. split; [exact Hrun|]. split; [intros k; apply Hs|].
    split; [reflexivity|]. left. repeat split; cbn; lia.
  - destruct Hsome as (p & Hin & _ & Hp).
    pose proof sensitivePatterns_rows as Hrows. rewrite Forall_forall in Hrows.
    destruct (Hrows p Hin) as (Hscore & Hpii & Htype).
    rewrite Hpii in Hp.
    eexists _, _. split; [apply (classifyColumn_matched _ _ _ _ s Hp); lia|].
    split; [intros k; apply Hs|]. split; [reflexivity|]. right.
    rewrite Hp. repeat split; cbn; try lia; assumption.
Qed.

Lemma analyzeCSVSensitivity_returns (fileAnalysis : FileAnalysis) (s : rng) :
  unitDraws s ->
  exists findings rest,
    analyzeCSVSensitivity fileAnalysis s = (Return findings, rest)
    /\ unitDraws rest
    /\ map field findings = columnsOf fileAnalysis
    /\ Forall
         (fun f =>
            (type f = "GENERAL"%string /\ isPII f = false
             /\ 10 <= sensitivityScore f <= 30)
            \/ (type f <> "GENERAL"%string /\ isPII f = true
                /\ 65 <= sensitivityScore f <= 95))
         findings.
Proof.
  intros Hs. unfold analyzeCSVSensitivity. fold (columnsOf fileAnalysis).
  destruct (mapM_invariant unitDraws classifyColumn
              (fun column f =>
                 field f = column
                 /\ ((type f = "GENERAL"%string /\ isPII f = false
                      /\ 10 <= sensitivityScore f <= 30)
                     \/ (type f <> "GENERAL"%string /\ isPII f = true
                         /\ 65 <= sensitivityScore f <= 95)))
              (columnsOf fileAnalysis)) with (s := s)
    as (findings & rest & Hrun & Hrest & HF); [|exact Hs|].
  - intros column s0 _ Hs0.
    destruct (classifyColumn_finding column s0 Hs0) as (f & s1 & Hf & Hs1 & Hfield & Hkind).
    exists f, s1. split; [exact Hf|]. split; [exact Hs1|]. split; [exact Hfield|].
    destruct Hkind as [Hplain|(H1 & H2 & H3 & _)]; [by left|by right].
  - exists findings, rest. split; [exact Hrun|]. split; [exact Hrest|]. split.
    + clear Hrun. induction HF as [|c f cs fs [Hc _] _ IH]; [reflexivity|].
      cbn. by rewrite Hc, IH.
    + clear Hrun. induction HF as [|c f cs fs [_ Hk] _ IH]; constructor; assumption.
Qed.

(** The table analyser returns one finding per column, in the order of
    the columns and under the column's name.  With draws in [0, 1) a
    finding that matches a pattern is PII, has a type other than
    GENERAL and a score between 65 and 95; a finding that matches none
    is not PII, has the type GENERAL and a score between 10 and 30. *)
Theorem table_findings_follow_columns (fileAnalysis : FileAnalysis) (s : rng) :
  unitDraws s ->
  exists findings rest,
    analyzeCSVSensitivity fileAnalysis s = (Return findings, rest)
    /\ unitDraws rest
    /\ map field findings = columnsOf fileAnalysis
    /\ Forall
         (fun f =>
            (type f = "GENERAL"%string /\ isPII f = false
             /\ 10 <= sensitivityScore f <= 30)
            \/ (type f <> "GENERAL"%string /\ isPII f = true
                /\ 65 <= sensitivityScore f <= 95))
         findings.
Proof. exact (analyzeCSVSensitivity_returns fileAnalysis s). Qed.

Lemma table_findings_follow_columns_witness :
  exists findings rest,
    analyzeCSVSensitivity ssnEmailNotes zeroDraws = (Return findings, rest)
    /\ unitDraws rest
    /\ map field findings = columnsOf ssnEmailNotes
    /\ Forall
         (fun f =>
            (type f = "GENERAL"%string /\ isPII f = false
             /\ 10 <= sensitivityScore f <= 30)
            \/ (type f <> "GENERAL"%string /\ isPII f = true
                /\ 65 <= sensitivityScore f <= 95))
         findings.
Proof. apply table_findings_follow_columns. exact zeroDraws_unit. Defined.


Lemma classifyObject_typed (t : string) (s : rng) :
  classifyObject (mkImageObject (Some t)) s = (Return (objectFinding t), s).
Proof.
  unfold classifyObject, objectFinding. cbn [objType].
  destruct (String.eqb (Text.toLowerCase t) "person"); [reflexivity|].
  destruct (String.eqb (Text.toLowerCase t) "text" || String.eqb (Text.toLowerCase t) "document");
    [reflexivity|].
  destruct (String.eqb (Text.toLowerCase t) "vehicle"); [reflexivity|].
  destruct (String.eqb (Text.toLowerCase t) "building"); reflexivity.
Qed.

Lemma objectFinding_shape (t : string) :
  field (objectFinding t) = ("Image_" ++ t)%string
  /\ type (objectFinding t) = Text.toUpperCase t
  /\ sensitivityScore (objectFinding t) ∈ [85; 70; 60; 40; 25]
  /\ (isPII (objectFinding t) = true <-> 70 <= sensitivityScore (objectFinding t)).
Proof.
  unfold objectFinding.
  destruct (String.eqb (Text.toLowerCase t) "person");
    [|destruct (String.eqb (Text.toLowerCase t) "text" || String.eqb (Text.toLowerCase t) "document");
      [|destruct (String.eqb (Text.toLowerCase t) "vehicle");
        [|destruct (String.eqb (Text.toLowerCase t) "building")]]];
    cbn; (split; [reflexivity|]); (split; [reflexivity|]);
    (split; [repeat first [by left|right]|]); split; (discriminate || lia || reflexivity).
Qed.

Lemma mapM_classifyObject (objects : list ImageObject) (s : rng) :
  mapM classifyObject objects s =
    match mapM objType objects with
    | Some types => (Return (map objectFinding types), s)
    | None => (Throw "Cannot read properties of undefined (reading 'toLowerCase')", s)
    end.
Proof.
  induction objects as [|[[t|]] objects IH]; [reflexivity| |].
  - rewrite mapM_cons, classifyObject_typed, IH. cbn.
    destruct (mapM objType objects); reflexivity.
  - rewrite mapM_cons. reflexivity.
Qed.

Lemma analyzeImageSensitivity_cases (fileAnalysis : FileAnalysis) (s : rng) :
  (Forall (fun obj => is_Some (objType obj)) (objectsOf fileAnalysis) ->
   exists findings,
     analyzeImageSensitivity fileAnalysis s = (Return findings, s)
     /\ Forall2
          (fun obj f =>
             exists t, objType obj = Some t
               /\ field f = ("Image_" ++ t)%string
               /\ type f = Text.toUpperCase t
               /\ sensitivityScore f ∈ [85; 70; 60; 40; 25]
               /\ (isPII f = true <-> 70 <= sensitivityScore f))
          (objectsOf fileAnalysis) findings)
  /\ (Exists (fun obj => objType obj = None) (objectsOf fileAnalysis) ->
      analyzeImageSensitivity fileAnalysis s
      = (Throw "Cannot read properties of undefined (reading 'toLowerCase')", s)).
Proof.
  unfold analyzeImageSensitivity. fold (objectsOf fileAnalysis).
  rewrite mapM_classifyObject.
  generalize (objectsOf fileAnalysis). intros objects. split.
  - intros Htyped.
    assert (exists types, mapM objType objects = Some types
                          /\ Forall2 (fun obj t => objType obj = Some t) objects types)
      as (types & Hsome & HF).
    { induction Htyped as [|obj objects [t Ht] _ (types & Hsome & HF)].
      - exists []. split; [reflexivity|constructor].
      - exists (t :: types). cbn. rewrite Ht. cbn. rewrite Hsome.
        split; [reflexivity|by constructor]. }
    rewrite Hsome. eexists. split; [reflexivity|].
    clear Hsome Htyped. induction HF as [|obj t objects types Ht _ IH]; [constructor|].
    cbn. constructor; [|exact IH].
    exists t. split; [exact Ht|]. apply objectFinding_shape.
  - intros Huntyped.
    assert (mapM objType objects = None) as ->; [|reflexivity].
    induction Huntyped as [obj objects Hnone|obj objects _ IH]; cbn.
    + by rewrite Hnone.
    + rewrite IH. by destruct (objType obj).
Qed.



Lemma analyzeDocumentSensitivity_returns (fileAnalysis : FileAnalysis) (s : rng) :
  exists findings,
    analyzeDocumentSensitivity fileAnalysis s = (Return findings, s)
    /\ Forall2
         (fun entity f =>
            let t := entityType entity in
            field f = ("Doc_" ++ t)%string /\ type f = t
            /\ 30 <= sensitivityScore f <= 80
            /\ (isPII f = false <-> t = "ORGANIZATION"%string \/ t = "DATE"%string)
            /\ (t ∉ ["PERSON"; "ORGANIZATION"; "LOCATION"; "DATE"; "MONEY"]%string ->
                sensitivityScore f = 50))
         (entitiesOf fileAnalysis) findings.
Proof.
  unfold analyzeDocumentSensitivity. fold (entitiesOf fileAnalysis).
  destruct (mapM_invariant (fun s' => s' = s) classifyEntity
              (fun entity f =>
                 let t := entityType entity in
                 field f = ("Doc_" ++ t)%string /\ type f = t
                 /\ 30 <= sensitivityScore f <= 80
                 /\ (isPII f = false <-> t = "ORGANIZATION"%string \/ t = "DATE"%string)
                 /\ (t ∉ ["PERSON"; "ORGANIZATION"; "LOCATION"; "DATE"; "MONEY"]%string ->
                     sensitivityScore f = 50))
              (entitiesOf fileAnalysis)) with (s := s)
    as (findings & rest & Hrun & -> & HF); [|reflexivity|by exists findings].
  intros entity s0 _ ->. unfold classifyEntity. cbn zeta.
  destruct (String.eqb_spec (entityType entity) "PERSON") as [->|H1];
    [|destruct (String.eqb_spec (entityType entity) "ORGANIZATION") as [->|H2];
      [|destruct (String.eqb_spec (entityType entity) "LOCATION") as [->|H3];
        [|destruct (String.eqb_spec (entityType entity) "DATE") as [->|H4];
          [|destruct (String.eqb_spec (entityType entity) "MONEY") as [->|H5]]]]];
    (eexists _, s; split; [reflexivity|]; split; [reflexivity|]);
    cbn; repeat split; try lia; try discriminate; auto;
    try (intros [H|H]; congruence); try (intros H; set_solver).
Qed.

(** The document analyser never throws and takes no draw.  It returns
    one finding per entity in order, named and typed after the entity
    type; PERSON, LOCATION and MONEY score 80, 60 and 70 and are PII,
    ORGANIZATION and DATE score 40 and 30 and are not, and every other
    type scores 50 and is PII. *)
Theorem document_analysis_never_throws (fileAnalysis : FileAnalysis) (s : rng) :
  exists findings,
    analyzeDocumentSensitivity fileAnalysis s = (Return findings, s)
    /\ Forall2
         (fun entity f =>
            let t := entityType entity in
            field f = ("Doc_" ++ t)%string /\ type f = t
            /\ 30 <= sensitivityScore f <= 80
            /\ (isPII f = false <-> t = "ORGANIZATION"%string \/ t = "DATE"%string)
            /\ (t ∉ ["PERSON"; "ORGANIZATION"; "LOCATION"; "DATE"; "MONEY"]%string ->
                sensitivityScore f = 50))
         (entitiesOf fileAnalysis) findings.
Proof. exact (analyzeDocumentSensitivity_returns fileAnalysis s). Qed.

(** *** The sensitivity score *)

Lemma Qfloor_plus_Z (x : Q) (n : Z) : Qfloor (x + inject_Z n) = Qfloor x + n.
Proof.
  destruct x as [a b]. unfold Qfloor, Qplus, inject_Z. cbn [Qnum Qden].
  rewrite Pos.mul_1_r, Z.mul_1_r. apply Z.div_add. discriminate.
Qed.

Lemma round_half_up_plus_Z (q : Q) (n : Z) :
  round_half_up (q + inject_Z n) = round_half_up q + n.
Proof.
  unfold round_half_up. rewrite <- Qfloor_plus_Z.
  apply Qfloor_comp. ring.
Qed.

Lemma round_half_up_mono (p q : Q) : (p <= q)%Q -> round_half_up p <= round_half_up q.
Proof.
  intros Hle. unfold round_half_up. apply Qfloor_resp_le.
  by apply Qplus_le_compat; [|apply Qle_refl].
Qed.

Lemma round_half_up_Z (n : Z) : round_half_up (inject_Z n) = n.
Proof.
  unfold round_half_up, Qfloor, Qplus, inject_Z. cbn [Qnum Qden].
  change (Z.pos (1 * 2)) with 2.
  replace (n * 2 + 1 * 1) with (1 + n * 2) by lia.
  rewrite Z.div_add by discriminate. reflexivity.
Qed.

Lemma countPII_cons (f : Finding) (l : list Finding) :
  Spec.countPII (f :: l) = if isPII f then Spec.countPII l + 1 else Spec.countPII l.
Proof. reflexivity. Qed.

Lemma countPII_app (l1 l2 : list Finding) :
  Spec.countPII (l1 ++ l2) = Spec.countPII l1 + Spec.countPII l2.
Proof.
  induction l1 as [|f l1 IH]; [reflexivity|].
  rewrite <- app_comm_cons, !countPII_cons, IH. destruct (isPII f); lia.
Qed.

(** Flagging one more finding as PII raises the score by exactly 5, up
    to the cap of 100; in particular it never lowers it. *)
Theorem flagging_pii_adds_five (before after : list Finding) (f : Finding) :
  isPII f = false ->
  let flagged := mkFinding (field f) (type f) true (sensitivityScore f) in
  calculateSensitivityScore (before ++ flagged :: after)
  = Z.min 100 (calculateSensitivityScore (before ++ f :: after) + 5).
Proof.
  intros Hf flagged.
  rewrite !calculateSensitivityScore_nonempty by (by destruct before).
  rewrite !map_app, !countPII_app, !countPII_cons. subst flagged.
  cbn [map sensitivityScore isPII]. rewrite Hf.
  set (m := Spec.mean (map sensitivityScore before ++ sensitivityScore f :: map sensitivityScore after)).
  set (c := Spec.countPII before + Spec.countPII after).
  replace (5 * (Spec.countPII before + (Spec.countPII after + 1))) with (5 * c + 5)
    by (unfold c; lia).
  rewrite (round_half_up_comp (m + inject_Z (5 * c + 5))
             ((m + inject_Z (5 * c)) + inject_Z 5))
    by (rewrite inject_Z_plus; ring).
  rewrite round_half_up_plus_Z. lia.
Qed.

Lemma flagging_pii_adds_five_witness :
  calculateSensitivityScore
    [mkFinding "Image_Person" "PERSON" true 85; mkFinding "Image_Vehicle" "VEHICLE" true 60]
  = Z.min 100 (calculateSensitivityScore personAndVehicle + 5).
Proof.
  apply (flagging_pii_adds_five [mkFinding "Image_Person" "PERSON" true 85] []
           (mkFinding "Image_Vehicle" "VEHICLE" false 60)).
  reflexivity.
Defined.

(** The order of the findings does not matter: a permutation of the
    findings has the same score and level, and the same PII findings. *)
Theorem sensitivity_ignores_finding_order (findings findings' : list Finding) :
  findings ≡ₚ findings' ->
  calculateSensitivityScore findings = calculateSensitivityScore findings'
  /\ sensitivityLevel (sensitivityOf findings) = sensitivityLevel (sensitivityOf findings')
  /\ Engine.piiFields (sensitivityOf findings) ≡ₚ Engine.piiFields (sensitivityOf findings').
Proof.
  intros Hperm.
  assert (calculateSensitivityScore findings = calculateSensitivityScore findings') as Hscore.
  { unfold calculateSensitivityScore, sumScores.
    rewrite (Permutation_length Hperm).
    rewrite (Permutation_length (filter_Permutation _ _ _ Hperm)).
    assert (foldl (fun sum dt => sum + sensitivityScore dt) 0 findings
            = foldl (fun sum dt => sum + sensitivityScore dt) 0 findings') as ->;
      [|reflexivity].
    apply (foldl_permutation eq (fun sum dt => sum + sensitivityScore dt));
      [intros; congruence|intros; lia|exact Hperm]. }
  split; [exact Hscore|]. split.
  - unfold sensitivityOf. cbn. by rewrite Hscore.
  - unfold sensitivityOf. cbn. by apply filter_Permutation.
Qed.

Lemma sensitivity_ignores_finding_order_witness :
  calculateSensitivityScore personAndVehicle
  = calculateSensitivityScore (reverse personAndVehicle).
Proof.
  apply (sensitivity_ignores_finding_order personAndVehicle (reverse personAndVehicle)).
  apply perm_swap.
Defined.

Lemma total_ge (lo : Z) (xs : list Z) :
  Forall (fun x => lo <= x) xs -> lo * Z.of_nat (length xs) <= Spec.total xs.
Proof.
  induction 1 as [|x xs Hx _ IH]; unfold Spec.total in *; cbn [foldr length]; lia.
Qed.

Lemma total_le (hi : Z) (xs : list Z) :
  Forall (fun x => x <= hi) xs -> Spec.total xs <= hi * Z.of_nat (length xs).
Proof.
  induction 1 as [|x xs Hx _ IH]; unfold Spec.total in *; cbn [foldr length]; lia.
Qed.

Lemma mean_ge (lo : Z) (xs : list Z) :
  xs <> [] -> Forall (fun x => lo <= x) xs -> (inject_Z lo <= Spec.mean xs)%Q.
Proof.
  intros Hne Hall. unfold Spec.mean. apply Qle_shift_div_l.
  - destruct xs; [congruence|]. unfold Qlt, inject_Z; cbn. lia.
  - rewrite <- inject_Z_mult, <- Zle_Qle. by apply total_ge.
Qed.

Lemma mean_le (hi : Z) (xs : list Z) :
  xs <> [] -> Forall (fun x => x <= hi) xs -> (Spec.mean xs <= inject_Z hi)%Q.
Proof.
  intros Hne Hall. unfold Spec.mean. apply Qle_shift_div_r.
  - destruct xs; [congruence|]. unfold Qlt, inject_Z; cbn. lia.
  - rewrite <- inject_Z_mult, <- Zle_Qle. by apply total_le.
Qed.

(** A non-empty list of findings scores at least as much as its least
    finding and never more than 100. *)
Lemma calculateSensitivityScore_bounds (lo : Z) (findings : list Finding) :
  findings <> [] -> 0 <= lo <= 100 ->
  Forall (fun f => lo <= sensitivityScore f) findings ->
  lo <= calculateSensitivityScore findings <= 100.
Proof.
  intros Hne Hlo Hall. rewrite calculateSensitivityScore_nonempty by assumption.
  split; [|lia]. apply Z.min_glb; [lia|].
  rewrite <- (round_half_up_Z lo). apply round_half_up_mono.
  rewrite <- (Qplus_0_r (inject_Z lo)). apply Qplus_le_compat.
  - apply mean_ge; [by destruct findings|]. by rewrite Forall_map.
  - pose proof (countPII_nonneg findings). rewrite <- (Zle_Qle 0). lia.
Qed.

Lemma analyzeSensitivity_dispatch (fileAnalysis : FileAnalysis) (s : rng)
    (findings : list Finding) (rest : rng) :
  (if is_label (fileType fileAnalysis) "csv" then analyzeCSVSensitivity fileAnalysis
   else if is_label (fileType fileAnalysis) "image" then analyzeImageSensitivity fileAnalysis
   else if is_label (fileType fileAnalysis) "document" then analyzeDocumentSensitivity fileAnalysis
   else mret []) s = (Return findings, rest) ->
  analyzeSensitivity fileAnalysis s = (Return (sensitivityOf findings), rest).
Proof.
  intros Hrun. unfold analyzeSensitivity. unfold mbind at 1, M_bind at 1.
  by rewrite Hrun.
Qed.

(** What the classifier gives back, with draws in [0, 1): it throws
    only for an image with an untyped object; otherwise every finding
    scores between 10 and 95, the overall score lies between 10 and 100,
    the level is the one of that score, and the PII fields are exactly
    the findings flagged as PII, in their order. *)
Lemma analyzeSensitivity_cases (fileAnalysis : FileAnalysis) (s : rng) :
  unitDraws s ->
  (exists findings rest,
     analyzeSensitivity fileAnalysis s = (Return (sensitivityOf findings), rest)
     /\ unitDraws rest
     /\ Forall (fun f => 10 <= sensitivityScore f <= 95) findings
     /\ 10 <= calculateSensitivityScore findings <= 100)
  \/ (is_label (fileType fileAnalysis) "image" = true
      /\ Exists (fun obj => objType obj = None) (objectsOf fileAnalysis)
      /\ analyzeSensitivity fileAnalysis s
         = (Throw "Cannot read properties of undefined (reading 'toLowerCase')", s)).
Proof.
  intros Hs.
  assert (forall findings rest,
            (if is_label (fileType fileAnalysis) "csv" then analyzeCSVSensitivity fileAnalysis
             else if is_label (fileType fileAnalysis) "image"
                  then analyzeImageSensitivity fileAnalysis
             else if is_label (fileType fileAnalysis) "document"
                  then analyzeDocumentSensitivity fileAnalysis
             else mret []) s = (Return findings, rest) ->
            unitDraws rest ->
            Forall (fun f => 10 <= sensitivityScore f <= 95) findings ->
            exists findings rest,
              analyzeSensitivity fileAnalysis s = (Return (sensitivityOf findings), rest)
              /\ unitDraws rest
              /\ Forall (fun f => 10 <= sensitivityScore f <= 95) findings
              /\ 10 <= calculateSensitivityScore findings <= 100) as Hdone.
  { intros findings rest Hrun Hrest Hall. exists findings, rest.
    split; [by apply analyzeSensitivity_dispatch|]. split; [exact Hrest|].
    split; [exact Hall|].
    destruct findings as [|f findings]; [cbn; lia|].
    apply calculateSensitivityScore_bounds; [discriminate|lia|].
    eapply Forall_impl; [exact Hall|]. cbn. intros; lia. }
  destruct (is_label (fileType fileAnalysis) "csv") eqn:Hcsv.
  { left. destruct (analyzeCSVSensitivity_returns fileAnalysis s Hs)
      as (findings & rest & Hrun & Hrest & _ & Hall).
    apply (Hdone findings rest Hrun Hrest).
    eapply Forall_impl; [exact Hall|]. cbn. intros f [(_ & _ & H)|(_ & _ & H)]; lia. }
  destruct (is_label (fileType fileAnalysis) "image") eqn:Himage.
  { destruct (analyzeImageSensitivity_cases fileAnalysis s) as [Htyped Huntyped].
    destruct (decide (Forall (fun obj => is_Some (objType obj)) (objectsOf fileAnalysis)))
      as [Hall|Hsome].
    - left. destruct (Htyped Hall) as (findings & Hrun & HF).
      apply (Hdone findings s Hrun Hs).
      eapply Forall2_Forall_r; [exact HF|]. apply Forall_forall.
      intros obj _ f (t & _ & _ & _ & Hscore & _).
      repeat (apply elem_of_cons in Hscore as [->|Hscore]; [lia|]).
      by apply elem_of_nil in Hscore.
    - right. apply not_Forall_Exists in Hsome; [|apply _].
      assert (Exists (fun obj => objType obj = None) (objectsOf fileAnalysis)) as Hnone.
      { eapply Exists_impl; [exact Hsome|]. cbn. intros obj Hobj.
        destruct (objType obj); [|reflexivity]. exfalso. apply Hobj. by eexists. }
      split; [reflexivity|]. split; [exact Hnone|].
      unfold analyzeSensitivity. unfold mbind at 1, M_bind at 1.
      rewrite Hcsv, Himage. by rewrite (Huntyped Hnone). }
  destruct (is_label (fileType fileAnalysis) "document") eqn:Hdoc.
  { left. destruct (analyzeDocumentSensitivity_returns fileAnalysis s)
      as (findings & Hrun & HF).
    apply (Hdone findings s Hrun Hs).
    eapply Forall2_Forall_r; [exact HF|]. apply Forall_forall.
    intros e _ f (_ & _ & Hscore & _). lia. }
  left. apply (Hdone [] s eq_refl Hs). constructor.
Qed.

(** With draws in [0, 1) the classifier either throws, which it does
    only for an image with an untyped object, or returns a profile
    whose findings score between 10 and 95, whose overall score lies
    between 10 and 100, whose level is the one of that score and whose
    PII fields are the findings flagged as PII, in their order. *)
Theorem classifier_profile_is_bounded (fileAnalysis : FileAnalysis) (s : rng) :
  unitDraws s ->
  (exists profile rest,
     analyzeSensitivity fileAnalysis s = (Return profile, rest)
     /\ Forall (fun f => 10 <= sensitivityScore f <= 95) (dataTypes profile)
     /\ 10 <= sensitivityAnalysisScore profile <= 100
     /\ sensitivityLevel profile = getSensitivityLevel (sensitivityAnalysisScore profile)
     /\ Engine.piiFields profile = filter (fun f => isPII f = true) (dataTypes profile))
  \/ (is_label (fileType fileAnalysis) "image" = true
      /\ Exists (fun obj => objType obj = None) (objectsOf fileAnalysis)
      /\ analyzeSensitivity fileAnalysis s
         = (Throw "Cannot read properties of undefined (reading 'toLowerCase')", s)).
Proof.
  intros Hs.
  destruct (analyzeSensitivity_cases fileAnalysis s Hs)
    as [(findings & rest & Hrun & _ & Hall & Hscore)|Hthrow]; [left|by right].
  exists (sensitivityOf findings), rest.
  split; [exact Hrun|]. split; [exact Hall|]. split; [exact Hscore|]. split; reflexivity.
Qed.

Lemma classifier_profile_is_bounded_witness :
  exists profile rest,
    analyzeSensitivity streetPhoto zeroDraws = (Return profile, rest)
    /\ 10 <= sensitivityAnalysisScore profile <= 100.
Proof.
  destruct (classifier_profile_is_bounded streetPhoto zeroDraws zeroDraws_unit)
    as [(profile & rest & Hrun & _ & Hscore & _)|(_ & _ & Hthrow)].
  - by exists profile, rest.
  - vm_compute in Hthrow. discriminate.
Defined.

(** *** Compliance *)

Lemma frameworkScore_range (framework : string) (profile : SensitivityAnalysis) :
  50 <= frameworkScore framework profile <= 85
  /\ frameworkScore framework profile <= frameworkScore "SOX" profile.
Proof.
  unfold frameworkScore. cbn [String.eqb Ascii.eqb Bool.eqb].
  destruct (String.eqb (sensitivityLevel profile) "RESTRICTED");
    [|destruct (String.eqb (sensitivityLevel profile) "CONFIDENTIAL")];
    (destruct (5 <? length (Engine.piiFields profile))%nat;
       [|destruct (2 <? length (Engine.piiFields profile))%nat]);
    destruct (String.eqb framework "GDPR");
    destruct (String.eqb framework "HIPAA");
    destruct (String.eqb framework "CCPA");
    repeat match goal with |- context [someType ?l ?f] => destruct (someType l f) end;
    lia.
Qed.

Lemma entryOf_in (profile : SensitivityAnalysis) (cs : list (string * ComplianceResult))
    (entry : string * ComplianceResult) :
  Forall2 (Spec.entryOf profile) Engine.complianceFrameworks cs ->
  entry ∈ cs ->
  Engine.score (snd entry) = Z.max 60 (Z.min 98 (frameworkScore (fst entry) profile))
  /\ Engine.status (snd entry) = statusOf (frameworkScore (fst entry) profile).
Proof.
  intros HF Hin.
  assert (Forall (fun e =>
            Engine.score (snd e) = Z.max 60 (Z.min 98 (frameworkScore (fst e) profile))
            /\ Engine.status (snd e) = statusOf (frameworkScore (fst e) profile)) cs) as Hall.
  { eapply Forall2_entries; [|exact HF]. intros config e (-> & Hs & Ht). by split. }
  rewrite Forall_forall in Hall. by apply Hall.
Qed.

(** No framework ever scores above the base of 85: every stored score
    lies between 60 and 85, a framework is COMPLIANT exactly when it
    kept the full 85, and SOX, which has no rule of its own, scores at
    least as much as any other framework. *)
Theorem compliance_never_exceeds_base (fileAnalysis : FileAnalysis)
    (profile : SensitivityAnalysis) (s : rng) :
  exists results rest,
    assessCompliance fileAnalysis profile s = (Return results, rest)
    /\ Forall
         (fun entry =>
            60 <= Engine.score (snd entry) <= 85
            /\ (Engine.status (snd entry) = "COMPLIANT"%string
                <-> Engine.score (snd entry) = 85))
         results
    /\ (forall entry sox,
          entry ∈ results -> sox ∈ results -> fst sox = "SOX"%string ->
          Engine.score (snd entry) <= Engine.score (snd sox)).
Proof.
  destruct (assessCompliance_returns fileAnalysis profile s) as (cs & rest & Hrun & HF).
  exists cs, rest. split; [exact Hrun|]. split.
  - apply Forall_forall. intros entry Hin.
    destruct (entryOf_in profile cs entry HF Hin) as [Hscore Hstatus].
    destruct (frameworkScore_range (fst entry) profile) as [Hrange _].
    rewrite Hscore, Hstatus. split; [lia|]. unfold statusOf.
    destruct (Z.leb_spec 85 (frameworkScore (fst entry) profile));
      [|destruct (Z.leb_spec 70 (frameworkScore (fst entry) profile))];
      split; intros; try discriminate; try reflexivity; lia.
  - intros entry sox Hin Hsox Hname.
    destruct (entryOf_in profile cs entry HF Hin) as [Hscore _].
    destruct (entryOf_in profile cs sox HF Hsox) as [Hscore' _].
    destruct (frameworkScore_range (fst entry) profile) as [_ Hle].
    rewrite Hscore, Hscore', Hname. lia.
Qed.

Lemma assessRequirements_filled (framework : string) (config : FrameworkConfig)
    (profile : SensitivityAnalysis) (s : rng) :
  (framework, config) ∈ Engine.complianceFrameworks -> unitDraws s ->
  exists reqs rest,
    assessRequirements framework profile s = (Return reqs, rest)
    /\ unitDraws rest
    /\ map requirement reqs = frameworkRequirements config
    /\ Forall
         (fun r =>
            requirementStatus r ∈ ["MET"; "PARTIAL"]%string
            /\ 75 <= requirementScore r <= 95)
         reqs.
Proof.
  intros Hin Hs.
  assert (List.find (fun entry => String.eqb (fst entry) framework)
            Engine.complianceFrameworks = Some (framework, config)) as Hfind.
  { unfold Engine.complianceFrameworks in *.
    repeat (apply elem_of_cons in Hin as [Hin|Hin];
            [injection Hin as -> ->; reflexivity|]).
    by apply elem_of_nil in Hin. }
  unfold assessRequirements. rewrite Hfind.
  destruct (mapM_invariant unitDraws
              (fun req =>
                 r ← Math_random;
                 score ← getRandomNumber 75 95;
                 mret (mkRequirement req
                         (if Qlt_bool (2 # 10) r then "MET" else "PARTIAL") score))
              (fun req r =>
                 requirement r = req
                 /\ requirementStatus r ∈ ["MET"; "PARTIAL"]%string
                 /\ 75 <= requirementScore r <= 95)
              (frameworkRequirements config)) with (s := s)
    as (reqs & rest & Hrun & Hrest & HF); [|exact Hs|].
  - intros req s0 _ Hs0.
    destruct (getRandomNumber_range 75 95 (fun k => s0 (S k)))
      as (n & Hn & Hrange); [lia|apply Hs0..|].
    eexists _, _. unfold mbind, M_bind. cbn [Math_random].
    rewrite Hn. split; [reflexivity|]. split; [intros k; apply Hs0|].
    cbn. split; [reflexivity|]. split; [|exact Hrange].
    destruct (Qlt_bool (2 # 10) (s0 0%nat)); [by left|right; by left].
  - exists reqs, rest. split; [exact Hrun|]. split; [exact Hrest|]. split.
    + clear Hrun. induction HF as [|req r reqs' rs [Hreq _] _ IH]; [reflexivity|].
      cbn. by rewrite Hreq, IH.
    + eapply Forall2_Forall_r; [exact HF|]. apply Forall_forall.
      intros req _ r (_ & Hstatus & Hscore). by split.
Qed.

(** Every framework result carries its checklist: with draws in
    [0, 1) the requirements are the four the framework names, in the
    table's order, each marked MET or PARTIAL and scored between 75 and
    95. *)
Theorem requirement_checklists_are_filled (fileAnalysis : FileAnalysis)
    (profile : SensitivityAnalysis) (s : rng) :
  unitDraws s ->
  exists results rest,
    assessCompliance fileAnalysis profile s = (Return results, rest)
    /\ Forall2
         (fun config entry =>
            fst entry = fst config
            /\ map requirement (requirements (snd entry))
               = frameworkRequirements (snd config)
            /\ length (requirements (snd entry)) = 4%nat
            /\ Forall
                 (fun r =>
                    requirementStatus r ∈ ["MET"; "PARTIAL"]%string
                    /\ 75 <= requirementScore r <= 95)
                 (requirements (snd entry)))
         Engine.complianceFrameworks results.
Proof.
  intros Hs. unfold assessCompliance.
  destruct (mapM_invariant unitDraws
              (fun '(framework, config) =>
                 let score := frameworkScore framework profile in
                 requirements ← assessRequirements framework profile;
                 mret (framework,
                       {| Engine.score := Z.max 60 (Z.min 98 score);
                          status := statusOf score;
                          requirements := requirements |}))
              (fun config entry =>
                 fst entry = fst config
                 /\ map requirement (requirements (snd entry))
                    = frameworkRequirements (snd config)
                 /\ length (requirements (snd entry)) = 4%nat
                 /\ Forall
                      (fun r =>
                         requirementStatus r ∈ ["MET"; "PARTIAL"]%string
                         /\ 75 <= requirementScore r <= 95)
                      (requirements (snd entry)))
              Engine.complianceFrameworks) with (s := s)
    as (results & rest & Hrun & _ & HF); [|exact Hs|by exists results, rest].
  intros [framework config] s0 Hin Hs0.
  destruct (assessRequirements_filled framework config profile s0 Hin Hs0)
    as (reqs & s1 & Hr & Hs1 & Hnames & Hall).
  eexists _, s1. unfold mbind, M_bind. rewrite Hr.
  split; [reflexivity|]. split; [exact Hs1|]. cbn [fst snd requirements].
  split; [reflexivity|]. split; [exact Hnames|]. split; [|exact Hall].
  rewrite <- (length_map requirement), Hnames.
  unfold Engine.complianceFrameworks in Hin.
  repeat (apply elem_of_cons in Hin as [Hin|Hin]; [injection Hin as -> ->; reflexivity|]).
  by apply elem_of_nil in Hin.
Qed.

Lemma requirement_checklists_are_filled_witness :
  exists results rest,
    assessCompliance streetPhoto (sensitivityOf personAndVehicle) zeroDraws
      = (Return results, rest)
    /\ Forall (fun entry => length (requirements (snd entry)) = 4%nat) results.
Proof.
  destruct (requirement_checklists_are_filled streetPhoto
              (sensitivityOf personAndVehicle) zeroDraws zeroDraws_unit)
    as (results & rest & Hrun & HF).
  exists results, rest. split; [exact Hrun|].
  eapply Forall2_Forall_r; [exact HF|]. apply Forall_forall.
  intros config _ entry (_ & _ & Hlen & _). exact Hlen.
Defined.

Lemma Qle_bool_div (k total n : Z) :
  0 < n ->
  Qle_bool (inject_Z k) (inject_Z total / inject_Z n) = (k * n <=? total).
Proof.
  intros Hn.
  assert (0 < inject_Z n)%Q as Hn' by (rewrite <- (Zlt_Qlt 0); exact Hn).
  destruct (Z.leb_spec (k * n) total) as [Hle|Hlt].
  - apply Qle_bool_iff. apply Qle_shift_div_l; [exact Hn'|].
    rewrite <- inject_Z_mult, <- Zle_Qle. exact Hle.
  - apply not_true_iff_false. intros Hq%Qle_bool_iff.
    apply (Qlt_not_le (inject_Z total / inject_Z n) (inject_Z k)); [|exact Hq].
    apply Qlt_shift_div_r; [exact Hn'|].
    rewrite <- inject_Z_mult, <- Zlt_Qlt. exact Hlt.
Qed.

(** The overall status read off the sum of the scores. *)
Lemma getOverallComplianceStatus_sum (cs : list (string * ComplianceResult)) :
  cs <> [] ->
  let n := Z.of_nat (length cs) in
  let total := Spec.total (map (fun c => Engine.score (snd c)) cs) in
  getOverallComplianceStatus cs =
    if 85 * n <=? total then "COMPLIANT"
    else if 70 * n <=? total then "NEEDS_ATTENTION"
    else "NON_COMPLIANT".
Proof.
  intros Hne. cbv zeta. unfold getOverallComplianceStatus.
  assert (0 < Z.of_nat (length cs)) as Hpos by (destruct cs; [congruence|cbn; lia]).
  rewrite div_length_pos by (by destruct cs).
  rewrite (foldl_add_total (fun s => s)), map_id, length_map.
  cbn [geb of_Z]. rewrite !Qle_bool_div by exact Hpos.
  reflexivity.
Qed.

Lemma total_at_cap (hi : Z) (xs : list Z) :
  Forall (fun x => x <= hi) xs ->
  hi * Z.of_nat (length xs) <= Spec.total xs <-> Forall (fun x => x = hi) xs.
Proof.
  induction 1 as [|x xs Hx Hxs IH].
  - split; [constructor|cbn; lia].
  - pose proof (total_le hi xs Hxs) as Hle.
    change (Spec.total (x :: xs)) with (x + Spec.total xs).
    rewrite length_cons, Nat2Z.inj_succ. split.
    + intros Hsum. constructor; [lia|]. apply IH. lia.
    + intros Hall. apply Forall_cons in Hall as [-> Hall]. apply IH in Hall. lia.
Qed.

(** The overall compliance status of an assessment is COMPLIANT exactly
    when every one of its four frameworks is; for no framework at all
    the average is NaN and the status NON_COMPLIANT. *)
Theorem overall_status_compliant_iff_every_framework (fileAnalysis : FileAnalysis)
    (profile : SensitivityAnalysis) (s : rng) :
  (exists results rest,
     assessCompliance fileAnalysis profile s = (Return results, rest)
     /\ (getOverallComplianceStatus results = "COMPLIANT"%string
         <-> Forall (fun entry => Engine.status (snd entry) = "COMPLIANT"%string) results))
  /\ getOverallComplianceStatus [] = "NON_COMPLIANT"%string.
Proof.
  split; [|reflexivity].
  destruct (assessCompliance_returns fileAnalysis profile s) as (cs & rest & Hrun & HF).
  exists cs, rest. split; [exact Hrun|].
  assert (Forall (fun entry =>
            Engine.score (snd entry) <= 85
            /\ (Engine.status (snd entry) = "COMPLIANT"%string
                <-> Engine.score (snd entry) = 85)) cs) as Hall.
  { apply Forall_forall. intros entry Hin.
    destruct (entryOf_in profile cs entry HF Hin) as [Hscore Hstatus].
    destruct (frameworkScore_range (fst entry) profile) as [Hrange _].
    rewrite Hscore, Hstatus. split; [lia|]. unfold statusOf.
    destruct (Z.leb_spec 85 (frameworkScore (fst entry) profile));
      [|destruct (Z.leb_spec 70 (frameworkScore (fst entry) profile))];
      split; intros; try discriminate; try reflexivity; lia. }
  assert (cs <> []) as Hne.
  { intros ->. apply Forall2_nil_inv_r in HF. discriminate. }
  rewrite getOverallComplianceStatus_sum by exact Hne. cbv zeta.
  rewrite <- (length_map (fun c => Engine.score (snd c))).
  pose proof (total_at_cap 85 (map (fun c => Engine.score (snd c)) cs)) as Hcap.
  rewrite !Forall_map in Hcap.
  specialize (Hcap (Forall_impl _ _ _ Hall (fun e H => proj1 H))).
  destruct (Z.leb_spec (85 * Z.of_nat (length (map (fun c => Engine.score (snd c)) cs)))
              (Spec.total (map (fun c => Engine.score (snd c)) cs))) as [Hle|Hlt].
  - split; [intros _|reflexivity].
    apply (proj1 Hcap) in Hle. rewrite Forall_forall in Hall, Hle. apply Forall_forall.
    intros e He. apply Hall; [exact He|]. by apply Hle.
  - split.
    + destruct (_ <=? _); discriminate.
    + intros Hstatus. exfalso.
      assert (Forall (fun e => Engine.score (snd e) = 85) cs) as Hfull.
      { rewrite Forall_forall in Hall, Hstatus. apply Forall_forall.
        intros e He. apply Hall; [exact He|]. by apply Hstatus. }
      apply (proj2 Hcap) in Hfull. lia.
Qed.

(** The compliance summary of an assessment: it counts four frameworks,
    the compliant ones and the listed ones add up to four, and the list
    holds, in the table's order, exactly the frameworks that lost points
    (score below 85), each with its score and status. *)
Theorem compliance_summary_lists_frameworks_below_base (fileAnalysis : FileAnalysis)
    (profile : SensitivityAnalysis) (s : rng) :
  exists results rest,
    assessCompliance fileAnalysis profile s = (Return results, rest)
    /\ let summary := explainComplianceStatus results in
       totalFrameworks summary = 4
       /\ compliantCount summary + Z.of_nat (length (needsAttention summary)) = 4
       /\ 0 <= compliantCount summary
       /\ needsAttention summary
          = map (fun e => (fst e, Engine.score (snd e), Engine.status (snd e)))
              (List.filter (fun e => Engine.score (snd e) <? 85) results).
Proof.
  destruct (assessCompliance_returns fileAnalysis profile s) as (cs & rest & Hrun & HF).
  exists cs, rest. split; [exact Hrun|]. cbv zeta.
  assert (length cs = 4%nat) as Hlen.
  { rewrite <- (length_map fst), (assessCompliance_frameworks profile cs HF). reflexivity. }
  unfold explainComplianceStatus. cbn [totalFrameworks compliantCount needsAttention].
  rewrite Hlen.
  assert (List.filter (fun e => negb (String.eqb (Engine.status (snd e)) "COMPLIANT")) cs
          = List.filter (fun e => Engine.score (snd e) <? 85) cs) as ->.
  { apply filter_ext_in. intros e He%list_elem_of_In.
    destruct (entryOf_in profile cs e HF He) as [Hscore Hstatus].
    destruct (frameworkScore_range (fst e) profile) as [Hrange _].
    rewrite Hscore, Hstatus. unfold statusOf.
    destruct (Z.leb_spec 85 (frameworkScore (fst e) profile));
      [|destruct (Z.leb_spec 70 (frameworkScore (fst e) profile))]; cbn;
      symmetry; [apply Z.ltb_ge|apply Z.ltb_lt..]; lia. }
  split; [reflexivity|]. rewrite length_map.
  pose proof (filter_length (fun e => Engine.score (snd e) <? 85) cs) as Hf.
  rewrite Hlen in Hf. repeat split; lia.
Qed.

Lemma tierPass_length (level : string) :
  (1 <= length (Spec.tierPass level) <= 2)%nat.
Proof.
  rewrite tierPass_cases.
  destruct (_ || _); [cbn; lia|].
  destruct (String.eqb level "CONFIDENTIAL"); [cbn; lia|].
  destruct (String.eqb level "INTERNAL"); cbn; lia.
Qed.

Lemma kindPass_length (kind : option string) (piiCount : nat) :
  (length (Spec.kindPass kind piiCount) <= 1)%nat.
Proof.
  unfold Spec.kindPass. destruct kind as [k|]; [|cbn; lia].
  destruct (String.eqb k "csv"); [destruct (3 <? piiCount)%nat; cbn; lia|].
  destruct (String.eqb k "image"); [cbn; lia|].
  destruct (String.eqb k "document"); cbn; lia.
Qed.

(** The recommender pushes one or two entries for the sensitivity level
    and at most one for the kind of file, so its list has between one
    and three entries and [slice(0, 4)] never removes any. *)
Theorem recommendation_cap_never_cuts (fileAnalysis : FileAnalysis)
    (profile : SensitivityAnalysis) :
  (1 <= length (recommendPrivacyTechniques fileAnalysis profile) <= 3)%nat
  /\ recommendPrivacyTechniques fileAnalysis profile
     = Spec.tierPass (sensitivityLevel profile)
       ++ Spec.kindPass (fileType fileAnalysis) (length (Engine.piiFields profile)).
Proof.
  rewrite recommendPrivacyTechniques_passes.
  pose proof (tierPass_length (sensitivityLevel profile)) as Ht.
  pose proof (kindPass_length (fileType fileAnalysis) (length (Engine.piiFields profile))) as Hk.
  rewrite take_ge by (rewrite length_app; lia).
  rewrite length_app. split; [lia|reflexivity].
Qed.

(** With the compliance results and the recommendations unchanged, a
    higher sensitivity score never gives a higher overall score, and
    from 100 on it gives the same one. *)
Theorem overall_score_falls_as_sensitivity_rises (low high : Scored) :
  Engine.complianceScores low = Engine.complianceScores high ->
  Engine.recommendedTechniques low = Engine.recommendedTechniques high ->
  Engine.complianceScores low <> [] ->
  Engine.recommendedTechniques low <> [] ->
  sensitivityAnalysisScore (Engine.sensitivityAnalysis low)
    <= sensitivityAnalysisScore (Engine.sensitivityAnalysis high) ->
  exists atLow atHigh,
    calculateOverallScore low = of_Z atLow
    /\ calculateOverallScore high = of_Z atHigh
    /\ atHigh <= atLow
    /\ (100 <= sensitivityAnalysisScore (Engine.sensitivityAnalysis low) -> atHigh = atLow).
Proof.
  intros Hc Hr Hcne Hrne Hle.
  rewrite (calculateOverallScore_defined low) by assumption.
  rewrite (calculateOverallScore_defined high) by congruence.
  rewrite <- Hc, <- Hr.
  eexists _, _. split; [reflexivity|]. split; [reflexivity|]. split.
  - apply round_half_up_mono.
    apply Qplus_le_compat; [|apply Qle_refl].
    apply Qplus_le_compat; [apply Qle_refl|].
    apply Qmult_le_l; [reflexivity|].
    rewrite <- Zle_Qle. lia.
  - intros Hcap. do 2 f_equal.
    rewrite !Z.max_l by lia. reflexivity.
Qed.

Lemma overall_score_falls_as_sensitivity_rises_witness :
  exists atLow atHigh,
    calculateOverallScore maskedMetrics = of_Z atLow
    /\ calculateOverallScore
         (mkScored fourCompliant (mkSensitivityAnalysis [] [] "PUBLIC" 29)
            [Spec.dataMasking]) = of_Z atHigh
    /\ atHigh <= atLow
    /\ (100 <= sensitivityAnalysisScore (Engine.sensitivityAnalysis maskedMetrics)
        -> atHigh = atLow).
Proof.
  apply (overall_score_falls_as_sensitivity_rises maskedMetrics
           (mkScored fourCompliant (mkSensitivityAnalysis [] [] "PUBLIC" 29)
              [Spec.dataMasking])).
  - reflexivity.
  - reflexivity.
  - discriminate.
  - discriminate.
  - vm_compute. discriminate.
Defined.

(** Every risk level [determineRiskLevel] can return has an entry in the
    table of [explainRiskLevel], and the explanation of the score uses
    the same three thresholds: each risk level goes with one score
    explanation, for every number and for NaN, which is CRITICAL. *)
Theorem risk_level_and_score_explanation_agree (overallScore : number) :
  (exists text, explainRiskLevel (determineRiskLevel overallScore) = Some text)
  /\ (determineRiskLevel overallScore, explainOverallScore overallScore)
     ∈ [ ("LOW", "Excellent privacy protection with comprehensive safeguards");
         ("MEDIUM", "Good privacy protection with room for improvement");
         ("HIGH", "Moderate privacy protection, consider additional measures");
         ("CRITICAL", "Privacy protection needs significant enhancement") ]%string
  /\ determineRiskLevel NaN = "CRITICAL"%string.
Proof.
  unfold determineRiskLevel, explainOverallScore.
  split; [|split; [|reflexivity]].
  - destruct (geb overallScore (of_Z 85)); [by eexists|].
    destruct (geb overallScore (of_Z 70)); [by eexists|].
    destruct (geb overallScore (of_Z 55)); by eexists.
  - destruct (geb overallScore (of_Z 85)); [by left|].
    destruct (geb overallScore (of_Z 70)); [right; by left|].
    destruct (geb overallScore (of_Z 55)); [right; right; by left|].
    right; right; right; by left.
Qed.

Lemma recommendPrivacyTechniques_uncut (fileAnalysis : FileAnalysis)
    (profile : SensitivityAnalysis) :
  recommendPrivacyTechniques fileAnalysis profile
  = Spec.tierPass (sensitivityLevel profile)
    ++ Spec.kindPass (fileType fileAnalysis) (length (Engine.piiFields profile)).
Proof.
  rewrite recommendPrivacyTechniques_passes.
  pose proof (tierPass_length (sensitivityLevel profile)) as Ht.
  pose proof (kindPass_length (fileType fileAnalysis) (length (Engine.piiFields profile))) as Hk.
  apply take_ge. rewrite length_app. lia.
Qed.

Lemma weighted_terms_le (sv tm : Q) (cap : Z) :
  (sv <= inject_Z cap)%Q ->
  Qle_bool ((3 # 10) * inject_Z cap + (3 # 10) * tm) (492 # 10) = true ->
  ((3 # 10) * sv + (3 # 10) * tm <= 492 # 10)%Q.
Proof.
  intros Hsv Hcap%Qle_bool_iff.
  eapply Qle_trans; [|exact Hcap].
  apply Qplus_le_compat; [|apply Qle_refl].
  apply Qmult_le_l; [reflexivity|exact Hsv].
Qed.

(** What the sensitivity score and the recommendations that go with its
    level can add to the overall score: at most 49.2 points, reached by
    a PUBLIC image. *)
Lemma sensitivity_and_technique_terms (sensitivityScore : Z) (kind : option string)
    (piiCount : nat) :
  10 <= sensitivityScore ->
  ((3 # 10) * inject_Z (Z.max 0 (100 - sensitivityScore))
   + (3 # 10) * Spec.mean
       (map (fun r => effectivenessScore (technique r))
          (Spec.tierPass (getSensitivityLevel sensitivityScore)
           ++ Spec.kindPass kind piiCount)) <= 492 # 10)%Q.
Proof.
  intros Hlow. unfold getSensitivityLevel.
  assert (forall cap, 100 - cap <= sensitivityScore -> 0 <= cap ->
            (inject_Z (Z.max 0 (100 - sensitivityScore)) <= inject_Z cap)%Q) as Hsv.
  { intros cap H1 H2. rewrite <- Zle_Qle. lia. }
  destruct (Z.leb_spec 85 sensitivityScore);
    [|destruct (Z.leb_spec 70 sensitivityScore);
      [|destruct (Z.leb_spec 50 sensitivityScore);
        [|destruct (Z.leb_spec 30 sensitivityScore)]]];
    unfold Spec.kindPass;
    (destruct kind as [k|];
       [destruct (String.eqb k "csv");
          [destruct (3 <? piiCount)%nat
          |destruct (String.eqb k "image"); [|destruct (String.eqb k "document")]]|]).
  all: first
    [ apply (weighted_terms_le _ _ 15); [apply Hsv; lia|vm_compute; reflexivity]
    | apply (weighted_terms_le _ _ 30); [apply Hsv; lia|vm_compute; reflexivity]
    | apply (weighted_terms_le _ _ 50); [apply Hsv; lia|vm_compute; reflexivity]
    | apply (weighted_terms_le _ _ 70); [apply Hsv; lia|vm_compute; reflexivity]
    | apply (weighted_terms_le _ _ 90); [apply Hsv; lia|vm_compute; reflexivity] ].
Qed.

Lemma effectivenessScore_range (t : Technique) : 60 <= effectivenessScore t <= 98.
Proof. destruct t; cbn; lia. Qed.

Lemma measure_cases (fileAnalysis : FileAnalysis) (s : rng) :
  unitDraws s ->
  (exists findings results rest,
     measure fileAnalysis s
       = (Return (mkScored results (sensitivityOf findings)
                    (recommendPrivacyTechniques fileAnalysis (sensitivityOf findings))),
          rest)
     /\ 10 <= calculateSensitivityScore findings <= 100
     /\ results <> []
     /\ Forall (fun entry => 60 <= Engine.score (snd entry) <= 85) results)
  \/ (is_label (fileType fileAnalysis) "image" = true
      /\ Exists (fun obj => objType obj = None) (objectsOf fileAnalysis)
      /\ measure fileAnalysis s
         = (Throw "Cannot read properties of undefined (reading 'toLowerCase')", s)).
Proof.
  intros Hs. unfold measure, mbind, M_bind.
  destruct (analyzeSensitivity_cases fileAnalysis s Hs)
    as [(findings & s1 & Hrun & _ & _ & Hscore)|(Himg & Hex & Hrun)]; rewrite Hrun.
  - left.
    destruct (assessCompliance_returns fileAnalysis (sensitivityOf findings) s1)
      as (cs & s2 & Hcs & HF).
    rewrite Hcs. exists findings, cs, s2. split; [reflexivity|].
    split; [exact Hscore|]. split.
    + intros ->. apply Forall2_nil_inv_r in HF. discriminate.
    + apply Forall_forall. intros entry Hin.
      destruct (entryOf_in _ cs entry HF Hin) as [-> _].
      destruct (frameworkScore_range (fst entry) (sensitivityOf findings)) as [Hr _]. lia.
  - right. by repeat split.
Qed.

Lemma measured_score_range (fileAnalysis : FileAnalysis) (findings : list Finding)
    (results : list (string * ComplianceResult)) :
  10 <= calculateSensitivityScore findings <= 100 ->
  results <> [] ->
  Forall (fun entry => 60 <= Engine.score (snd entry) <= 85) results ->
  exists n,
    calculateOverallScore
      (mkScored results (sensitivityOf findings)
         (recommendPrivacyTechniques fileAnalysis (sensitivityOf findings))) = of_Z n
    /\ 42 <= n <= 83.
Proof.
  intros Hscore Hne Hall.
  rewrite calculateOverallScore_defined;
    [|exact Hne|apply recommendPrivacyTechniques_nonempty].
  eexists. split; [reflexivity|].
  cbn [Engine.complianceScores Engine.sensitivityAnalysis Engine.recommendedTechniques].
  set (cm := Spec.mean (map (fun c => Engine.score (snd c)) results)).
  set (recs := recommendPrivacyTechniques fileAnalysis (sensitivityOf findings)).
  set (tm := Spec.mean (map (fun r => effectivenessScore (technique r)) recs)).
  set (sv := inject_Z (Z.max 0 (100 - sensitivityAnalysisScore (sensitivityOf findings)))).
  assert (inject_Z 60 <= cm /\ cm <= inject_Z 85)%Q as [Hcm1 Hcm2].
  { assert (map (fun c => Engine.score (snd c)) results <> []) as Hne' by (by destruct results).
    split; [apply mean_ge|apply mean_le]; try exact Hne'.
    all: rewrite Forall_map; rewrite Forall_forall in Hall; apply Forall_forall.
    all: intros e He; apply Hall in He; cbn in *; lia. }
  assert (inject_Z 60 <= tm)%Q as Htm.
  { apply mean_ge.
    - pose proof (recommendPrivacyTechniques_nonempty fileAnalysis (sensitivityOf findings)).
      intros Hnil. apply map_eq_nil in Hnil. exact (H Hnil).
    - rewrite Forall_map. apply Forall_forall. intros r _. cbn.
      pose proof (effectivenessScore_range (technique r)). lia. }
  assert (0 <= sv)%Q as Hsv.
  { change 0%Q with (inject_Z 0). subst sv. rewrite <- Zle_Qle. lia. }
  assert ((3 # 10) * sv + (3 # 10) * tm <= 492 # 10)%Q as Hterms.
  { subst sv tm recs. rewrite recommendPrivacyTechniques_uncut.
    apply sensitivity_and_technique_terms. exact (proj1 Hscore). }
  split.
  - apply (Z.le_trans _ (round_half_up
                           ((4 # 10) * inject_Z 60 + (3 # 10) * 0 + (3 # 10) * inject_Z 60)));
      [vm_compute; discriminate|].
    apply round_half_up_mono.
    repeat apply Qplus_le_compat; (apply Qmult_le_l; [reflexivity|assumption]).
  - apply (Z.le_trans _ (round_half_up ((4 # 10) * inject_Z 85 + (492 # 10))));
      [|vm_compute; discriminate].
    apply round_half_up_mono.
    rewrite <- Qplus_assoc.
    apply Qplus_le_compat; [|exact Hterms].
    apply Qmult_le_l; [reflexivity|exact Hcm2].
Qed.

(** An overall score the assessment computes from its own steps 1 to 3
    lies between 42 and 83: it is below the 85 that LOW risk needs, so
    the risk level of such a score is MEDIUM, HIGH or CRITICAL.  The
    only way not to get a score is the image with an object without
    type. *)
Theorem measured_score_is_never_low_risk (fileAnalysis : FileAnalysis) (s : rng) :
  unitDraws s ->
  (exists metrics rest n,
     measure fileAnalysis s = (Return metrics, rest)
     /\ calculateOverallScore metrics = of_Z n
     /\ 42 <= n <= 83
     /\ determineRiskLevel (calculateOverallScore metrics)
        ∈ ["MEDIUM"; "HIGH"; "CRITICAL"]%string)
  \/ (is_label (fileType fileAnalysis) "image" = true
      /\ Exists (fun obj => objType obj = None) (objectsOf fileAnalysis)
      /\ exists message, measure fileAnalysis s = (Throw message, s)).
Proof.
  intros Hs.
  destruct (measure_cases fileAnalysis s Hs)
    as [(findings & results & rest & Hrun & Hscore & Hne & Hall)|(Himg & Hex & Hrun)].
  - left.
    destruct (measured_score_range fileAnalysis findings results Hscore Hne Hall)
      as (n & Hn & Hrange).
    eexists _, rest, n. split; [exact Hrun|]. split; [exact Hn|]. split; [exact Hrange|].
    rewrite Hn. unfold determineRiskLevel. cbn [geb of_Z].
    assert (forall k, Qle_bool (inject_Z k) (inject_Z n) = (k <=? n)) as Hcmp.
    { intros k. destruct (Z.leb_spec k n) as [H|H].
      - apply Qle_bool_iff. by rewrite <- Zle_Qle.
      - apply not_true_iff_false. intros Hq%Qle_bool_iff. rewrite <- Zle_Qle in Hq. lia. }
    rewrite !Hcmp.
    destruct (Z.leb_spec 85 n); [lia|].
    destruct (Z.leb_spec 70 n); [by left|].
    destruct (Z.leb_spec 55 n); [right; by left|right; right; by left].
  - right. split; [exact Himg|]. split; [exact Hex|]. eexists. exact Hrun.
Qed.

Lemma measured_score_is_never_low_risk_witness :
  (exists metrics rest n,
     measure streetPhoto zeroDraws = (Return metrics, rest)
     /\ calculateOverallScore metrics = of_Z n
     /\ 42 <= n <= 83
     /\ determineRiskLevel (calculateOverallScore metrics)
        ∈ ["MEDIUM"; "HIGH"; "CRITICAL"]%string)
  \/ (is_label (fileType streetPhoto) "image" = true
      /\ Exists (fun obj => objType obj = None) (objectsOf streetPhoto)
      /\ exists message, measure streetPhoto zeroDraws = (Throw message, zeroDraws)).
Proof.
  apply (measured_score_is_never_low_risk streetPhoto zeroDraws).
  intros k. split; [discriminate|reflexivity].
Defined.

Lemma floor_95_percent (detected : Z) :
  0 <= detected ->
  0 <= Qfloor (inject_Z detected * (95 # 100)) <= detected
  /\ (0 < detected -> Qfloor (inject_Z detected * (95 # 100)) < detected).
Proof.
  intros Hd.
  assert (0 <= inject_Z detected)%Q as Hq by (change 0%Q with (inject_Z 0); by rewrite <- Zle_Qle).
  pose proof (Qfloor_le (inject_Z detected * (95 # 100))) as Hfloor.
  assert (inject_Z detected * (95 # 100) <= inject_Z detected)%Q as Hle.
  { rewrite <- (Qmult_1_r (inject_Z detected)) at 2.
    rewrite !(Qmult_comm (inject_Z detected)).
    apply Qmult_le_compat_r; [discriminate|exact Hq]. }
  split; [split|].
  - change 0 with (Qfloor 0). apply Qfloor_resp_le.
    apply Qmult_le_0_compat; [exact Hq|discriminate].
  - rewrite Zle_Qle. eapply Qle_trans; [exact Hfloor|exact Hle].
  - intros Hpos. rewrite Zlt_Qlt. eapply Qle_lt_trans; [exact Hfloor|].
    rewrite <- (Qmult_1_r (inject_Z detected)) at 2.
    rewrite !(Qmult_comm (inject_Z detected)).
    apply Qmult_lt_compat_r; [|reflexivity].
    change 0%Q with (inject_Z 0). by rewrite <- Zlt_Qlt.
Qed.

(** The dashboard figures, for draws in [0, 1): two draws are used; the
    protected PII fields are 95% of the detected ones rounded down, so
    never more than detected and, when any was detected, fewer; the
    encryption strength is drawn from 384 to 512 when homomorphic
    encryption or secure multi-party computation is recommended and
    from 256 to 384 otherwise; the anonymization level is between 70
    and 98 and the audit score between 85 and 97. *)
Theorem dashboard_figures_are_bounded (fileAnalysis : FileAnalysis) (metrics : Scored)
    (overallScore : number) (risk : string) (s : rng) :
  unitDraws s ->
  exists figures,
    generateRealTimeMetrics fileAnalysis metrics overallScore risk s
      = (Return figures, fun k => s (S (S k)))
    /\ piiFieldsDetected figures
       = Z.of_nat (length (Engine.piiFields (Engine.sensitivityAnalysis metrics)))
    /\ 0 <= piiFieldsProtected figures <= piiFieldsDetected figures
    /\ (0 < piiFieldsDetected figures ->
        piiFieldsProtected figures < piiFieldsDetected figures)
    /\ (Exists (fun tech => technique tech ∈ [HOMOMORPHIC_ENCRYPTION; SECURE_MULTIPARTY])
          (Engine.recommendedTechniques metrics) ->
        384 <= Engine.encryptionStrength figures <= 512)
    /\ (~ Exists (fun tech => technique tech ∈ [HOMOMORPHIC_ENCRYPTION; SECURE_MULTIPARTY])
            (Engine.recommendedTechniques metrics) ->
        256 <= Engine.encryptionStrength figures <= 384)
    /\ 70 <= Engine.anonymizationLevel figures <= 98
    /\ 85 <= auditScore figures <= 97.
Proof.
  intros Hs.
  pose proof (unitDraws_tail s Hs) as Hs1.
  unfold generateRealTimeMetrics, calculateEncryptionStrength, calculateAuditScore.
  cbv zeta. unfold mbind, M_bind.
  set (high := existsb _ _).
  assert (exists strength,
            (if high then getRandomNumber 384 512 else getRandomNumber 256 384) s
              = (Return strength, fun k => s (S k))
            /\ (if high then 384 <= strength <= 512 else 256 <= strength <= 384))
    as (strength & -> & Hstrength).
  { destruct (Hs 0%nat) as [H0 H1].
    destruct high; apply getRandomNumber_range; (lia || assumption). }
  destruct (Hs1 0%nat) as [H0 H1].
  destruct (getRandomNumber_range 85 97 (fun k => s (S k)) ltac:(lia) H0 H1)
    as (audit & -> & Haudit).
  eexists. split; [reflexivity|].
  cbn [piiFieldsDetected piiFieldsProtected Engine.encryptionStrength
       Engine.anonymizationLevel auditScore].
  pose proof (floor_95_percent
                (Z.of_nat (length (Engine.piiFields (Engine.sensitivityAnalysis metrics))))
                ltac:(lia)) as [Hfloor Hless].
  assert (Is_true high <->
          Exists (fun tech => technique tech ∈ [HOMOMORPHIC_ENCRYPTION; SECURE_MULTIPARTY])
            (Engine.recommendedTechniques metrics)) as Hhigh.
  { subst high. rewrite Is_true_true, existsb_exists, Exists_exists.
    split; intros (tech & Hin & Htech); exists tech.
    - split; [by apply list_elem_of_In|by apply bool_decide_eq_true in Htech].
    - split; [by apply list_elem_of_In|by apply bool_decide_eq_true]. }
  split; [reflexivity|]. split; [exact Hfloor|]. split; [exact Hless|].
  split; [|split; [|split; [|exact Haudit]]].
  - intros Hex%Hhigh. destruct high; [exact Hstrength|contradiction].
  - intros Hnone. destruct high; [|exact Hstrength].
    exfalso. apply Hnone, Hhigh. exact I.
  - unfold calculateAnonymizationLevel. cbv zeta. lia.
Qed.

Lemma dashboard_figures_are_bounded_witness :
  exists figures,
    generateRealTimeMetrics streetPhoto maskedMetrics (of_Z 83) "MEDIUM" zeroDraws
      = (Return figures, fun k => zeroDraws (S (S k)))
    /\ piiFieldsDetected figures
       = Z.of_nat (length (Engine.piiFields (Engine.sensitivityAnalysis maskedMetrics)))
    /\ 0 <= piiFieldsProtected figures <= piiFieldsDetected figures
    /\ (0 < piiFieldsDetected figures ->
        piiFieldsProtected figures < piiFieldsDetected figures)
    /\ (Exists (fun tech => technique tech ∈ [HOMOMORPHIC_ENCRYPTION; SECURE_MULTIPARTY])
          (Engine.recommendedTechniques maskedMetrics) ->
        384 <= Engine.encryptionStrength figures <= 512)
    /\ (~ Exists (fun tech => technique tech ∈ [HOMOMORPHIC_ENCRYPTION; SECURE_MULTIPARTY])
            (Engine.recommendedTechniques maskedMetrics) ->
        256 <= Engine.encryptionStrength figures <= 384)
    /\ 70 <= Engine.anonymizationLevel figures <= 98
    /\ 85 <= auditScore figures <= 97.
Proof.
  apply (dashboard_figures_are_bounded streetPhoto maskedMetrics (of_Z 83) "MEDIUM" zeroDraws).
  intros k. split; [discriminate|reflexivity].
Defined.

(** As the class stands, step 6 of [assessPrivacy] calls a method the
    class does not define.  So every call ends in the [catch] branch
    and resolves to the default metrics: when steps 1 to 3 complete,
    with the TypeError of step 6 as the error and their draws used;
    when one of them throws, with that error; and for a missing
    argument with the error of reading its [fileType]. *)
Theorem assessment_always_falls_back_to_defaults (fileAnalysis : option FileAnalysis)
    (draws : rng) :
  exists message rest,
    assessPrivacy unit absentMethod fileAnalysis draws
      = (Return (Degraded (getDefaultMetrics message)), rest)
    /\ match fileAnalysis with
       | None =>
           message = "Cannot read properties of undefined (reading 'fileType')"%string
           /\ rest = draws
       | Some file =>
           match measure file draws with
           | (Return _, after) =>
               message = "this.generatePrivacyBreakdown is not a function"%string
               /\ rest = after
           | (Throw thrown, after) => message = thrown /\ rest = after
           end
       end.
Proof.
  unfold assessPrivacy, try_catch, assessPrivacyBody.
  destruct fileAnalysis as [file|]; [|eexists _, _; by repeat split].
  unfold mbind, M_bind.
  destruct (measure file draws) as [[metrics|thrown] after];
    eexists _, _; by repeat split.
Qed.

(** *** The session roll-up *)

(** The loop over [results] either visits every entry or stops at the
    first one without [analysis]. *)
Lemma forEach_visit_cases (results : list Result) (tally : Tally) :
  (Forall (fun r => analysis r <> None) results
   /\ forEach visit tally results
      = Return (foldl collect tally (omap analysis results)))
  \/ (Exists (fun r => analysis r = None) results
      /\ forEach visit tally results
         = Throw "Cannot read properties of undefined (reading 'recommendedTechniques')").
Proof.
  revert tally. induction results as [|r results IH]; intros tally.
  - left. split; [constructor|reflexivity].
  - cbn [forEach omap list_omap].
    destruct (analysis r) as [a|] eqn:Ha.
    + assert (visit tally r = Return (collect tally a)) as ->
        by (unfold visit; by rewrite Ha).
      destruct (IH (collect tally a)) as [[Hall Hrun]|[Hex Hrun]].
      * left. split; [constructor; [congruence|exact Hall]|exact Hrun].
      * right. split; [by apply Exists_cons_tl|exact Hrun].
    + right. split; [by apply Exists_cons_hd|].
      unfold visit. by rewrite Ha.
Qed.

Lemma calculateAggregatedMetrics_returns (results : list Result) (summary : Summary) :
  calculateAggregatedMetrics results = Return summary ->
  let tally := foldl collect emptyTally (omap analysis results) in
  Forall (fun r => analysis r <> None) results
  /\ privacyTechniques summary = allTechniques tally
  /\ totalPIIFields summary = Z.of_nat (length (allPIIFields tally))
  /\ uniquePIITypes summary
     = Z.of_nat (size (list_to_set (map type (allPIIFields tally)) : gset string))
  /\ riskDistribution summary = riskCounts tally
  /\ avgComplianceScores summary
     = (fun data : Z * Z => round (div (of_Z (fst data)) (of_Z (snd data))))
         <$> Panel.complianceFrameworks tally
  /\ avgPrivacyScore summary
     = roundedMean (fun r => a ← analysis r; Panel.privacyScore a) 0 results
  /\ overallRisk summary
     = (if geb (avgPrivacyScore summary) (of_Z 85) then "LOW"
        else if geb (avgPrivacyScore summary) (of_Z 70) then "MEDIUM"
        else "HIGH")%string.
Proof.
  unfold calculateAggregatedMetrics. cbv zeta.
  destruct (forEach_visit_cases results emptyTally) as [[Hall ->]|[_ ->]];
    [|discriminate].
  intros [= <-]. by repeat split.
Qed.

Lemma summary_throws_iff_result_without_analysis_cases (results : list Result) :
  (Forall (fun r => analysis r <> None) results
   /\ exists summary,
        calculateAggregatedMetrics results = Return summary
        /\ totalFiles summary = Z.of_nat (length results))
  \/ (Exists (fun r => analysis r = None) results
      /\ calculateAggregatedMetrics results
         = Throw "Cannot read properties of undefined (reading 'recommendedTechniques')").
Proof.
  unfold calculateAggregatedMetrics. cbv zeta.
  destruct (forEach_visit_cases results emptyTally) as [[Hall ->]|[Hex ->]].
  - left. split; [exact Hall|]. eexists. split; reflexivity.
  - right. split; [exact Hex|reflexivity].
Qed.

(** [calculateAggregatedMetrics] throws exactly when some entry of
    [results] has no [analysis]: the averages before the loop read it
    with [?.], the loop does not.  Otherwise it returns a summary that
    counts every entry. *)
Theorem summary_throws_iff_result_without_analysis (results : list Result) :
  (Forall (fun r => analysis r <> None) results
   /\ exists summary,
        calculateAggregatedMetrics results = Return summary
        /\ totalFiles summary = Z.of_nat (length results))
  \/ (Exists (fun r => analysis r = None) results
      /\ calculateAggregatedMetrics results
         = Throw "Cannot read properties of undefined (reading 'recommendedTechniques')").
Proof. exact (summary_throws_iff_result_without_analysis_cases results). Qed.

Lemma setAdd_fold (techs : list Recommendation) (set : list Technique) :
  NoDup set ->
  NoDup (foldl (fun set tech => setAdd set (technique tech)) set techs)
  /\ forall x,
       x ∈ foldl (fun set tech => setAdd set (technique tech)) set techs
       <-> x ∈ set \/ exists rec, rec ∈ techs /\ technique rec = x.
Proof.
  revert set. induction techs as [|tech techs IH]; intros set Hset.
  - split; [exact Hset|]. intros x. split; [by left|].
    intros [Hx|(rec & Hrec & _)]; [exact Hx|]. by apply elem_of_nil in Hrec.
  - cbn [foldl].
    assert (NoDup (setAdd set (technique tech))
            /\ forall x, x ∈ setAdd set (technique tech)
                         <-> x ∈ set \/ x = technique tech) as [Hnodup Hmem].
    { unfold setAdd. destruct (bool_decide_reflect (technique tech ∈ set)) as [Hin|Hout].
      - split; [exact Hset|]. intros x. split; [by left|]. by intros [Hx| ->].
      - split.
        + apply NoDup_app. split; [exact Hset|]. split; [|apply NoDup_singleton].
          intros y Hy ->%list_elem_of_singleton. contradiction.
        + intros x. rewrite elem_of_app, list_elem_of_singleton. reflexivity. }
    destruct (IH _ Hnodup) as [Hnd Hiff]. split; [exact Hnd|].
    intros x. rewrite Hiff, Hmem. split.
    + intros [[Hx| ->]|(rec & Hrec & Hx)].
      * by left.
      * right. exists tech. split; [by left|reflexivity].
      * right. exists rec. split; [by right|exact Hx].
    + intros [Hx|(rec & Hrec & Hx)]; [left; by left|].
      apply elem_of_cons in Hrec as [-> | Hrec].
      * left. right. by symmetry.
      * right. by exists rec.
Qed.

Lemma techniques_collected (analyses : list Analysis) (tally : Tally) :
  NoDup (allTechniques tally) ->
  NoDup (allTechniques (foldl collect tally analyses))
  /\ forall x,
       x ∈ allTechniques (foldl collect tally analyses)
       <-> x ∈ allTechniques tally
           \/ exists a techs rec,
                a ∈ analyses /\ Panel.recommendedTechniques a = Some techs
                /\ rec ∈ techs /\ technique rec = x.
Proof.
  revert tally. induction analyses as [|a analyses IH]; intros tally Hnd.
  - split; [exact Hnd|]. intros x. split; [by left|].
    intros [Hx|(a & techs & rec & Ha & _)]; [exact Hx|]. by apply elem_of_nil in Ha.
  - cbn [foldl].
    assert (NoDup (allTechniques (collect tally a))
            /\ forall x, x ∈ allTechniques (collect tally a)
                 <-> x ∈ allTechniques tally
                     \/ exists techs rec,
                          Panel.recommendedTechniques a = Some techs
                          /\ rec ∈ techs /\ technique rec = x) as [Hnd' Hmem].
    { unfold collect; cbn [allTechniques].
      destruct (Panel.recommendedTechniques a) as [techs|].
      - destruct (setAdd_fold techs _ Hnd) as [H1 H2]. split; [exact H1|].
        intros x. rewrite H2. split.
        + intros [Hx|(rec & Hrec & Hx)]; [by left|]. right. by exists techs, rec.
        + intros [Hx|(techs' & rec & [= <-] & Hrec & Hx)]; [by left|]. right. by exists rec.
      - split; [exact Hnd|]. intros x. split; [by left|].
        by intros [Hx|(techs & rec & [=] & _)]. }
    destruct (IH _ Hnd') as [H1 H2]. split; [exact H1|].
    intros x. rewrite H2, Hmem. split.
    + intros [[Hx|(techs & rec & Ht & Hrec & Hx)]|(a' & techs & rec & Ha' & Ht & Hrec & Hx)].
      * by left.
      * right. exists a, techs, rec. split; [by left|by repeat split].
      * right. exists a', techs, rec. split; [by right|by repeat split].
    + intros [Hx|(a' & techs & rec & Ha' & Ht & Hrec & Hx)]; [left; by left|].
      apply elem_of_cons in Ha' as [-> | Ha'].
      * left. right. by exists techs, rec.
      * right. by exists a', techs, rec.
Qed.

(** The technique array of a summary holds no technique twice and holds
    exactly the techniques recommended for some file of the session. *)
Theorem summary_techniques_are_the_recommended_set (results : list Result)
    (summary : Summary) :
  calculateAggregatedMetrics results = Return summary ->
  NoDup (privacyTechniques summary)
  /\ forall x,
       x ∈ privacyTechniques summary
       <-> exists r a techs rec,
             r ∈ results /\ analysis r = Some a
             /\ Panel.recommendedTechniques a = Some techs
             /\ rec ∈ techs /\ technique rec = x.
Proof.
  intros Hrun.
  destruct (calculateAggregatedMetrics_returns results summary Hrun)
    as (_ & -> & _).
  destruct (techniques_collected (omap analysis results) emptyTally) as [Hnd Hmem];
    [apply NoDup_nil_2|].
  split; [exact Hnd|]. intros x. rewrite Hmem. split.
  - intros [Hx|(a & techs & rec & Ha & Ht & Hrec & Hx)];
      [by apply elem_of_nil in Hx|].
    apply list_elem_of_omap in Ha as (r & Hr & Har).
    by exists r, a, techs, rec.
  - intros (r & a & techs & rec & Hr & Har & Ht & Hrec & Hx).
    right. exists a, techs, rec. split; [|by repeat split].
    apply list_elem_of_omap. by exists r.
Qed.

Lemma summary_techniques_are_the_recommended_set_witness :
  exists summary,
    calculateAggregatedMetrics [imageResult; tableResult] = Return summary
    /\ NoDup (privacyTechniques summary)
    /\ forall x,
         x ∈ privacyTechniques summary
         <-> exists r a techs rec,
               r ∈ [imageResult; tableResult] /\ analysis r = Some a
               /\ Panel.recommendedTechniques a = Some techs
               /\ rec ∈ techs /\ technique rec = x.
Proof.
  eexists. split; [reflexivity|].
  apply (summary_techniques_are_the_recommended_set [imageResult; tableResult]).
  reflexivity.
Defined.

Lemma pii_collected (analyses : list Analysis) (tally : Tally) :
  allPIIFields (foldl collect tally analyses)
  = allPIIFields tally
    ++ concat (map (fun a => default [] (s ← Panel.sensitivityAnalysis a; Panel.piiFields s))
                 analyses).
Proof.
  revert tally. induction analyses as [|a analyses IH]; intros tally.
  - cbn. by rewrite app_nil_r.
  - cbn [foldl map concat]. rewrite IH, app_assoc. f_equal.
    unfold collect; cbn [allPIIFields].
    destruct (Panel.sensitivityAnalysis a) as [[[fields|]]|]; cbn;
      by rewrite ?app_nil_r.
Qed.

Lemma concat_omap_analysis {B : Type} (f : Analysis -> list B) (results : list Result) :
  concat (map f (omap analysis results))
  = concat (map (fun r => default [] (f <$> analysis r)) results).
Proof.
  induction results as [|r results IH]; [reflexivity|].
  cbn [omap list_omap map concat]. destruct (analysis r) as [a|]; cbn; by rewrite IH.
Qed.

Lemma size_list_to_set_le (l : list string) :
  (size (list_to_set l : gset string) <= length l)%nat.
Proof.
  induction l as [|x l IH]; [by rewrite list_to_set_nil, size_empty|].
  cbn [list_to_set length]. rewrite size_union_alt, size_singleton.
  assert (list_to_set l ∖ {[x]} ⊆ (list_to_set l : gset string)) as Hsub%subseteq_size
    by (by apply subseteq_difference_l).
  lia.
Qed.

(** The PII figures of a summary: [totalPIIFields] counts the PII
    fields of all files, with repetitions; [uniquePIITypes] counts their
    distinct types, so it is at most the total, zero only when the total
    is, and equal to it when no type comes twice. *)
Theorem summary_pii_counts (results : list Result) (summary : Summary) :
  calculateAggregatedMetrics results = Return summary ->
  let fields :=
    concat (map (fun r => default []
                   (a ← analysis r; s ← Panel.sensitivityAnalysis a; Panel.piiFields s))
              results) in
  totalPIIFields summary = Z.of_nat (length fields)
  /\ uniquePIITypes summary
     = Z.of_nat (size (list_to_set (map type fields) : gset string))
  /\ 0 <= uniquePIITypes summary <= totalPIIFields summary
  /\ (uniquePIITypes summary = 0 <-> totalPIIFields summary = 0)
  /\ (NoDup (map type fields) -> uniquePIITypes summary = totalPIIFields summary).
Proof.
  intros Hrun. cbv zeta.
  destruct (calculateAggregatedMetrics_returns results summary Hrun)
    as (_ & _ & -> & -> & _).
  rewrite pii_collected. cbn [allPIIFields emptyTally app].
  rewrite concat_omap_analysis.
  set (fields := concat (map _ results)).
  assert (fields
          = concat (map (fun r => default []
                           (a ← analysis r; s ← Panel.sensitivityAnalysis a;
                            Panel.piiFields s)) results)) as <-.
  { subst fields. f_equal. apply map_ext. intros r.
    by destruct (analysis r) as [a|]. }
  pose proof (size_list_to_set_le (map type fields)) as Hle.
  rewrite length_map in Hle.
  split; [reflexivity|]. split; [reflexivity|]. split; [lia|]. split.
  - split.
    + intros Hzero. assert (size (list_to_set (map type fields) : gset string) = 0%nat)
        as Hsize by lia.
      apply size_empty_inv in Hsize.
      destruct fields as [|f fields]; [reflexivity|].
      exfalso. cbn [map list_to_set] in Hsize. set_solver.
    + intros Hzero. lia.
  - intros Hnd. rewrite (size_list_to_set _ Hnd), length_map. reflexivity.
Qed.

Lemma summary_pii_counts_witness :
  exists summary,
    calculateAggregatedMetrics [imageResult; tableResult] = Return summary
    /\ let fields :=
         concat (map (fun r => default []
                        (a ← analysis r; s ← Panel.sensitivityAnalysis a; Panel.piiFields s))
                   [imageResult; tableResult]) in
       totalPIIFields summary = Z.of_nat (length fields)
       /\ uniquePIITypes summary
          = Z.of_nat (size (list_to_set (map type fields) : gset string))
       /\ 0 <= uniquePIITypes summary <= totalPIIFields summary
       /\ (uniquePIITypes summary = 0 <-> totalPIIFields summary = 0)
       /\ (NoDup (map type fields) -> uniquePIITypes summary = totalPIIFields summary).
Proof.
  eexists. split; [reflexivity|].
  apply (summary_pii_counts [imageResult; tableResult]). reflexivity.
Defined.

Lemma add_one (n : Z) : add (of_Z n) (of_Z 1) = of_Z (n + 1).
Proof. unfold add, of_Z, inject_Z, Qplus. cbn. do 2 f_equal. lia. Qed.

Lemma risk_counted (level : string) (analyses : list Analysis) (tally : Tally) (n : Z) :
  level <> EmptyString ->
  riskCounts tally !! level = Some (of_Z n) ->
  riskCounts (foldl collect tally analyses) !! level
  = Some (of_Z (n + Z.of_nat
                       (length (filter (fun a => Panel.riskLevel a = Some level) analyses)))).
Proof.
  intros Hlevel. revert tally n.
  induction analyses as [|a analyses IH]; intros tally n Hn.
  - cbn. rewrite Hn. do 2 f_equal. lia.
  - cbn [foldl]. rewrite filter_cons.
    destruct (decide (Panel.riskLevel a = Some level)) as [Ha|Ha].
    + rewrite (IH (collect tally a) (n + 1)).
      * do 2 f_equal. cbn [length]. lia.
      * unfold collect; cbn [riskCounts]. rewrite Ha.
        destruct (String.eqb_spec level EmptyString) as [->|_]; [congruence|].
        unfold increment. rewrite lookup_insert_eq, Hn. f_equal. apply add_one.
    + apply IH. unfold collect; cbn [riskCounts].
      destruct (Panel.riskLevel a) as [other|]; [|exact Hn].
      destruct (String.eqb other EmptyString); [exact Hn|].
      unfold increment. rewrite lookup_insert_ne by congruence. exact Hn.
Qed.

Lemma filter_omap_analysis (P : Analysis -> Prop) `{!forall a, Decision (P a)}
    (Q : Result -> Prop) `{!forall r, Decision (Q r)} (results : list Result) :
  (forall r, Q r <-> exists a, analysis r = Some a /\ P a) ->
  length (filter P (omap analysis results)) = length (filter Q results).
Proof.
  intros HPQ. induction results as [|r results IH]; [reflexivity|].
  cbn [omap list_omap]. rewrite (filter_cons Q).
  destruct (analysis r) as [a|] eqn:Har.
  - rewrite filter_cons. destruct (decide (P a)) as [Hp|Hp]; destruct (decide (Q r)) as [Hq|Hq].
    + cbn [length]. by rewrite IH.
    + exfalso. apply Hq, HPQ. by exists a.
    + exfalso. apply HPQ in Hq as (a' & Ha' & Hp'). congruence.
    + exact IH.
  - destruct (decide (Q r)) as [Hq|Hq]; [|exact IH].
    apply HPQ in Hq as (a' & Ha' & _). congruence.
Qed.

(** The risk distribution of a summary: under each of the four keys it
    starts with is the number of files of the session with that risk
    level. *)
Theorem summary_risk_distribution_counts_files (results : list Result)
    (summary : Summary) :
  calculateAggregatedMetrics results = Return summary ->
  forall level,
    level ∈ ["LOW"; "MEDIUM"; "HIGH"; "CRITICAL"]%string ->
    riskDistribution summary !! level
    = Some (of_Z (Z.of_nat
                    (length (filter (fun r => analysis r ≫= Panel.riskLevel = Some level)
                               results)))).
Proof.
  intros Hrun level Hlevel.
  destruct (calculateAggregatedMetrics_returns results summary Hrun)
    as (_ & _ & _ & _ & -> & _).
  rewrite (risk_counted level _ emptyTally 0).
  - rewrite Z.add_0_l. do 3 f_equal. apply filter_omap_analysis. intros r.
    destruct (analysis r) as [a|]; cbn; split.
    + intros Ha. by exists a.
    + by intros (a' & [= <-] & Ha).
    + discriminate.
    + by intros (a' & [=] & _).
  - intros ->. repeat (apply elem_of_cons in Hlevel as [Hlevel|Hlevel]; [discriminate|]).
    by apply elem_of_nil in Hlevel.
  - repeat (apply elem_of_cons in Hlevel as [->|Hlevel]; [reflexivity|]).
    by apply elem_of_nil in Hlevel.
Qed.

Lemma summary_risk_distribution_counts_files_witness :
  exists summary,
    calculateAggregatedMetrics [imageResult; tableResult] = Return summary
    /\ forall level,
         level ∈ ["LOW"; "MEDIUM"; "HIGH"; "CRITICAL"]%string ->
         riskDistribution summary !! level
         = Some (of_Z (Z.of_nat
                         (length (filter (fun r => analysis r ≫= Panel.riskLevel = Some level)
                                    [imageResult; tableResult])))).
Proof.
  eexists. split; [reflexivity|].
  apply (summary_risk_distribution_counts_files [imageResult; tableResult]). reflexivity.
Defined.

Lemma roundedMean_single (get : Result -> option Z) (fallback : Z) (r : Result) :
  roundedMean get fallback [r] = of_Z (orElse (get r) fallback).
Proof.
  unfold roundedMean. cbn [foldl length]. unfold of_Z at 1 2.
  rewrite div_Fin_pos by reflexivity. cbn [round]. f_equal.
  rewrite <- (round_half_up_Z (orElse (get r) fallback)) at 2.
  apply round_half_up_comp. rewrite Z.add_0_l. change (inject_Z 1) with 1%Q. field.
Qed.

Lemma geb_of_Z (n k : Z) : geb (of_Z n) (of_Z k) = (k <=? n).
Proof.
  cbn [geb of_Z]. destruct (Z.leb_spec k n) as [H|H].
  - apply Qle_bool_iff. by rewrite <- Zle_Qle.
  - apply not_true_iff_false. intros Hq%Qle_bool_iff. rewrite <- Zle_Qle in Hq. lia.
Qed.

(** For a session of one file the panel shows the file's own privacy
    score and, from it, the risk level the engine's [determineRiskLevel]
    gives that score, except that the panel has no CRITICAL: below 55 it
    says HIGH. *)
Theorem single_file_summary_follows_engine_risk (a : Analysis) (score : Z) :
  Panel.privacyScore a = Some score ->
  exists summary,
    calculateAggregatedMetrics [mkResult (Some a)] = Return summary
    /\ avgPrivacyScore summary = of_Z score
    /\ overallRisk summary
       = if String.eqb (determineRiskLevel (of_Z score)) "CRITICAL" then "HIGH"%string
         else determineRiskLevel (of_Z score).
Proof.
  intros Hscore.
  destruct (summary_throws_iff_result_without_analysis_cases [mkResult (Some a)])
    as [(_ & summary & Hrun & _)|(Hex & _)].
  - exists summary. split; [exact Hrun|].
    destruct (calculateAggregatedMetrics_returns _ summary Hrun)
      as (_ & _ & _ & _ & _ & _ & Havg & ->).
    rewrite Havg, roundedMean_single. cbn [analysis mbind option_bind]. rewrite Hscore.
    assert (orElse (Some score) 0 = score) as ->.
    { unfold orElse. destruct (Z.eqb_spec score 0); congruence. }
    split; [reflexivity|].
    unfold determineRiskLevel. rewrite !geb_of_Z.
    destruct (85 <=? score); [reflexivity|].
    destruct (70 <=? score); [reflexivity|].
    destruct (55 <=? score); reflexivity.
  - apply Exists_cons in Hex as [Hex|Hex]; [discriminate|]. by apply Exists_nil in Hex.
Qed.

Lemma single_file_summary_follows_engine_risk_witness :
  exists summary,
    calculateAggregatedMetrics
      [mkResult (Some (mkAnalysis (Some 40) (Some "CRITICAL"%string) None None None None))]
      = Return summary
    /\ avgPrivacyScore summary = of_Z 40
    /\ overallRisk summary
       = if String.eqb (determineRiskLevel (of_Z 40)) "CRITICAL" then "HIGH"%string
         else determineRiskLevel (of_Z 40).
Proof.
  apply (single_file_summary_follows_engine_risk
           (mkAnalysis (Some 40) (Some "CRITICAL"%string) None None None None) 40).
  reflexivity.
Defined.

(** The cell of a framework after a run of [addScore]: the running
    total and count, raised by the scores filed under the framework. *)
Lemma addScore_fold (framework : string) (entries : list (string * ComplianceResult))
    (frameworks : gmap string (Z * Z)) :
  foldl addScore frameworks entries !! framework
  = match filter (fun e => fst e = framework) entries with
    | [] => frameworks !! framework
    | filed =>
        Some (fst (default (0, 0) (frameworks !! framework))
                + Spec.total (map (fun e => score (snd e)) filed),
              snd (default (0, 0) (frameworks !! framework))
                + Z.of_nat (length filed))
    end.
Proof.
  revert frameworks. induction entries as [|e entries IH]; intros frameworks;
    [reflexivity|].
  cbn [foldl]. rewrite IH, filter_cons, addScore_partial_alter.
  destruct (decide (fst e = framework)) as [He|He].
  - rewrite <- He, lookup_partial_alter_eq. rewrite He.
    unfold Spec.bump.
    destruct (filter (fun e0 => fst e0 = framework) entries) as [|e' filed];
      destruct (frameworks !! framework) as [[t c]|];
      cbn [default from_option id fst snd map length]; unfold Spec.total;
      cbn [foldr]; f_equal; f_equal; lia.
  - rewrite lookup_partial_alter_ne by exact He. reflexivity.
Qed.

Lemma frameworks_collected (analyses : list Analysis) (tally : Tally) :
  Panel.complianceFrameworks (foldl collect tally analyses)
  = foldl addScore (Panel.complianceFrameworks tally)
      (concat (map (fun a => default [] (Panel.complianceScores a)) analyses)).
Proof.
  revert tally. induction analyses as [|a analyses IH]; intros tally; [reflexivity|].
  cbn [foldl map concat]. rewrite IH, foldl_app. f_equal.
  unfold collect; cbn [Panel.complianceFrameworks].
  by destruct (Panel.complianceScores a).
Qed.

(** The compliance figures of a summary, for files whose compliance
    scores are filed under the four frameworks of the engine: a
    framework has an entry exactly when some file has a score for it,
    and the entry is the mean of the framework's scores over those files,
    rounded; it is a number and never NaN. *)
Theorem summary_compliance_is_rounded_framework_mean (results : list Result)
    (summary : Summary) :
  calculateAggregatedMetrics results = Return summary ->
  let entries :=
    concat (map (fun r => default [] (a ← analysis r; Panel.complianceScores a))
              results) in
  Forall (fun e => fst e ∈ ["GDPR"; "HIPAA"; "CCPA"; "SOX"]%string) entries ->
  forall framework,
    avgComplianceScores summary !! framework
    = match filter (fun e => fst e = framework) entries with
      | [] => None
      | filed =>
          Some (of_Z (round_half_up (Spec.mean (map (fun e => score (snd e)) filed))))
      end.
Proof.
  intros Hrun entries _ framework.
  destruct (calculateAggregatedMetrics_returns results summary Hrun)
    as (_ & _ & _ & _ & _ & -> & _).
  rewrite lookup_fmap, frameworks_collected, addScore_fold.
  rewrite concat_omap_analysis.
  assert (concat (map (fun r => default []
                         ((fun a => default [] (Panel.complianceScores a)) <$> analysis r))
                    results) = entries) as ->.
  { subst entries. f_equal. apply map_ext. intros r. by destruct (analysis r). }
  destruct (filter (fun e => fst e = framework) entries) as [|e filed]; [reflexivity|].
  cbn [emptyTally Panel.complianceFrameworks]. rewrite lookup_empty.
  cbn [default from_option id fst snd fmap option_fmap option_map].
  rewrite !Z.add_0_l. f_equal.
  rewrite <- (length_map (fun e0 => score (snd e0))).
  rewrite div_length_pos by discriminate. reflexivity.
Qed.

Lemma summary_compliance_is_rounded_framework_mean_witness :
  exists summary,
    calculateAggregatedMetrics [imageResult; tableResult] = Return summary
    /\ forall framework,
         avgComplianceScores summary !! framework
         = match filter (fun e => fst e = framework)
                   (concat (map (fun r => default []
                                   (a ← analysis r; Panel.complianceScores a))
                              [imageResult; tableResult])) with
           | [] => None
           | filed =>
               Some (of_Z (round_half_up
                             (Spec.mean (map (fun e => score (snd e)) filed))))
           end.
Proof.
  eexists. split; [reflexivity|].
  apply (summary_compliance_is_rounded_framework_mean [imageResult; tableResult]).
  - reflexivity.
  - cbn. repeat (apply Forall_cons; split;
                 [repeat (first [by left | right])|]).
    apply Forall_nil_2.
Defined.

(** *** The file processor and the mock API *)

Lemma includes_spec (array : list string) (x : string) :
  Processor.includes array x = true <-> x ∈ array.
Proof.
  unfold Processor.includes. rewrite existsb_exists. split.
  - intros (y & Hin & Heq%String.eqb_eq). subst. by apply list_elem_of_In.
  - intros Hin. exists x. split; [by apply list_elem_of_In|apply String.eqb_refl].
Qed.

(** The validation of the API accepts exactly the files the processor
    can type, and the files named [.txt]: a [.txt] file whose MIME type
    is not listed passes the validation and is then processed as
    [unknown]. *)
Theorem validation_accepts_typed_files_and_txt :
  (forall file,
     Api.isSupportedFileType file = true
     <-> Processor.getFileType file <> Processor.unknown
         \/ Processor.endsWith (Processor.name file) ".txt" = true)
  /\ Api.isSupportedFileType (Processor.mkFile "notes.txt" 1 EmptyString) = true
  /\ Processor.getFileType (Processor.mkFile "notes.txt" 1 EmptyString) = Processor.unknown.
Proof.
  split; [|split; reflexivity].
  intros file. unfold Api.isSupportedFileType, Processor.getFileType. cbv zeta.
  rewrite !orb_true_iff, includes_spec.
  destruct (Processor.endsWith (Processor.name file) ".csv") eqn:Hcsv.
  - rewrite orb_true_r. split; [intros _; left; discriminate|intros _; left; by right].
  - rewrite orb_false_r.
    destruct (Processor.includes (Processor.supportedTypes Processor.csv)
                (Processor.type file)) eqn:H1.
    { apply includes_spec in H1. split; [intros _; left; discriminate|].
      intros _. left. left. cbn in H1.
      repeat (apply elem_of_cons in H1 as [Heq|H1];
              [rewrite Heq; repeat (first [by left | right])|]).
      by apply elem_of_nil in H1. }
    destruct (Processor.includes (Processor.supportedTypes Processor.image)
                (Processor.type file)) eqn:H2.
    { apply includes_spec in H2. split; [intros _; left; discriminate|].
      intros _. left. left. cbn in H2.
      repeat (apply elem_of_cons in H2 as [Heq|H2];
              [rewrite Heq; repeat (first [by left | right])|]).
      by apply elem_of_nil in H2. }
    destruct (Processor.includes (Processor.supportedTypes Processor.document)
                (Processor.type file)) eqn:H3.
    { apply includes_spec in H3. split; [intros _; left; discriminate|].
      intros _. left. left. cbn in H3.
      repeat (apply elem_of_cons in H3 as [Heq|H3];
              [rewrite Heq; repeat (first [by left | right])|]).
      by apply elem_of_nil in H3. }
    apply not_true_iff_false in H1, H2, H3. rewrite includes_spec in H1, H2, H3.
    cbn in H1, H2, H3. split.
    + intros [[Hin|Hc]|Htxt]; [|discriminate|by right].
      exfalso.
      repeat (apply elem_of_cons in Hin as [Hin|Hin];
              [first [ apply H1; rewrite Hin; solve [repeat (first [by left | right])]
                     | apply H2; rewrite Hin; solve [repeat (first [by left | right])]
                     | apply H3; rewrite Hin; solve [repeat (first [by left | right])] ]|]).
      by apply elem_of_nil in Hin.
    + intros [Hne|Htxt]; [congruence|by right].
Qed.

Lemma checkFile_app (errors : list string) (file : Processor.File) :
  Api.checkFile errors file = errors ++ Api.checkFile [] file.
Proof.
  unfold Api.checkFile. cbv zeta.
  destruct (_ <? Processor.size file); destruct (negb (Api.isSupportedFileType file));
    cbn [app]; by rewrite <- ?app_assoc, ?app_nil_r.
Qed.

Lemma foldl_checkFile (files : list Processor.File) (errors : list string) :
  foldl Api.checkFile errors files
  = errors ++ concat (map (Api.checkFile []) files).
Proof.
  revert errors. induction files as [|file files IH]; intros errors.
  - cbn. by rewrite app_nil_r.
  - cbn [foldl map concat]. rewrite IH, checkFile_app, app_assoc. reflexivity.
Qed.

(** [validateFiles] passes exactly the batches of one to ten files that
    are each at most 100 MB and of a supported type; otherwise the
    errors come in the order: no file, too many files, then file by
    file. *)
Theorem validation_passes_iff_batch_and_files_fit (files : list Processor.File) :
  (Api.valid (Api.validateFiles files) = true
   <-> (1 <= length files <= 10)%nat
       /\ Forall (fun file => Processor.size file <= 104857600
                              /\ Api.isSupportedFileType file = true) files)
  /\ Api.errors (Api.validateFiles files)
     = (if (length files =? 0)%nat then ["No files selected"%string] else [])
       ++ (if (10 <? length files)%nat then ["Maximum 10 files allowed"%string] else [])
       ++ concat (map (Api.checkFile []) files).
Proof.
  assert (Api.errors (Api.validateFiles files)
          = (if (length files =? 0)%nat then ["No files selected"%string] else [])
            ++ (if (10 <? length files)%nat then ["Maximum 10 files allowed"%string] else [])
            ++ concat (map (Api.checkFile []) files)) as Herrors.
  { unfold Api.validateFiles. cbv zeta. cbn [Api.errors].
    rewrite foldl_checkFile.
    destruct (length files =? 0)%nat; destruct (10 <? length files)%nat;
      cbn [app]; reflexivity. }
  split; [|exact Herrors].
  assert (Api.valid (Api.validateFiles files)
          = (length (Api.errors (Api.validateFiles files)) =? 0)%nat) as -> by reflexivity.
  rewrite Herrors, Nat.eqb_eq, !length_app.
  assert (length (concat (map (Api.checkFile []) files)) = 0%nat
          <-> Forall (fun file => Processor.size file <= 104857600
                                  /\ Api.isSupportedFileType file = true) files) as Hfiles.
  { clear Herrors.
    induction files as [|file files IH]; [split; [constructor|reflexivity]|].
    cbn [map concat]. rewrite length_app, Forall_cons, <- IH.
    assert (length (Api.checkFile [] file) = 0%nat
            <-> Processor.size file <= 104857600
                /\ Api.isSupportedFileType file = true) as Hfile.
    { unfold Api.checkFile. cbv zeta.
      change (100 * 1024 * 1024) with 104857600.
      destruct (Z.ltb_spec 104857600 (Processor.size file));
        destruct (Api.isSupportedFileType file); cbn; split;
        (lia || (intros [? ?]; (lia || discriminate)) || (intros _; split; (lia || reflexivity))). }
    rewrite <- Hfile. lia. }
  rewrite <- Hfiles.
  destruct (Nat.eqb_spec (length files) 0); destruct (Nat.ltb_spec 10 (length files));
    cbn [length]; lia.
Qed.

(** For a session with at least one file the dashboard of the API and
    the panel agree: the same average privacy score, and the same risk
    level up to the case of its letters.  For no file the API answers 0
    and High. *)
Theorem api_average_and_risk_agree_with_panel (results : list Result)
    (summary : Summary) :
  results <> [] ->
  calculateAggregatedMetrics results = Return summary ->
  avgPrivacyScore summary = Api.calculateAveragePrivacyScore results
  /\ overallRisk summary = Text.toUpperCase (Api.calculateRiskLevel results)
  /\ Api.calculateAveragePrivacyScore [] = of_Z 0
  /\ Api.calculateRiskLevel [] = "High"%string.
Proof.
  intros Hne Hrun.
  destruct (calculateAggregatedMetrics_returns results summary Hrun)
    as (_ & _ & _ & _ & _ & _ & Havg & Hrisk).
  assert (avgPrivacyScore summary = Api.calculateAveragePrivacyScore results) as Hsame.
  { rewrite Havg. unfold Api.calculateAveragePrivacyScore, roundedMean.
    destruct results; [congruence|reflexivity]. }
  split; [exact Hsame|]. split; [|split; reflexivity].
  rewrite Hrisk, Hsame. unfold Api.calculateRiskLevel. cbv zeta.
  destruct (geb (Api.calculateAveragePrivacyScore results) (of_Z 85)); [reflexivity|].
  destruct (geb (Api.calculateAveragePrivacyScore results) (of_Z 70)); reflexivity.
Qed.

Lemma api_average_and_risk_agree_with_panel_witness :
  exists summary,
    calculateAggregatedMetrics [imageResult; tableResult] = Return summary
    /\ avgPrivacyScore summary = Api.calculateAveragePrivacyScore [imageResult; tableResult]
    /\ overallRisk summary
       = Text.toUpperCase (Api.calculateRiskLevel [imageResult; tableResult])
    /\ Api.calculateAveragePrivacyScore [] = of_Z 0
    /\ Api.calculateRiskLevel [] = "High"%string.
Proof.
  eexists. split; [reflexivity|].
  apply (api_average_and_risk_agree_with_panel [imageResult; tableResult]).
  - discriminate.
  - reflexivity.
Defined.

Lemma processor_random_number (lo hi : Z) (s : rng) :
  lo <= hi -> unitDraws s ->
  exists n,
    Processor.getRandomNumber lo hi s = (Return n, fun k => s (S k)) /\ lo <= n <= hi.
Proof.
  intros Hle Hs. destruct (Hs 0%nat) as [H0 H1].
  exact (getRandomNumber_range lo hi s Hle H0 H1).
Qed.

Lemma slice0_take {A : Type} (array : list A) (stop : Z) :
  0 <= stop -> Processor.slice0 array stop = take (Z.to_nat stop) array.
Proof.
  intros Hstop. unfold Processor.slice0.
  destruct (Z.ltb_spec stop 0); [lia|reflexivity].
Qed.

Lemma drawn_objects (types : list string) (s : rng) :
  mapM (fun obj => _ ← Math_random; mret (mkImageObject (Some obj))) types s
  = (Return (map (fun obj => mkImageObject (Some obj)) types),
     fun k => s (length types + k)%nat).
Proof.
  revert s. induction types as [|t types IH]; intros s; [reflexivity|].
  rewrite mapM_cons. unfold mbind at 1, M_bind at 1, Math_random at 1. cbn beta iota.
  unfold mret at 1, M_ret at 1. rewrite IH. reflexivity.
Qed.

Lemma generateImageObjects_classified (s : rng) :
  unitDraws s ->
  exists detectedObjects rest,
    Processor.generateImageObjects s = (Return detectedObjects, rest)
    /\ unitDraws rest
    /\ (2 <= length detectedObjects <= 6)%nat
    /\ map objType detectedObjects
       = map Some (take (length detectedObjects) Processor.objects)
    /\ forall draws,
       exists findings,
         analyzeImageSensitivity
           (mkFileAnalysis (Some "image"%string)
              (Some (mkInsights None (Some detectedObjects) None))) draws
           = (Return findings, draws)
         /\ 61 <= calculateSensitivityScore findings <= 78
         /\ getSensitivityLevel (calculateSensitivityScore findings)
            ∈ ["RESTRICTED"; "CONFIDENTIAL"]%string.
Proof.
  intros Hs. unfold Processor.generateImageObjects, mbind, M_bind.
  destruct (processor_random_number 2 6 s ltac:(lia) Hs) as (stop & -> & Hstop).
  rewrite slice0_take by lia. rewrite drawn_objects.
  eexists _, _. split; [reflexivity|].
  split; [intros k; apply Hs|].
  assert (Z.to_nat stop ∈ [2; 3; 4; 5; 6]%nat) as Hcases.
  { assert (Z.to_nat stop = 2 \/ Z.to_nat stop = 3 \/ Z.to_nat stop = 4
            \/ Z.to_nat stop = 5 \/ Z.to_nat stop = 6)%nat
      as [->|[->|[->|[->| ->]]]] by lia;
      repeat (first [by left | right]). }
  generalize dependent (Z.to_nat stop). intros count Hcount.
  repeat (apply elem_of_cons in Hcount as [->|Hcount];
          [split; [cbn; lia|]; split; [reflexivity|];
           intros draws; unfold analyzeImageSensitivity;
           cbn [insights detectedObjects default from_option id];
           rewrite mapM_classifyObject; eexists; split; [reflexivity|];
           split; [vm_compute; split; discriminate|];
           vm_compute; repeat (first [by left | right])|]).
  by apply elem_of_nil in Hcount.
Qed.


Lemma generateDocumentEntities_classified (s : rng) :
  unitDraws s ->
  exists detectedEntities rest,
    Processor.generateDocumentEntities s = (Return detectedEntities, rest)
    /\ unitDraws rest
    /\ mkEntity "PERSON" ∈ detectedEntities
    /\ mkEntity "DATE" ∈ detectedEntities
    /\ sublist (map entityType detectedEntities)
         ["PERSON"; "ORGANIZATION"; "LOCATION"; "DATE"; "MONEY"]%string
    /\ forall draws,
       exists findings,
         analyzeDocumentSensitivity
           (mkFileAnalysis (Some "document"%string)
              (Some (mkInsights None None (Some detectedEntities)))) draws
           = (Return findings, draws)
         /\ 55 <= calculateSensitivityScore findings <= 75
         /\ getSensitivityLevel (calculateSensitivityScore findings)
            ∈ ["RESTRICTED"; "CONFIDENTIAL"]%string.
Proof.
  intros Hs. unfold Processor.generateDocumentEntities, mbind, M_bind.
  pose proof (unitDraws_tail _ Hs) as Hs1.
  pose proof (unitDraws_tail _ Hs1) as Hs2.
  pose proof (unitDraws_tail _ Hs2) as Hs3.
  pose proof (unitDraws_tail _ Hs3) as Hs4.
  destruct (processor_random_number 1 20 _ ltac:(lia) Hs) as (person & -> & Hperson).
  destruct (processor_random_number 0 10 _ ltac:(lia) Hs1) as (organization & -> & _).
  destruct (processor_random_number 0 15 _ ltac:(lia) Hs2) as (location & -> & _).
  destruct (processor_random_number 1 30 _ ltac:(lia) Hs3) as (date & -> & Hdate).
  destruct (processor_random_number 0 25 _ ltac:(lia) Hs4) as (money & -> & _).
  eexists _, _. split; [reflexivity|].
  split; [intros k; apply Hs|].
  cbn [List.filter snd fst].
  destruct (Z.ltb_spec 0 person); [|lia].
  destruct (Z.ltb_spec 0 date); [|lia].
  destruct (0 <? organization); destruct (0 <? location); destruct (0 <? money);
    cbn [map fst entityType];
    (split; [repeat (first [by left | right])|]);
    (split; [repeat (first [by left | right])|]);
    (split; [repeat first [apply sublist_skip | apply sublist_cons | apply sublist_nil]|]);
    intros draws; (eexists; split; [reflexivity|]);
    (split; [vm_compute; split; discriminate|]);
    vm_compute; repeat (first [by left | right]).
Qed.


Lemma classifyColumn_pii (column : string) (s : rng) :
  unitDraws s ->
  exists f s',
    classifyColumn column s = (Return f, s') /\ unitDraws s'
    /\ isPII f = snd (matchColumn column).
Proof.
  intros Hs. unfold classifyColumn.
  destruct (matchColumn column) as [[maxScore detectedType] pii]. cbn [snd].
  pose proof (unitDraws_tail _ Hs) as Hs1.
  unfold mbind, M_bind.
  destruct (maxScore =? 0).
  - destruct (processor_random_number 10 30 s ltac:(lia) Hs) as (n & Hn & _).
    change (Processor.getRandomNumber 10 30 s) with (getRandomNumber 10 30 s) in Hn.
    rewrite Hn.
    destruct (0 <? maxScore).
    + destruct (processor_random_number 80 95 _ ltac:(lia) Hs1) as (c & Hc & _).
      change (Processor.getRandomNumber 80 95) with (getRandomNumber 80 95) in Hc.
      rewrite Hc. eexists _, _. split; [reflexivity|]. split; [intros k; apply Hs|reflexivity].
    + destruct (processor_random_number 40 70 _ ltac:(lia) Hs1) as (c & Hc & _).
      change (Processor.getRandomNumber 40 70) with (getRandomNumber 40 70) in Hc.
      rewrite Hc. eexists _, _. split; [reflexivity|]. split; [intros k; apply Hs|reflexivity].
  - unfold mret at 1, M_ret at 1.
    destruct (0 <? maxScore).
    + destruct (processor_random_number 80 95 _ ltac:(lia) Hs) as (c & Hc & _).
      change (Processor.getRandomNumber 80 95 s) with (getRandomNumber 80 95 s) in Hc.
      rewrite Hc. eexists _, _. split; [reflexivity|]. split; [intros k; apply Hs|reflexivity].
    + destruct (processor_random_number 40 70 _ ltac:(lia) Hs) as (c & Hc & _).
      change (Processor.getRandomNumber 40 70 s) with (getRandomNumber 40 70 s) in Hc.
      rewrite Hc. eexists _, _. split; [reflexivity|]. split; [intros k; apply Hs|reflexivity].
Qed.

Lemma pii_columns (columns : list string) (findings : list Finding) :
  Forall2 (fun column f => isPII f = snd (matchColumn column)) columns findings ->
  length (filter (fun dt => isPII dt = true) findings)
  = length (filter (fun column => snd (matchColumn column) = true) columns).
Proof.
  induction 1 as [|column f columns findings Hf _ IH]; [reflexivity|].
  rewrite !filter_cons, Hf.
  destruct (decide (snd (matchColumn column) = true)); cbn [length]; by rewrite IH.
Qed.

Lemma generateCSVColumns_classified (s : rng) :
  unitDraws s ->
  exists detectedColumns rest,
    Processor.generateCSVColumns s = (Return detectedColumns, rest)
    /\ unitDraws rest
    /\ (5 <= length detectedColumns <= 10)%nat
    /\ detectedColumns = take (length detectedColumns) Processor.commonColumns
    /\ forall draws,
       unitDraws draws ->
       let table :=
         mkFileAnalysis (Some "csv"%string)
           (Some (mkInsights (Some detectedColumns) None None)) in
       exists findings after,
         analyzeCSVSensitivity table draws = (Return findings, after)
         /\ (length (Engine.piiFields (sensitivityOf findings)) <= 3)%nat
         /\ Forall (fun dt => field dt ∈ ["customer_age"; "product_name"; "email_hash"]%string)
              (Engine.piiFields (sensitivityOf findings))
         /\ L_DIVERSITY
            ∉ map technique (recommendPrivacyTechniques table (sensitivityOf findings)).
Proof.
  intros Hs. unfold Processor.generateCSVColumns, mbind, M_bind.
  destruct (processor_random_number 5 10 s ltac:(lia) Hs) as (stop & -> & Hstop).
  rewrite slice0_take by lia.
  eexists _, _. split; [reflexivity|].
  split; [intros k; apply Hs|].
  assert (length (take (Z.to_nat stop) Processor.commonColumns) = Z.to_nat stop) as Hlen.
  { rewrite length_take. cbn. lia. }
  split; [rewrite Hlen; lia|]. split; [by rewrite Hlen|].
  intros draws Hdraws. cbv zeta.
  set (columns := take (Z.to_nat stop) Processor.commonColumns).
  destruct (mapM_invariant unitDraws classifyColumn
              (fun column f => field f = column /\ isPII f = snd (matchColumn column))
              columns) with (s := draws) as (findings & after & Hrun & _ & HF);
    [|exact Hdraws|].
  { intros column s0 _ Hs0.
    destruct (classifyColumn_pii column s0 Hs0) as (f & s' & Hf & Hs' & Hpii).
    exists f, s'. split; [exact Hf|]. split; [exact Hs'|]. split; [|exact Hpii].
    revert Hf. unfold classifyColumn.
    destruct (matchColumn column) as [[m t] p]. unfold mbind, M_bind.
    destruct (if m =? 0 then getRandomNumber 10 30 else mret m) as [[n|e] s1];
      [|discriminate].
    destruct (if 0 <? m then getRandomNumber 80 95 else getRandomNumber 40 70)
      as [[c|e] s2]; [|discriminate].
    by intros [= <- _]. }
  exists findings, after. split; [exact Hrun|].
  assert (Forall (fun dt => field dt ∈ ["customer_age"; "product_name"; "email_hash"]%string)
            (Engine.piiFields (sensitivityOf findings))) as Hfields.
  { cbn [Engine.piiFields sensitivityOf]. apply Forall_forall. intros dt Hdt.
    apply list_elem_of_filter in Hdt as [Hpii Hin].
    apply list_elem_of_lookup in Hin as [i Hi].
    destruct (Forall2_lookup_r _ _ _ _ _ HF Hi) as (column & Hcol & Hfield & Hmatch).
    rewrite Hfield. rewrite Hpii in Hmatch.
    apply list_elem_of_lookup_2 in Hcol. subst columns.
    pose proof (subseteq_take _ _ _ Hcol) as Hj. clear Hcol.
    unfold Processor.commonColumns in Hj.
    repeat (apply elem_of_cons in Hj as [->|Hj];
            [first [ solve [repeat (first [by left | right])]
                   | exfalso; revert Hmatch; vm_compute; discriminate ]|]).
    by apply elem_of_nil in Hj. }
  assert (length (Engine.piiFields (sensitivityOf findings)) <= 3)%nat as Hcount.
  { cbn [Engine.piiFields sensitivityOf].
    rewrite (pii_columns columns findings)
      by (eapply Forall2_impl; [exact HF|]; by intros ? ? [_ ?]).
    subst columns.
    assert (Z.to_nat stop ∈ [5; 6; 7; 8; 9; 10]%nat) as Hcases.
    { assert (Z.to_nat stop = 5 \/ Z.to_nat stop = 6 \/ Z.to_nat stop = 7
              \/ Z.to_nat stop = 8 \/ Z.to_nat stop = 9 \/ Z.to_nat stop = 10)%nat
        as [->|[->|[->|[->|[->| ->]]]]] by lia;
        repeat (first [by left | right]). }
    clear Hlen Hfields HF Hrun.
    generalize dependent (Z.to_nat stop). intros count Hcount.
    repeat (apply elem_of_cons in Hcount as [->|Hcount];
            [vm_compute; lia|]).
    by apply elem_of_nil in Hcount. }
  split; [exact Hcount|]. split; [exact Hfields|].
  rewrite recommendPrivacyTechniques_uncut. unfold Spec.kindPass. cbn [fileType].
  cbn [String.eqb Ascii.eqb Bool.eqb andb].
  destruct (Nat.ltb_spec 3 (length (Engine.piiFields (sensitivityOf findings)))); [lia|].
  rewrite app_nil_r, tierPass_cases.
  destruct (_ || _);
    [|destruct (String.eqb _ "CONFIDENTIAL"); [|destruct (String.eqb _ "INTERNAL")]];
    cbn [map technique]; intros Hin;
    repeat (apply elem_of_cons in Hin as [Hin|Hin]; [discriminate|]);
    by apply elem_of_nil in Hin.
Qed.


(** [generateInsights] takes six draws before the generator of its kind
    of file and one after it. *)
Lemma generateInsights_image (file : Processor.File) (s : rng) :
  Processor.generateInsights file Processor.image s
  = match Processor.generateImageObjects (fun k => s (6 + k)%nat) with
    | (Return detectedObjects, rest) =>
        (Return (mkInsights None (Some detectedObjects) None), fun k => rest (S k))
    | (Throw e, rest) => (Throw e, rest)
    end.
Proof.
  unfold Processor.generateInsights, Processor.getSensitiveFields,
    Processor.getPrivacyTechniques, Processor.getRecommendations,
    Processor.generateBusinessInsights, Processor.getRandomNumber,
    mbind, M_bind, Math_random, mret, M_ret.
  cbn beta iota zeta.
  match goal with
  | |- context [Processor.generateImageObjects ?draws] =>
      change draws with (fun k => s (6 + k)%nat)
  end.
  destruct (Processor.generateImageObjects _) as [[objs|e] rest]; reflexivity.
Qed.

Lemma generateInsights_document (file : Processor.File) (s : rng) :
  Processor.generateInsights file Processor.document s
  = match Processor.generateDocumentEntities (fun k => s (6 + k)%nat) with
    | (Return detectedEntities, rest) =>
        (Return (mkInsights None None (Some detectedEntities)), fun k => rest (S k))
    | (Throw e, rest) => (Throw e, rest)
    end.
Proof.
  unfold Processor.generateInsights, Processor.getSensitiveFields,
    Processor.getPrivacyTechniques, Processor.getRecommendations,
    Processor.generateBusinessInsights, Processor.getRandomNumber,
    mbind, M_bind, Math_random, mret, M_ret.
  cbn beta iota zeta.
  match goal with
  | |- context [Processor.generateDocumentEntities ?draws] =>
      change draws with (fun k => s (6 + k)%nat)
  end.
  destruct (Processor.generateDocumentEntities _) as [[entities|e] rest]; reflexivity.
Qed.

Lemma generateInsights_csv (file : Processor.File) (s : rng) :
  Processor.generateInsights file Processor.csv s
  = match Processor.generateCSVColumns (fun k => s (6 + k)%nat) with
    | (Return detectedColumns, rest) =>
        (Return (mkInsights (Some detectedColumns) None None), fun k => rest (S k))
    | (Throw e, rest) => (Throw e, rest)
    end.
Proof.
  unfold Processor.generateInsights, Processor.getSensitiveFields,
    Processor.getPrivacyTechniques, Processor.getRecommendations,
    Processor.generateBusinessInsights, Processor.getRandomNumber,
    mbind, M_bind, Math_random, mret, M_ret.
  cbn beta iota zeta.
  match goal with
  | |- context [Processor.generateCSVColumns ?draws] =>
      change draws with (fun k => s (6 + k)%nat)
  end.
  destruct (Processor.generateCSVColumns _) as [[columns|e] rest]; reflexivity.
Qed.

Lemma generateMetrics_range (file : Processor.File) (fileType : Processor.FileType)
    (s : rng) :
  unitDraws s ->
  exists strength level,
    Processor.generateMetrics file fileType s
      = (Return (mkFileMetrics (Some strength) (Some level)), fun k => s (6 + k)%nat)
    /\ 256 <= strength <= 512 /\ 80 <= level <= 95.
Proof.
  intros Hs. unfold Processor.generateMetrics, mbind, M_bind.
  destruct (processor_random_number 256 512 s ltac:(lia) Hs) as (strength & -> & Hstrength).
  destruct (processor_random_number 80 95 _ ltac:(lia) (unitDraws_tail _ Hs))
    as (level & -> & Hlevel).
  exists strength, level. split; [reflexivity|]. split; assumption.
Qed.

(** [baseAnalysis] once the insights are there. *)
Lemma baseAnalysis_runs (file : Processor.File) (s rest : rng) (generated : Insights) :
  unitDraws rest ->
  Processor.generateInsights file (Processor.getFileType file) (fun k => s (S k))
    = (Return generated, rest) ->
  exists strength level,
    Processor.baseAnalysis file s
      = (Return (mkFileAnalysis (Some (Processor.label (Processor.getFileType file)))
                   (Some generated),
                 mkFileMetrics (Some strength) (Some level)),
         fun k => rest (6 + k)%nat)
    /\ 256 <= strength <= 512 /\ 80 <= level <= 95.
Proof.
  intros Hrest Hrun.
  destruct (generateMetrics_range file (Processor.getFileType file) rest Hrest)
    as (strength & level & Hmetrics & Hranges).
  exists strength, level. split; [|exact Hranges].
  unfold Processor.baseAnalysis. cbv zeta. unfold mbind at 1, M_bind at 1.
  unfold Processor.getRandomNumber at 1, mbind at 1, M_bind at 1, Math_random at 1.
  cbn beta iota. unfold mret at 1, M_ret at 1.
  unfold mbind at 1, M_bind at 1. rewrite Hrun.
  unfold mbind at 1, M_bind at 1. rewrite Hmetrics. reflexivity.
Qed.

(** What the processor builds for an image before it calls the engine:
    metrics with an encryption strength from 256 to 512 and an
    anonymization level from 80 to 95, and as detected objects the
    first two to six of the processor's table, each with a type.  So
    the image analyser never throws on it, and the classifier gives it
    a score from 61 to 78: every processed image is CONFIDENTIAL or
    RESTRICTED. *)
Theorem processed_images_are_always_classified (file : Processor.File) (s : rng) :
  Processor.getFileType file = Processor.image ->
  unitDraws s ->
  exists fileAnalysis metrics rest,
    Processor.baseAnalysis file s = (Return (fileAnalysis, metrics), rest)
    /\ unitDraws rest
    /\ fileType fileAnalysis = Some "image"%string
    /\ (exists strength level,
          Panel.encryptionStrength metrics = Some strength /\ 256 <= strength <= 512
          /\ Panel.anonymizationLevel metrics = Some level /\ 80 <= level <= 95)
    /\ (2 <= length (objectsOf fileAnalysis) <= 6)%nat
    /\ map objType (objectsOf fileAnalysis)
       = map Some (take (length (objectsOf fileAnalysis)) Processor.objects)
    /\ forall draws,
       exists findings,
         analyzeImageSensitivity fileAnalysis draws = (Return findings, draws)
         /\ 61 <= calculateSensitivityScore findings <= 78
         /\ getSensitivityLevel (calculateSensitivityScore findings)
            ∈ ["RESTRICTED"; "CONFIDENTIAL"]%string.
Proof.
  intros Hkind Hs.
  pose proof (generateInsights_image file (fun k => s (S k))) as Hinsights.
  destruct (generateImageObjects_classified (fun k => s (S (6 + k))))
    as (objs & rest & Hgen & Hrest & Hlen & Htypes & Hfindings);
    [intros k; apply Hs|].
  cbv beta in Hinsights. rewrite Hgen in Hinsights. rewrite <- Hkind in Hinsights at 1.
  destruct (baseAnalysis_runs file s _ _ (fun k => Hrest (S k)) Hinsights)
    as (strength & level & -> & Hstrength & Hlevel).
  rewrite Hkind. eexists _, _, _. split; [reflexivity|].
  split; [intros k; apply Hrest|]. split; [reflexivity|].
  split.
  { exists strength, level. split; [reflexivity|]. split; [exact Hstrength|].
    split; [reflexivity|exact Hlevel]. }
  split; [exact Hlen|]. split; [exact Htypes|exact Hfindings].
Qed.

Lemma processed_images_are_always_classified_witness :
  exists fileAnalysis metrics rest,
    Processor.baseAnalysis (Processor.mkFile "photo.png" 2048 "image/png") zeroDraws
      = (Return (fileAnalysis, metrics), rest)
    /\ unitDraws rest
    /\ fileType fileAnalysis = Some "image"%string
    /\ (exists strength level,
          Panel.encryptionStrength metrics = Some strength /\ 256 <= strength <= 512
          /\ Panel.anonymizationLevel metrics = Some level /\ 80 <= level <= 95)
    /\ (2 <= length (objectsOf fileAnalysis) <= 6)%nat
    /\ map objType (objectsOf fileAnalysis)
       = map Some (take (length (objectsOf fileAnalysis)) Processor.objects)
    /\ forall draws,
       exists findings,
         analyzeImageSensitivity fileAnalysis draws = (Return findings, draws)
         /\ 61 <= calculateSensitivityScore findings <= 78
         /\ getSensitivityLevel (calculateSensitivityScore findings)
            ∈ ["RESTRICTED"; "CONFIDENTIAL"]%string.
Proof.
  apply (processed_images_are_always_classified
           (Processor.mkFile "photo.png" 2048 "image/png") zeroDraws).
  - reflexivity.
  - intros k. split; [discriminate|reflexivity].
Defined.

(** What the processor builds for a document before it calls the
    engine: metrics in the same ranges, and entities that always
    include PERSON and DATE, whose counts are drawn from 1 up, and are,
    in the order of the processor's table, those of the five types with
    a positive count.  The classifier gives it a score from 55 to 75:
    every processed document is CONFIDENTIAL or RESTRICTED. *)
Theorem processed_documents_always_name_person_and_date (file : Processor.File)
    (s : rng) :
  Processor.getFileType file = Processor.document ->
  unitDraws s ->
  exists fileAnalysis metrics rest,
    Processor.baseAnalysis file s = (Return (fileAnalysis, metrics), rest)
    /\ unitDraws rest
    /\ fileType fileAnalysis = Some "document"%string
    /\ (exists strength level,
          Panel.encryptionStrength metrics = Some strength /\ 256 <= strength <= 512
          /\ Panel.anonymizationLevel metrics = Some level /\ 80 <= level <= 95)
    /\ mkEntity "PERSON" ∈ entitiesOf fileAnalysis
    /\ mkEntity "DATE" ∈ entitiesOf fileAnalysis
    /\ sublist (map entityType (entitiesOf fileAnalysis))
         ["PERSON"; "ORGANIZATION"; "LOCATION"; "DATE"; "MONEY"]%string
    /\ forall draws,
       exists findings,
         analyzeDocumentSensitivity fileAnalysis draws = (Return findings, draws)
         /\ 55 <= calculateSensitivityScore findings <= 75
         /\ getSensitivityLevel (calculateSensitivityScore findings)
            ∈ ["RESTRICTED"; "CONFIDENTIAL"]%string.
Proof.
  intros Hkind Hs.
  pose proof (generateInsights_document file (fun k => s (S k))) as Hinsights.
  destruct (generateDocumentEntities_classified (fun k => s (S (6 + k))))
    as (entities & rest & Hgen & Hrest & Hperson & Hdate & Hsub & Hfindings);
    [intros k; apply Hs|].
  cbv beta in Hinsights. rewrite Hgen in Hinsights. rewrite <- Hkind in Hinsights at 1.
  destruct (baseAnalysis_runs file s _ _ (fun k => Hrest (S k)) Hinsights)
    as (strength & level & -> & Hstrength & Hlevel).
  rewrite Hkind. eexists _, _, _. split; [reflexivity|].
  split; [intros k; apply Hrest|]. split; [reflexivity|].
  split.
  { exists strength, level. split; [reflexivity|]. split; [exact Hstrength|].
    split; [reflexivity|exact Hlevel]. }
  split; [exact Hperson|]. split; [exact Hdate|]. split; [exact Hsub|exact Hfindings].
Qed.

Lemma processed_documents_always_name_person_and_date_witness :
  exists fileAnalysis metrics rest,
    Processor.baseAnalysis (Processor.mkFile "report.pdf" 2048 "application/pdf") zeroDraws
      = (Return (fileAnalysis, metrics), rest)
    /\ unitDraws rest
    /\ fileType fileAnalysis = Some "document"%string
    /\ (exists strength level,
          Panel.encryptionStrength metrics = Some strength /\ 256 <= strength <= 512
          /\ Panel.anonymizationLevel metrics = Some level /\ 80 <= level <= 95)
    /\ mkEntity "PERSON" ∈ entitiesOf fileAnalysis
    /\ mkEntity "DATE" ∈ entitiesOf fileAnalysis
    /\ sublist (map entityType (entitiesOf fileAnalysis))
         ["PERSON"; "ORGANIZATION"; "LOCATION"; "DATE"; "MONEY"]%string
    /\ forall draws,
       exists findings,
         analyzeDocumentSensitivity fileAnalysis draws = (Return findings, draws)
         /\ 55 <= calculateSensitivityScore findings <= 75
         /\ getSensitivityLevel (calculateSensitivityScore findings)
            ∈ ["RESTRICTED"; "CONFIDENTIAL"]%string.
Proof.
  apply (processed_documents_always_name_person_and_date
           (Processor.mkFile "report.pdf" 2048 "application/pdf") zeroDraws).
  - reflexivity.
  - intros k. split; [discriminate|reflexivity].
Defined.

(** What the processor builds for a table before it calls the engine:
    metrics in the same ranges, and as columns the first five to ten of
    the processor's table, of which only [customer_age], [product_name]
    and [email_hash] match a pattern.  So a processed table has at most
    three PII fields, and the recommender, which wants more than three,
    never adds l-diversity for it. *)
Theorem processed_tables_never_get_l_diversity (file : Processor.File) (s : rng) :
  Processor.getFileType file = Processor.csv ->
  unitDraws s ->
  exists fileAnalysis metrics rest,
    Processor.baseAnalysis file s = (Return (fileAnalysis, metrics), rest)
    /\ unitDraws rest
    /\ fileType fileAnalysis = Some "csv"%string
    /\ (exists strength level,
          Panel.encryptionStrength metrics = Some strength /\ 256 <= strength <= 512
          /\ Panel.anonymizationLevel metrics = Some level /\ 80 <= level <= 95)
    /\ (5 <= length (columnsOf fileAnalysis) <= 10)%nat
    /\ columnsOf fileAnalysis
       = take (length (columnsOf fileAnalysis)) Processor.commonColumns
    /\ forall draws,
       unitDraws draws ->
       exists findings after,
         analyzeCSVSensitivity fileAnalysis draws = (Return findings, after)
         /\ (length (Engine.piiFields (sensitivityOf findings)) <= 3)%nat
         /\ Forall (fun dt => field dt ∈ ["customer_age"; "product_name"; "email_hash"]%string)
              (Engine.piiFields (sensitivityOf findings))
         /\ L_DIVERSITY
            ∉ map technique
                (recommendPrivacyTechniques fileAnalysis (sensitivityOf findings)).
Proof.
  intros Hkind Hs.
  pose proof (generateInsights_csv file (fun k => s (S k))) as Hinsights.
  destruct (generateCSVColumns_classified (fun k => s (S (6 + k))))
    as (columns & rest & Hgen & Hrest & Hlen & Hprefix & Hfindings);
    [intros k; apply Hs|].
  cbv beta in Hinsights. rewrite Hgen in Hinsights. rewrite <- Hkind in Hinsights at 1.
  destruct (baseAnalysis_runs file s _ _ (fun k => Hrest (S k)) Hinsights)
    as (strength & level & -> & Hstrength & Hlevel).
  rewrite Hkind. eexists _, _, _. split; [reflexivity|].
  split; [intros k; apply Hrest|]. split; [reflexivity|].
  split.
  { exists strength, level. split; [reflexivity|]. split; [exact Hstrength|].
    split; [reflexivity|exact Hlevel]. }
  split; [exact Hlen|]. split; [exact Hprefix|exact Hfindings].
Qed.

Lemma processed_tables_never_get_l_diversity_witness :
  exists fileAnalysis metrics rest,
    Processor.baseAnalysis (Processor.mkFile "sales.csv" 2048 "text/csv") zeroDraws
      = (Return (fileAnalysis, metrics), rest)
    /\ unitDraws rest
    /\ fileType fileAnalysis = Some "csv"%string
    /\ (exists strength level,
          Panel.encryptionStrength metrics = Some strength /\ 256 <= strength <= 512
          /\ Panel.anonymizationLevel metrics = Some level /\ 80 <= level <= 95)
    /\ (5 <= length (columnsOf fileAnalysis) <= 10)%nat
    /\ columnsOf fileAnalysis
       = take (length (columnsOf fileAnalysis)) Processor.commonColumns
    /\ forall draws,
       unitDraws draws ->
       exists findings after,
         analyzeCSVSensitivity fileAnalysis draws = (Return findings, after)
         /\ (length (Engine.piiFields (sensitivityOf findings)) <= 3)%nat
         /\ Forall (fun dt => field dt ∈ ["customer_age"; "product_name"; "email_hash"]%string)
              (Engine.piiFields (sensitivityOf findings))
         /\ L_DIVERSITY
            ∉ map technique
                (recommendPrivacyTechniques fileAnalysis (sensitivityOf findings)).
Proof.
  apply (processed_tables_never_get_l_diversity
           (Processor.mkFile "sales.csv" 2048 "text/csv") zeroDraws).
  - reflexivity.
  - intros k. split; [discriminate|reflexivity].
Defined.
